(** * torchsr dataset adapters: directory matching and index pairing

    A shallow embedding of [src/datasets/div2k.py]: the classes [Folder] and
    [FolderByDir] and the static tables of [Div2K], [Set5], [Set14], [B100]
    and [Urban100].

    Python objects are modelled by explicit state passing.  The state holds
    the attributes of [self] (an attribute that was never assigned is
    [None]; reading it raises [AttributeError]), the directory tree seen by
    [os.listdir], and the trace of the external calls (directory listings
    and archive downloads) made so far.  Exceptions are the left summand of
    the result. *)

From Stdlib Require Import ZArith String Ascii List Lia.
From stdpp Require Import base option list gmap strings sorting pretty.

Open Scope Z_scope.

(** ** Exceptions *)

Inductive exn : Type :=
| ValueError (msg : string)
| IndexError
| AttributeError (attr : string)
| FileNotFoundError (path : string)
| ExternalError (msg : string).

(** ** Strings: f-string pieces, [os.path.join], [sorted] *)

(** [repr] of a [str] without quotes or escapes in it, and of a list of
    such. *)
Definition repr_str (s : string) : string := "'" +:+ s +:+ "'".

Definition repr_list (l : list string) : string :=
  "[" +:+ String.concat ", " (repr_str <$> l) +:+ "]".

(** [str] of an [int]. *)
Definition str_int (n : Z) : string := pretty n.

Definition startswith_sep (b : string) : bool :=
  match b with
  | String "/" _ => true
  | _ => false
  end.

Fixpoint endswith_sep (a : string) : bool :=
  match a with
  | EmptyString => false
  | String c EmptyString => if Ascii.eqb c "/" then true else false
  | String _ a' => endswith_sep a'
  end.

(** One step of the loop of [posixpath.join]. *)
Definition join_step (path b : string) : string :=
  if startswith_sep b then b
  else if String.eqb path "" || endswith_sep path then path +:+ b
  else path +:+ "/" +:+ b.

(** [os.path.join(a, *p)] on a POSIX system. *)
Definition os_path_join (a : string) (p : list string) : string :=
  foldl join_step a p.

Global Arguments os_path_join : simpl never.

(** [sorted] on a list of [str]: the order is the lexicographic order on
    code points, which on UTF-8 encoded names is the order on bytes.  The
    order is total and antisymmetric, so the result does not depend on the
    sorting algorithm. *)
Definition sorted (l : list string) : list string :=
  merge_sort String.le l.

(** [b in a] on strings. *)
Fixpoint contains (a b : string) : bool :=
  String.prefix b a ||
  match a with
  | EmptyString => false
  | String _ a' => contains a' b
  end.

(** ** Indexing *)

(** [l[i]] for an index produced by [range] or [enumerate]. *)
Definition getitem_nat {A} (l : list A) (i : nat) : exn + A :=
  match l !! i with
  | Some x => inr x
  | None => inl IndexError
  end.

(** [l[i]] for an arbitrary [int]: negative indices count from the end. *)
Definition getitem {A} (l : list A) (i : Z) : exn + A :=
  let n := Z.of_nat (length l) in
  let j := if decide (i < 0) then i + n else i in
  if decide (0 <= j < n) then getitem_nat l (Z.to_nat j) else inl IndexError.

(** ** Class attributes *)

Definition key : Type := string * string * Z.

(** The class attributes [urls] and [track_dirs] that each subclass of
    [FolderByDir] overrides.  [urls] is iterated, so its order is kept. *)
Record FolderByDirClass : Type := {
  urls : list (string * string);
  track_dirs : gmap key string
}.

(** ** Instance attributes, the world, and the monad *)

Inductive event : Type :=
| EvListdir (path : string)
| EvDownload (url root md5 : string).

Definition FS : Type := gmap string (list string).

Section Model.

Context {Image : Type}.

Record Self : Type := {
  split : option string;
  tracks : option (list string);
  root : option string;
  loader : option (string → exn + Image);
  transform : option (option (list Image → exn + list Image));
  scales : option (list Z);
  samples : option (list (list string))
}.

(** A freshly allocated object: no attribute is set. *)
Definition new_object : Self :=
  {| split := None; tracks := None; root := None; loader := None;
     transform := None; scales := None; samples := None |}.

Record State : Type := {
  self : Self;
  fs : FS;
  trace : list event
}.

Definition M (A : Type) : Type := State → (exn + A) * State.

Definition ret {A} (x : A) : M A := λ st, (inr x, st).

Definition raise {A} (e : exn) : M A := λ st, (inl e, st).

Definition bind {A B} (m : M A) (k : A → M B) : M B := λ st,
  match m st with
  | (inr x, st') => k x st'
  | (inl e, st') => (inl e, st')
  end.

Definition lift {A} (r : exn + A) : M A := λ st, (r, st).

End Model.

Arguments Self : clear implicits.
Arguments State : clear implicits.
Arguments M : clear implicits.

Notation "x <- m ;; k" := (bind m (λ x, k))
  (at level 100, m at next level, right associativity,
   format "'[v' x  <-  m  ;;  '/' k ']'").
Notation "m1 ;;; m2" := (bind m1 (λ _, m2))
  (at level 100, right associativity).

Section Loops.

Context {Image : Type}.

(** [[f(x) for x in l]] and [for x in l: f(x)], left to right, stopping at
    the first exception. *)
Fixpoint forM {A B} (f : A → M Image B) (l : list A) : M Image (list B) :=
  match l with
  | [] => ret []
  | x :: l' => y <- f x ;; ys <- forM f l' ;; ret (y :: ys)
  end.

Fixpoint forM_ {A} (f : A → M Image unit) (l : list A) : M Image unit :=
  match l with
  | [] => ret tt
  | x :: l' => f x ;;; forM_ f l'
  end.

(** [enumerate(l)]. *)
Definition enumerate {A} (l : list A) : list (nat * A) :=
  zip (seq 0 (length l)) l.

(** *** Attribute access *)

Definition attr {A} (name : string) (proj : Self Image → option A) : M Image A :=
  λ st, match proj (self st) with
        | Some x => (inr x, st)
        | None => (inl (AttributeError name), st)
        end.

Definition set_self (f : Self Image → Self Image) : M Image unit :=
  λ st, (inr tt, {| self := f (self st); fs := fs st; trace := trace st |}).

Definition set_split (v : string) : M Image unit :=
  set_self (λ s, {| split := Some v; tracks := tracks s; root := root s;
                    loader := loader s; transform := transform s;
                    scales := scales s; samples := samples s |}).

Definition set_tracks (v : list string) : M Image unit :=
  set_self (λ s, {| split := split s; tracks := Some v; root := root s;
                    loader := loader s; transform := transform s;
                    scales := scales s; samples := samples s |}).

Definition set_root (v : string) : M Image unit :=
  set_self (λ s, {| split := split s; tracks := tracks s; root := Some v;
                    loader := loader s; transform := transform s;
                    scales := scales s; samples := samples s |}).

Definition set_loader (v : string → exn + Image) : M Image unit :=
  set_self (λ s, {| split := split s; tracks := tracks s; root := root s;
                    loader := Some v; transform := transform s;
                    scales := scales s; samples := samples s |}).

Definition set_transform (v : option (list Image → exn + list Image)) : M Image unit :=
  set_self (λ s, {| split := split s; tracks := tracks s; root := root s;
                    loader := loader s; transform := Some v;
                    scales := scales s; samples := samples s |}).

Definition set_scales (v : list Z) : M Image unit :=
  set_self (λ s, {| split := split s; tracks := tracks s; root := root s;
                    loader := loader s; transform := transform s;
                    scales := Some v; samples := samples s |}).

Definition set_samples (v : list (list string)) : M Image unit :=
  set_self (λ s, {| split := split s; tracks := tracks s; root := root s;
                    loader := loader s; transform := transform s;
                    scales := scales s; samples := Some v |}).

(** *** External calls *)

Definition log (e : event) (st : State Image) : State Image :=
  {| self := self st; fs := fs st; trace := trace st ++ [e] |}.

(** [os.listdir(path)]: the names in the directory, in the order the
    operating system gives them. *)
Definition os_listdir (path : string) : M Image (list string) := λ st,
  match fs st !! path with
  | Some names => (inr names, log (EvListdir path) st)
  | None => (inl (FileNotFoundError path), log (EvListdir path) st)
  end.

End Loops.

(** ** The classes [Folder] and [FolderByDir] *)

Section FolderByDir.

Context {Image : Type}.

(** The class attributes of the subclass the object belongs to. *)
Variable cls : FolderByDirClass.

(** The order in which a [set] of strings is iterated: it depends on the
    hashes of the strings and is not fixed by the language. *)
Variable set_order : gset string → list string.

(** [os.path.expanduser], which depends on the environment. *)
Variable expanduser : string → string.

(** [torchvision.datasets.utils.download_and_extract_archive url root md5]:
    its effect on the directory tree, or the failure it reports. *)
Variable download_and_extract_archive :
  string → string → string → FS → string + FS.

Abbreviation M := (M Image).

(** *** [Folder] *)

Definition Folder_init (root_ : string) (scales_ : list Z)
    (transform_ : option (list Image → exn + list Image))
    (loader_ : string → exn + Image) : M unit :=
  set_root (expanduser root_) ;;;
  set_loader loader_ ;;;
  set_transform transform_ ;;;
  set_scales scales_ ;;;
  set_samples [].

Definition Folder_getitem (index : Z) : M (list Image) :=
  samples_ <- attr "samples" samples ;;
  paths <- lift (getitem samples_ index) ;;
  images <- forM (λ path, loader_ <- attr "loader" loader ;;
                          lift (loader_ path)) paths ;;
  transform_ <- attr "transform" transform ;;
  match transform_ with
  | Some f => lift (f images)
  | None => ret images
  end.

Definition Folder_len : M nat :=
  samples_ <- attr "samples" samples ;;
  ret (length samples_).

(** *** [FolderByDir] *)

Definition get_tracks : gset string :=
  set_map (λ k : key, k.1.1) (dom (track_dirs cls)).

Definition get_splits : gset string :=
  set_map (λ k : key, k.1.2) (dom (track_dirs cls)).

Definition has_split (split_ : string) : bool :=
  bool_decide (split_ ∈ get_splits).

Definition msg_track (track : string) : string :=
  "Track " +:+ track +:+ " does not exist. Use one of "
    +:+ repr_list (set_order get_tracks).

Definition msg_split (split_ : string) : string :=
  "Split " +:+ split_ +:+ " is not valid".

Definition msg_scale (track : string) (scale : Z) : string :=
  "Div2K track " +:+ track +:+ " does not include scale X" +:+ str_int scale.

Definition get_dir (track split_ : string) (scale : Z) : M string :=
  match track_dirs cls !! (track, split_, scale) with
  | None =>
      if decide (track ∉ get_tracks) then raise (ValueError (msg_track track))
      else if decide (split_ ∉ get_splits) then raise (ValueError (msg_split split_))
      else raise (ValueError (msg_scale track scale))
  | Some rel =>
      root_ <- attr "root" root ;;
      ret (os_path_join root_ [rel])
  end.

Definition list_samples (track split_ : string) (scale : Z) : M (list string) :=
  track_dir <- get_dir track split_ scale ;;
  names <- os_listdir track_dir ;;
  let all_samples := sorted names in
  ret ((λ s, os_path_join track_dir [s]) <$> all_samples).

Definition msg_count (track : string) (scale : Z) : string :=
  "Number of files for " +:+ track +:+ "X" +:+ str_int scale
    +:+ " does not match HR".

(** The loop of lines 101-103. *)
Definition check_counts (samples_ : list (list string)) : M unit :=
  forM_ (λ '(i, s),
           s0 <- lift (getitem samples_ 0) ;;
           if decide (length s ≠ length s0) then
             tracks_ <- attr "tracks" tracks ;;
             t <- lift (getitem_nat tracks_ i) ;;
             scales_ <- attr "scales" scales ;;
             sc <- lift (getitem_nat scales_ i) ;;
             raise (ValueError (msg_count t sc))
           else ret tt)
        (enumerate (drop 1 samples_)).

(** [self.samples.append([s[i] for s in samples])]: the list to append to
    is looked up first, then the row is built and appended. *)
Definition append_row (samples_ : list (list string)) (i : nat) : M unit :=
  acc <- attr "samples" samples ;;
  row <- forM (λ s, lift (getitem_nat s i)) samples_ ;;
  set_samples (acc ++ [row]).

(** The loop of lines 105-106. *)
Definition pair_samples (samples_ : list (list string)) : M unit :=
  s0 <- lift (getitem samples_ 0) ;;
  forM_ (append_row samples_) (seq 0 (length s0)).

Definition init_samples : M unit :=
  split_ <- attr "split" split ;;
  all_tracks <-
    (if decide (is_Some (track_dirs cls !! ("hr"%string, split_, 1))) then
       tracks_ <- attr "tracks" tracks ;;
       scales_ <- attr "scales" scales ;;
       ret (zip ("hr"%string :: tracks_) (1 :: scales_))
     else
       tracks_ <- attr "tracks" tracks ;;
       scales_ <- attr "scales" scales ;;
       ret (zip tracks_ scales_)) ;;
  samples_ <- forM (λ '(track, scale),
                      split_ <- attr "split" split ;;
                      list_samples track split_ scale) all_tracks ;;
  check_counts samples_ ;;;
  set_samples [] ;;;
  pair_samples samples_.

Definition download_one (url root_ md5sum : string) : M unit := λ st,
  let st' := log (EvDownload url root_ md5sum) st in
  match download_and_extract_archive url root_ md5sum (fs st) with
  | inr fs' => (inr tt, {| self := self st'; fs := fs'; trace := trace st' |})
  | inl msg => (inl (ExternalError msg), st')
  end.

Definition download : M unit :=
  forM_ (λ '(url, md5sum),
           root_ <- attr "root" root ;;
           download_one url root_ md5sum)
        (urls cls).

(** Lines 55-58: the scale and track arguments as lists. *)
Definition scale_list (scale : Z + list Z) : list Z :=
  match scale with
  | inl n => [n]
  | inr l => l
  end.

Definition track_list (track : string + list string) (scale : list Z) : list string :=
  match track with
  | inl t => replicate (length scale) t
  | inr l => l
  end.

Definition msg_lengths : string :=
  "The number of scales and of tracks must be the same".

Definition FolderByDir_init (root_ : string) (scale : Z + list Z)
    (track : string + list string) (split_ : string)
    (transform_ : option (list Image → exn + list Image))
    (loader_ : string → exn + Image) (download_ : bool) : M unit :=
  let scale := scale_list scale in
  let track := track_list track scale in
  if decide (length track ≠ length scale) then raise (ValueError msg_lengths)
  else
    set_split split_ ;;;
    set_tracks track ;;;
    Folder_init root_ scale transform_ loader_ ;;;
    (if download_ then download else ret tt) ;;;
    init_samples.

End FolderByDir.

(** ** The datasets *)

Definition benchmark_urls : list (string * string) :=
  [("https://cv.snu.ac.kr/research/EDSR/benchmark.tar",
    "4ace41d33c2384b97e6b320cd0afd6ba")]%string.

Definition benchmark_dirs (name : string) : gmap key string :=
  list_to_map
    [ (("hr", "val", 1), os_path_join "benchmark" [name; "HR"])
    ; (("bicubic", "val", 2), os_path_join "benchmark" [name; "LR_bicubic"; "X2"])
    ; (("bicubic", "val", 3), os_path_join "benchmark" [name; "LR_bicubic"; "X3"])
    ; (("bicubic", "val", 4), os_path_join "benchmark" [name; "LR_bicubic"; "X4"])
    ]%string.

Definition Div2K : FolderByDirClass := {|
  urls :=
    [ ("http://data.vision.ee.ethz.ch/cvl/DIV2K/DIV2K_train_HR.zip", "bdc2d9338d4e574fe81bf7d158758658")
    ; ("http://data.vision.ee.ethz.ch/cvl/DIV2K/DIV2K_train_LR_bicubic_X2.zip", "9a637d2ef4db0d0a81182be37fb00692")
    ; ("http://data.vision.ee.ethz.ch/cvl/DIV2K/DIV2K_train_LR_bicubic_X3.zip", "ad80b9fe40c049a07a8a6c51bfab3b6d")
    ; ("http://data.vision.ee.ethz.ch/cvl/DIV2K/DIV2K_train_LR_bicubic_X4.zip", "76c43ec4155851901ebbe8339846d93d")
    ; ("http://data.vision.ee.ethz.ch/cvl/DIV2K/DIV2K_train_LR_unknown_X2.zip", "1396d023072c9aaeb999c28b81315233")
    ; ("http://data.vision.ee.ethz.ch/cvl/DIV2K/DIV2K_train_LR_unknown_X3.zip", "4e651308aaa54d917fb1264395b7f6fa")
    ; ("http://data.vision.ee.ethz.ch/cvl/DIV2K/DIV2K_train_LR_unknown_X4.zip", "e3c7febb1b3f78bd30f9ba15fe8e3956")
    ; ("http://data.vision.ee.ethz.ch/cvl/DIV2K/DIV2K_train_LR_x8.zip", "613db1b855721b3d2b26f4194a1d22a6")
    ; ("http://data.vision.ee.ethz.ch/cvl/DIV2K/DIV2K_train_LR_mild.zip", "807b3e3a5156f35bd3a86c5bbfb674bc")
    ; ("http://data.vision.ee.ethz.ch/cvl/DIV2K/DIV2K_train_LR_difficult.zip", "5a8f2b9e0c5f5ed0dac271c1293662f4")
    ; ("http://data.vision.ee.ethz.ch/cvl/DIV2K/DIV2K_train_LR_wild.zip", "d00982366bffee7c4739ba7ff1316b3b")
    ; ("http://data.vision.ee.ethz.ch/cvl/DIV2K/DIV2K_valid_HR.zip", "9fcdda83005c5e5997799b69f955ff88")
    ; ("http://data.vision.ee.ethz.ch/cvl/DIV2K/DIV2K_valid_LR_bicubic_X2.zip", "1512c9a3f7bde2a1a21a73044e46b9cb")
    ; ("http://data.vision.ee.ethz.ch/cvl/DIV2K/DIV2K_valid_LR_bicubic_X3.zip", "18b1d310f9f88c13618c287927b29898")
    ; ("http://data.vision.ee.ethz.ch/cvl/DIV2K/DIV2K_valid_LR_bicubic_X4.zip", "21962de700c8d368c6ff83314480eff0")
    ; ("http://data.vision.ee.ethz.ch/cvl/DIV2K/DIV2K_valid_LR_unknown_X2.zip", "d319bd9033573d21de5395e6454f34f8")
    ; ("http://data.vision.ee.ethz.ch/cvl/DIV2K/DIV2K_valid_LR_unknown_X3.zip", "05184168e3608b5c539fbfb46bcade4f")
    ; ("http://data.vision.ee.ethz.ch/cvl/DIV2K/DIV2K_valid_LR_unknown_X4.zip", "8ac3413102bb3d0adc67012efb8a6c94")
    ; ("http://data.vision.ee.ethz.ch/cvl/DIV2K/DIV2K_valid_LR_x8.zip", "c5aeea2004e297e9ff3abfbe143576a5")
    ; ("http://data.vision.ee.ethz.ch/cvl/DIV2K/DIV2K_valid_LR_mild.zip", "8c433f812ca532eed62c11ec0de08370")
    ; ("http://data.vision.ee.ethz.ch/cvl/DIV2K/DIV2K_valid_LR_difficult.zip", "1620af11bf82996bc94df655cb6490fe")
    ; ("http://data.vision.ee.ethz.ch/cvl/DIV2K/DIV2K_valid_LR_wild.zip", "aacae8db6bec39151ca5bb9c80bf2f6c")
    ; ("http://data.vision.ee.ethz.ch/cvl/DIV2K/DIV2K_test_LR_bicubic_X2.zip", "8acf28bea75077e0e7f091c5b2833740")
    ; ("http://data.vision.ee.ethz.ch/cvl/DIV2K/DIV2K_test_LR_bicubic_X3.zip", "2379a7d09c0466e93783398873edd168")
    ; ("http://data.vision.ee.ethz.ch/cvl/DIV2K/DIV2K_test_LR_bicubic_X4.zip", "6f7cc64f0d8da00b415edd1bc3ef50c3")
    ; ("http://data.vision.ee.ethz.ch/cvl/DIV2K/DIV2K_test_LR_unknown_X2.zip", "8fbf73d6aaa28f88c1826db4527356cf")
    ; ("http://data.vision.ee.ethz.ch/cvl/DIV2K/DIV2K_test_LR_unknown_X3.zip", "0da7370efb61d4a49be29e84c8071cfb")
    ; ("http://data.vision.ee.ethz.ch/cvl/DIV2K/DIV2K_test_LR_unknown_X4.zip", "1bc4643dbadc18617aa19a865f1b2b28")
    ]%string;
  track_dirs :=
    list_to_map
      [ (("hr", "train", 1), os_path_join "DIV2K_train_HR" [])
      ; (("bicubic", "train", 2), os_path_join "DIV2K_train_LR_bicubic" ["X2"])
      ; (("bicubic", "train", 3), os_path_join "DIV2K_train_LR_bicubic" ["X3"])
      ; (("bicubic", "train", 4), os_path_join "DIV2K_train_LR_bicubic" ["X4"])
      ; (("bicubic", "train", 8), os_path_join "DIV2K_train_LR_X8" [])
      ; (("unknown", "train", 2), os_path_join "DIV2K_train_LR_unknown" ["X2"])
      ; (("unknown", "train", 3), os_path_join "DIV2K_train_LR_unknown" ["X3"])
      ; (("unknown", "train", 4), os_path_join "DIV2K_train_LR_unknown" ["X4"])
      ; (("real_mild", "train", 4), os_path_join "DIV2K_train_LR_mild" [])
      ; (("real_difficult", "train", 4), os_path_join "DIV2K_train_LR_difficult" [])
      ; (("hr", "val", 1), os_path_join "DIV2K_valid_HR" [])
      ; (("bicubic", "val", 2), os_path_join "DIV2K_valid_LR_bicubic" ["X2"])
      ; (("bicubic", "val", 3), os_path_join "DIV2K_valid_LR_bicubic" ["X3"])
      ; (("bicubic", "val", 4), os_path_join "DIV2K_valid_LR_bicubic" ["X4"])
      ; (("bicubic", "val", 8), os_path_join "DIV2K_valid_LR_X8" [])
      ; (("unknown", "val", 2), os_path_join "DIV2K_valid_LR_unknown" ["X2"])
      ; (("unknown", "val", 3), os_path_join "DIV2K_valid_LR_unknown" ["X3"])
      ; (("unknown", "val", 4), os_path_join "DIV2K_valid_LR_unknown" ["X4"])
      ; (("real_mild", "val", 4), os_path_join "DIV2K_valid_LR_mild" [])
      ; (("real_difficult", "val", 4), os_path_join "DIV2K_valid_LR_difficult" [])
      ; (("bicubic", "test", 2), os_path_join "DIV2K_test_LR_bicubic" ["X2"])
      ; (("bicubic", "test", 3), os_path_join "DIV2K_test_LR_bicubic" ["X3"])
      ; (("bicubic", "test", 4), os_path_join "DIV2K_test_LR_bicubic" ["X4"])
      ; (("unknown", "test", 2), os_path_join "DIV2K_test_LR_unknown" ["X2"])
      ; (("unknown", "test", 3), os_path_join "DIV2K_test_LR_unknown" ["X3"])
      ; (("unknown", "test", 4), os_path_join "DIV2K_test_LR_unknown" ["X4"])
      ]%string
|}.

Definition Set5 : FolderByDirClass :=
  {| urls := benchmark_urls; track_dirs := benchmark_dirs "Set5" |}.

Definition Set14 : FolderByDirClass :=
  {| urls := benchmark_urls; track_dirs := benchmark_dirs "Set14" |}.

Definition B100 : FolderByDirClass :=
  {| urls := benchmark_urls; track_dirs := benchmark_dirs "B100" |}.

Definition Urban100 : FolderByDirClass :=
  {| urls := benchmark_urls; track_dirs := benchmark_dirs "Urban100" |}.

Section Datasets.

Context {Image : Type}.
Variable set_order : gset string → list string.
Variable expanduser : string → string.
Variable download_and_extract_archive :
  string → string → string → FS → string + FS.

Definition Div2K_init (root_ : string) (scale : Z + list Z)
    (track : string + list string) (split_ : string)
    (transform_ : option (list Image → exn + list Image))
    (loader_ : string → exn + Image) (download_ : bool) : M Image unit :=
  FolderByDir_init Div2K set_order expanduser download_and_extract_archive
    (os_path_join root_ ["DIV2K"%string]) scale track split_
    transform_ loader_ download_.

(** The four benchmark sets share one constructor, on their own class. *)
Definition benchmark_init (cls : FolderByDirClass) (root_ : string)
    (scale : Z + list Z)
    (transform_ : option (list Image → exn + list Image))
    (loader_ : string → exn + Image) (download_ : bool) : M Image unit :=
  FolderByDir_init cls set_order expanduser download_and_extract_archive
    (os_path_join root_ ["SRBenchmarks"%string]) scale (inl "bicubic"%string)
    "val"%string transform_ loader_ download_.

Definition Set5_init := benchmark_init Set5.
Definition Set14_init := benchmark_init Set14.
Definition B100_init := benchmark_init B100.
Definition Urban100_init := benchmark_init Urban100.

End Datasets.

(** A state before construction: a fresh object in a given directory tree. *)
Definition initial {Image} (tree : FS) : State Image :=
  {| self := new_object; fs := tree; trace := [] |}.

Definition demo_fs : FS :=
  list_to_map
    [ ("/d/SRBenchmarks/benchmark/Set5/HR", ["b.png"; "c.png"; "a.png"])
    ; ("/d/SRBenchmarks/benchmark/Set5/LR_bicubic/X2", ["cx2.png"; "ax2.png"; "bx2.png"])
    ]%string.

Definition no_download : string → string → string → FS → string + FS :=
  λ _ _ _ tree, inr tree.

(** ** Vocabulary of the statements *)

Section Reference.

Context {Image : Type}.
Variable cls : FolderByDirClass.

(** The entries that [init_samples] lists, in the order it lists them
    (lines 92-97). *)
Definition all_tracks (split_ : string) (tracks_ : list string)
    (scales_ : list Z) : list (string * Z) :=
  if decide (is_Some (track_dirs cls !! ("hr"%string, split_, 1))) then
    zip ("hr"%string :: tracks_) (1 :: scales_)
  else zip tracks_ scales_.

(** The directory of an entry and the names [os.listdir] gives for it, when
    the entry is in the table and the directory is in the tree. *)
Definition listing (tree : FS) (root_ split_ : string) (e : string * Z)
    : option (string * list string) :=
  rel ← track_dirs cls !! (e.1, split_, e.2);
  names ← tree !! os_path_join root_ [rel];
  Some (os_path_join root_ [rel], names).

(** What [list_samples] returns for a directory with the given names. *)
Definition column (dl : string * list string) : list string :=
  (λ s, os_path_join dl.1 [s]) <$> sorted dl.2.

(** [[s[i] for s in cols]] when [i] is in range for every column. *)
Definition row (cols : list (list string)) (i : nat) : list string :=
  (λ s, default ""%string (s !! i)) <$> cols.

Definition rows (cols : list (list string)) : list (list string) :=
  match cols with
  | [] => []
  | s0 :: _ => row cols <$> seq 0 (length s0)
  end.

(** The state after further external calls. *)
Definition logs (evs : list event) (st : State Image) : State Image :=
  {| self := self st; fs := fs st; trace := trace st ++ evs |}.

(** The directory of an entry, when the entry is in the table. *)
Definition entry_dir (root_ split_ : string) (e : string * Z) : option string :=
  (λ rel, os_path_join root_ [rel]) <$> track_dirs cls !! (e.1, split_, e.2).

(** The loop of lines 99-100. *)
Definition list_all (set_order : gset string → list string)
    (entries : list (string * Z)) : M Image (list (list string)) :=
  forM (λ '(track, scale),
          split_ <- attr "split" split ;;
          list_samples cls set_order track split_ scale) entries.

Definition put_samples (v : list (list string)) (st : State Image) : State Image :=
  {| self := {| split := split (self st); tracks := tracks (self st);
                root := root (self st); loader := loader (self st);
                transform := transform (self st); scales := scales (self st);
                samples := Some v |};
     fs := fs st; trace := trace st |}.

(** The object after lines 61-63 of [FolderByDir.__init__]. *)
Definition constructed (root_ : string) (scale : list Z) (track : list string)
    (split_ : string) (transform_ : option (list Image → exn + list Image))
    (loader_ : string → exn + Image) (st : State Image) : State Image :=
  {| self := {| split := Some split_; tracks := Some track;
                root := Some root_; loader := Some loader_;
                transform := Some transform_; scales := Some scale;
                samples := Some [] |};
     fs := fs st; trace := trace st |}.

(** The images of a sample: the loader on each path, in order. *)
Fixpoint load_all (loader_ : string → exn + Image) (paths : list string)
    : exn + list Image :=
  match paths with
  | [] => inr []
  | p :: paths' =>
      match loader_ p with
      | inl e => inl e
      | inr img =>
          match load_all loader_ paths' with
          | inl e => inl e
          | inr imgs => inr (img :: imgs)
          end
      end
  end.

Definition apply_transform (transform_ : option (list Image → exn + list Image))
    (r : exn + list Image) : exn + list Image :=
  match r, transform_ with
  | inr images, Some f => f images
  | _, _ => r
  end.

Definition is_count_mismatch (e : exn) : Prop :=
  ∃ t sc, e = ValueError (msg_count t sc).

End Reference.

(** ** Concrete settings for instances of the statements *)

Definition div2k_partial_fs : FS :=
  list_to_map
    [ ("/d/DIV2K/DIV2K_train_HR", ["0001.png"])
    ; ("/d/DIV2K/DIV2K_train_LR_bicubic/X2", ["0001x2.png"])
    ]%string.

Definition mismatch_fs : FS :=
  list_to_map
    [ ("/d/SRBenchmarks/benchmark/Set5/HR", ["b.png"; "c.png"; "a.png"])
    ; ("/d/SRBenchmarks/benchmark/Set5/LR_bicubic/X2", ["cx2.png"; "ax2.png"])
    ]%string.

(** A transform that keeps the first image only. *)
Definition first_only : list string → exn + list string :=
  λ images, inr (take 1 images).

(** ** Vocabulary of the further properties *)

(** The event that [download] logs for an entry of [urls]. *)
Definition download_event (root_ : string) (u : string * string) : event :=
  EvDownload u.1 root_ u.2.

(** The [j]-th path of every sample, in the order of the samples. *)
Definition component (j : nat) (rows_ : list (list string)) : list string :=
  (λ row_, default ""%string (row_ !! j)) <$> rows_.

(** The class of a benchmark set, by the name of its directory. *)
Definition benchmark_class (name : string) : FolderByDirClass :=
  {| urls := benchmark_urls; track_dirs := benchmark_dirs name |}.

(** [FolderByDir] itself: both tables are empty. *)
Definition FolderByDir_base : FolderByDirClass :=
  {| urls := []; track_dirs := ∅ |}.

(** A downloader that cannot reach its server. *)
Definition failing_download : string → string → string → FS → string + FS :=
  λ url _ _ _, inl ("cannot fetch " +:+ url).

Definition hr_only_fs : FS :=
  list_to_map
    [ ("/d/SRBenchmarks/benchmark/Set5/HR", ["b.png"; "c.png"; "a.png"]) ]%string.

Definition div2k_numbered_fs : FS :=
  list_to_map
    [ ("/d/DIV2K/DIV2K_train_HR", ["0002.png"; "0001.png"; "0003.png"])
    ; ("/d/DIV2K/DIV2K_train_LR_bicubic/X2",
       ["0003x2.png"; "0001x2.png"; "0002x2.png"])
    ]%string.

(** The name of the downscaled file of DIV2K: [0001.png] gives
    [0001x2.png]. *)
Definition x2_name (name : string) : string :=
  String.substring 0 (String.length name - 4) name +:+ "x2.png".

Definition div2k_test_fs : FS :=
  list_to_map
    [ ("/d/DIV2K/DIV2K_test_LR_bicubic/X2", ["0901x2.png"; "0902x2.png"])
    ; ("/d/DIV2K/DIV2K_test_LR_bicubic/X3", ["0901x3.png"; "0902x3.png"])
    ; ("/d/DIV2K/DIV2K_test_LR_bicubic/X4", ["0901x4.png"])
    ]%string.

(** The tree after the archives [us] have been extracted one after the
    other, or the message of the first extraction that fails. *)
Fixpoint extract_all
    (download_and_extract_archive : string → string → string → FS → string + FS)
    (root_ : string) (us : list (string * string)) (tree : FS) : string + FS :=
  match us with
  | [] => inr tree
  | u :: us' =>
      match download_and_extract_archive u.1 root_ u.2 tree with
      | inl msg => inl msg
      | inr tree' => extract_all download_and_extract_archive root_ us' tree'
      end
  end.

(** A downloader for which one archive of [Div2K] has a wrong checksum. *)
Definition flaky_download : string → string → string → FS → string + FS :=
  λ url _ _ tree,
    if String.eqb url
         "http://data.vision.ee.ethz.ch/cvl/DIV2K/DIV2K_train_LR_bicubic_X2.zip"
    then inl "checksum mismatch"%string
    else inr tree.

(** ** The monad *)

Section MonadFacts.

Context {Image : Type}.
Implicit Types st : State Image.

Lemma bind_ok {A B} (m : M Image A) (k : A → M Image B) st x st' :
  m st = (inr x, st') → bind m k st = k x st'.
Proof. unfold bind. by intros ->. Qed.

Lemma bind_err {A B} (m : M Image A) (k : A → M Image B) st e st' :
  m st = (inl e, st') → bind m k st = (inl e, st').
Proof. unfold bind. by intros ->. Qed.

Lemma bind_inv {A B} (m : M Image A) (k : A → M Image B) st r st' :
  bind m k st = (r, st') →
  (∃ e, m st = (inl e, st') ∧ r = inl e) ∨
  (∃ x st1, m st = (inr x, st1) ∧ k x st1 = (r, st')).
Proof.
  unfold bind. destruct (m st) as [[e|x] st1]; intros H.
  - left. exists e. by simplify_eq.
  - right. by exists x, st1.
Qed.

Lemma attr_ok {A} name (proj : Self Image → option A) st v :
  proj (self st) = Some v → attr name proj st = (inr v, st).
Proof. unfold attr. by intros ->. Qed.

Lemma attr_state {A} name (proj : Self Image → option A) st r st' :
  attr name proj st = (r, st') → st' = st.
Proof. unfold attr. destruct (proj (self st)); by intros [= _ <-]. Qed.

Lemma lift_state {A} (x : exn + A) st r st' : lift x st = (r, st') → st' = st.
Proof. by intros [= _ <-]. Qed.

End MonadFacts.

(** ** Directory resolution and listing *)

Section Listing.

Context {Image : Type}.
Variable cls : FolderByDirClass.
Variable set_order : gset string → list string.
Implicit Types st : State Image.

Lemma get_dir_ok st r t sp sc rel :
  root (self st) = Some r →
  track_dirs cls !! (t, sp, sc) = Some rel →
  get_dir cls set_order t sp sc st = (inr (os_path_join r [rel]), st).
Proof.
  intros Hr Hk. unfold get_dir. rewrite Hk.
  by rewrite (bind_ok _ _ _ _ _ (attr_ok _ _ _ _ Hr)).
Qed.

Lemma get_dir_err st t sp sc :
  track_dirs cls !! (t, sp, sc) = None →
  ∃ msg, ∀ st0 : State Image,
    get_dir cls set_order t sp sc st0 = (inl (ValueError msg), st0).
Proof.
  intros Hk. unfold get_dir. rewrite Hk.
  repeat case_decide; eexists; intros st0; reflexivity.
Qed.

Lemma get_dir_state st t sp sc r st' :
  get_dir cls set_order t sp sc st = (r, st') → st' = st.
Proof.
  unfold get_dir. destruct (track_dirs cls !! _).
  - unfold bind, attr. destruct (root (self st)); by intros [= _ <-].
  - repeat case_decide; by intros [= _ <-].
Qed.

Lemma logs_nil st : logs [] st = st.
Proof. destruct st. unfold logs. simpl. by rewrite app_nil_r. Qed.

Lemma logs_cons ev evs st : logs (ev :: evs) st = logs evs (log ev st).
Proof. unfold logs, log. simpl. by rewrite <- app_assoc. Qed.

Lemma list_samples_ok st r sp e dl :
  root (self st) = Some r →
  listing cls (fs st) r sp e = Some dl →
  list_samples cls set_order e.1 sp e.2 st
  = (inr (column dl), log (EvListdir dl.1) st).
Proof.
  intros Hr Hl. unfold listing in Hl.
  destruct (track_dirs cls !! _) as [rel|] eqn:Hk; [|done].
  cbn [mbind option_bind] in Hl.
  destruct (fs st !! _) as [names|] eqn:Hf; [|done].
  cbn [mbind option_bind] in Hl.
  injection Hl as <-. unfold list_samples.
  rewrite (bind_ok _ _ _ _ _ (get_dir_ok _ _ _ _ _ _ Hr Hk)).
  unfold bind, os_listdir. by rewrite Hf.
Qed.

Lemma list_all_ok tree st r sp entries dls :
  fs st = tree →
  root (self st) = Some r →
  split (self st) = Some sp →
  Forall2 (λ e dl, listing cls tree r sp e = Some dl) entries dls →
  list_all cls set_order entries st
  = (inr (column <$> dls), logs (EvListdir <$> dls.*1) st).
Proof.
  intros Hf Hr Hs HF. revert st Hf Hr Hs.
  induction HF as [|e dl entries dls He HF IH]; intros st Hf Hr Hs.
  - by rewrite logs_nil.
  - destruct e as [t sc]. subst tree. cbn [list_all forM].
    assert (Hone : (split_ <- attr "split" split ;;
                    list_samples cls set_order t split_ sc) st
                   = (inr (column dl), log (EvListdir dl.1) st)).
    { rewrite (bind_ok _ _ _ _ _ (attr_ok _ _ _ _ Hs)).
      apply (list_samples_ok st r sp (t, sc) dl Hr He). }
    rewrite (bind_ok _ _ _ _ _ Hone).
    fold (list_all (Image:=Image) cls set_order entries).
    rewrite (bind_ok _ _ _ _ _ (IH (log _ st) eq_refl Hr Hs)).
    cbn [fmap list_fmap]. by rewrite logs_cons.
Qed.

Lemma os_listdir_state st d r st' :
  os_listdir d st = (r, st') → st' = log (EvListdir d) st.
Proof. unfold os_listdir. destruct (fs st !! d); by intros [= _ <-]. Qed.

Lemma list_samples_state st t sp sc r st' :
  list_samples cls set_order t sp sc st = (r, st') →
  ∃ ds, st' = logs (EvListdir <$> ds) st.
Proof.
  unfold list_samples. intros H.
  apply bind_inv in H as [(e & H & _)|(d & st1 & H & H1)];
    apply get_dir_state in H as ->.
  { exists []. by rewrite logs_nil. }
  apply bind_inv in H1 as [(e & H & _)|(names & st2 & H & H1)];
    apply os_listdir_state in H as ->.
  - by exists [d].
  - injection H1 as _ <-. by exists [d].
Qed.

Lemma logs_logs evs1 evs2 st : logs evs2 (logs evs1 st) = logs (evs1 ++ evs2) st.
Proof. unfold logs. simpl. by rewrite app_assoc. Qed.

(** The listing loop only lists: it leaves the object and the tree alone. *)
Lemma list_all_state entries st r st' :
  list_all cls set_order entries st = (r, st') →
  ∃ ds, st' = logs (EvListdir <$> ds) st.
Proof.
  revert st r st'. induction entries as [|[t sc] entries IH]; intros st r st' H.
  - injection H as _ <-. exists []. by rewrite logs_nil.
  - cbn [list_all forM] in H. fold (list_all (Image:=Image) cls set_order entries) in H.
    apply bind_inv in H as [(e & H & _)|(x & st1 & H & H1)].
    + apply bind_inv in H as [(e' & H & _)|(x & st1 & H & H1)].
      * apply attr_state in H as ->. exists []. by rewrite logs_nil.
      * apply attr_state in H as ->. by apply list_samples_state in H1.
    + apply bind_inv in H as [(e' & H & ?)|(y & st2 & H & H2)]; [done|].
      apply attr_state in H as ->. apply list_samples_state in H2 as [ds1 ->].
      apply bind_inv in H1 as [(e & H & _)|(ys & st3 & H & H3)].
      * apply IH in H as [ds2 ->]. exists (ds1 ++ ds2).
        by rewrite logs_logs, fmap_app.
      * apply IH in H as [ds2 ->]. injection H3 as _ <-. exists (ds1 ++ ds2).
        by rewrite logs_logs, fmap_app.
Qed.

(** An entry that is not in the table stops the loop: the directories
    listed by then are those of the entries before it, as far as they
    exist. *)
Lemma list_all_unsupported tree st r sp pre t sc post ds :
  fs st = tree →
  root (self st) = Some r →
  split (self st) = Some sp →
  Forall2 (λ e d, entry_dir cls r sp e = Some d) pre ds →
  track_dirs cls !! (t, sp, sc) = None →
  ∃ e listed,
    list_all cls set_order (pre ++ (t, sc) :: post) st
    = (inl e, logs (EvListdir <$> listed) st)
    ∧ listed `prefix_of` ds
    ∧ (Forall (λ d, is_Some (tree !! d)) ds →
       listed = ds ∧
       ∃ msg, e = ValueError msg ∧
         ∀ st0 : State Image,
           get_dir cls set_order t sp sc st0 = (inl (ValueError msg), st0)).
Proof.
  intros Hf Hr Hs HF Hk. revert st Hf Hr Hs.
  induction HF as [|e d pre ds He HF IH]; intros st Hf Hr Hs.
  - destruct (get_dir_err st t sp sc Hk) as [msg Hmsg].
    exists (ValueError msg), []. split; [|split].
    + cbn [app list_all forM].
      assert (Hone : (split_ <- attr "split" split ;;
                      list_samples cls set_order t split_ sc) st
                     = (inl (ValueError msg), st)).
      { rewrite (bind_ok _ _ _ _ _ (attr_ok _ _ _ _ Hs)).
        unfold list_samples. by rewrite (bind_err _ _ _ _ _ (Hmsg st)). }
      by rewrite (bind_err _ _ _ _ _ Hone), logs_nil.
    + done.
    + intros _. split; [done|]. by exists msg.
  - destruct e as [t' sc']. unfold entry_dir in He. cbn [fst snd] in He.
    destruct (track_dirs cls !! (t', sp, sc')) as [rel|] eqn:Hk'; [|done].
    injection He as <-.
    destruct (tree !! os_path_join r [rel]) as [names|] eqn:Hd.
    + assert (Hl : listing cls (fs st) r sp (t', sc')
                   = Some (os_path_join r [rel], names)).
      { unfold listing. cbn [fst snd]. rewrite Hk'. cbn [mbind option_bind].
        rewrite Hf, Hd. done. }
      assert (Hone : (split_ <- attr "split" split ;;
                      list_samples cls set_order t' split_ sc') st
                     = (inr (column (os_path_join r [rel], names)),
                        log (EvListdir (os_path_join r [rel])) st)).
      { rewrite (bind_ok _ _ _ _ _ (attr_ok _ _ _ _ Hs)).
        apply (list_samples_ok st r sp (t', sc') _ Hr Hl). }
      destruct (IH (log (EvListdir (os_path_join r [rel])) st) Hf Hr Hs)
        as (e & listed & Hrun & Hpre & Hall).
      exists e, (os_path_join r [rel] :: listed). split; [|split].
      * cbn [app list_all forM].
        rewrite (bind_ok _ _ _ _ _ Hone).
        fold (list_all (Image:=Image) cls set_order (pre ++ (t, sc) :: post)).
        rewrite (bind_err _ _ _ _ _ Hrun).
        cbn [fmap list_fmap]. by rewrite logs_cons.
      * by apply prefix_cons.
      * intros Hex. apply Forall_cons in Hex as [_ Hex].
        destruct (Hall Hex) as [-> Hm]. done.
    + exists (FileNotFoundError (os_path_join r [rel])), [os_path_join r [rel]].
      split; [|split].
      * cbn [app list_all forM].
        assert (Hone : (split_ <- attr "split" split ;;
                        list_samples cls set_order t' split_ sc') st
                       = (inl (FileNotFoundError (os_path_join r [rel])),
                          log (EvListdir (os_path_join r [rel])) st)).
        { rewrite (bind_ok _ _ _ _ _ (attr_ok _ _ _ _ Hs)).
          unfold list_samples.
          rewrite (bind_ok _ _ _ _ _ (get_dir_ok _ _ _ _ _ _ Hr Hk')).
          unfold bind, os_listdir. by rewrite Hf, Hd. }
        rewrite (bind_err _ _ _ _ _ Hone).
        cbn [fmap list_fmap]. by rewrite logs_cons, logs_nil.
      * apply prefix_cons, prefix_nil.
      * intros Hex. apply Forall_cons in Hex as [[? Hex] _]. congruence.
Qed.

End Listing.

(** ** Count check and pairing *)

Section Pairing.

Context {Image : Type}.
Implicit Types st : State Image.
Implicit Types (s : list string) (rest l cols : list (list string)).
Implicit Types (ts : list string) (ss : list Z).

Lemma getitem_0 {A} (x : A) (l : list A) : getitem (x :: l) 0 = inr x.
Proof.
  unfold getitem. cbn [length].
  destruct (decide (0 < 0)) as [?|_]; [lia|].
  destruct (decide _) as [_|Hn]; [done|lia].
Qed.

Lemma getitem_nil {A} (i : Z) : getitem (@nil A) i = inl IndexError.
Proof.
  unfold getitem. cbn [length].
  destruct (decide (i < 0)); destruct (decide _) as [?|_]; try done; lia.
Qed.

Lemma check_counts_nil st : check_counts (Image:=Image) [] st = (inr tt, st).
Proof. reflexivity. Qed.

(** The body of the loop of lines 101-103. *)
Lemma check_loop_ok st s0 rest l k :
  Forall (λ s, length s = length s0) l →
  forM_ (λ '(i, s),
           s0' <- lift (getitem (s0 :: rest) 0) ;;
           if decide (length s ≠ length s0') then
             tracks_ <- attr "tracks" tracks ;;
             t <- lift (getitem_nat tracks_ i) ;;
             scales_ <- attr "scales" scales ;;
             sc <- lift (getitem_nat scales_ i) ;;
             raise (ValueError (msg_count t sc))
           else ret tt)
        (zip (seq k (length l)) l) st
  = (inr tt, st).
Proof.
  intros HF. revert k. induction HF as [|s l Hs HF IH]; intros k; [done|].
  cbn [length seq zip zip_with forM_]. unfold bind at 1 2, lift at 1.
  rewrite getitem_0. case_decide; [done|]. cbn [ret]. apply IH.
Qed.

Lemma check_counts_ok st s0 rest :
  Forall (λ s, length s = length s0) rest →
  check_counts (s0 :: rest) st = (inr tt, st).
Proof. intros HF. unfold check_counts, enumerate. cbn [drop]. by apply check_loop_ok. Qed.

Lemma check_loop_fail st s0 rest l k ts ss :
  tracks (self st) = Some ts →
  scales (self st) = Some ss →
  (k + length l ≤ length ts)%nat →
  (k + length l ≤ length ss)%nat →
  Exists (λ s, length s ≠ length s0) l →
  ∃ t sc,
    forM_ (λ '(i, s),
             s0' <- lift (getitem (s0 :: rest) 0) ;;
             if decide (length s ≠ length s0') then
               tracks_ <- attr "tracks" tracks ;;
               t <- lift (getitem_nat tracks_ i) ;;
               scales_ <- attr "scales" scales ;;
               sc <- lift (getitem_nat scales_ i) ;;
               raise (ValueError (msg_count t sc))
             else ret tt)
          (zip (seq k (length l)) l) st
    = (inl (ValueError (msg_count t sc)), st).
Proof.
  intros Ht Hs. revert k. induction l as [|s l IH]; intros k Hkt Hks HE.
  { by apply Exists_nil in HE. }
  cbn [length] in Hkt, Hks.
  cbn [length seq zip zip_with forM_]. unfold bind at 1 2, lift at 1.
  rewrite getitem_0. case_decide as Hne.
  - destruct (lookup_lt_is_Some_2 ts k ltac:(lia)) as [t Hlt].
    destruct (lookup_lt_is_Some_2 ss k ltac:(lia)) as [sc Hls].
    exists t, sc.
    rewrite (bind_ok _ _ _ _ _ (attr_ok _ _ _ _ Ht)).
    unfold bind at 1, lift at 1, getitem_nat at 1. rewrite Hlt.
    rewrite (bind_ok _ _ _ _ _ (attr_ok _ _ _ _ Hs)).
    unfold bind at 1, lift at 1, getitem_nat at 1. rewrite Hls.
    reflexivity.
  - cbn [ret]. apply Exists_cons in HE as [HE|HE]; [done|].
    apply IH; [lia|lia|done].
Qed.

Lemma check_counts_fail st s0 rest ts ss :
  tracks (self st) = Some ts →
  scales (self st) = Some ss →
  (length rest ≤ length ts)%nat →
  (length rest ≤ length ss)%nat →
  Exists (λ s, length s ≠ length s0) rest →
  ∃ t sc, check_counts (s0 :: rest) st = (inl (ValueError (msg_count t sc)), st).
Proof.
  intros Ht Hs Hlt Hls HE. unfold check_counts, enumerate. cbn [drop].
  by apply (check_loop_fail st s0 rest rest 0 ts ss).
Qed.

(** The check reads attributes and raises; it writes nothing. *)
Lemma check_counts_state cols st r st' :
  check_counts cols st = (r, st') → st' = st.
Proof.
  unfold check_counts. generalize (enumerate (drop 1 cols)).
  intros l. revert st r st'. induction l as [|[i s] l IH]; intros st r st' H.
  - by injection H as _ <-.
  - cbn [forM_] in H.
    apply bind_inv in H as [(e & H & _)|([] & st1 & H & H1)].
    + apply bind_inv in H as [(e' & H & _)|(s0 & st1 & H & H1)].
      { by apply lift_state in H. }
      apply lift_state in H as ->.
      destruct (decide _) as [Hd|Hd]; [|by injection H1 as _ <-].
      apply bind_inv in H1 as [(? & H & _)|(? & ? & H & H1)];
        apply attr_state in H as ->; [done|].
      apply bind_inv in H1 as [(? & H & _)|(? & ? & H & H1)];
        apply lift_state in H as ->; [done|].
      apply bind_inv in H1 as [(? & H & _)|(? & ? & H & H1)];
        apply attr_state in H as ->; [done|].
      apply bind_inv in H1 as [(? & H & _)|(? & ? & H & H1)];
        apply lift_state in H as ->; [done|].
      by injection H1 as _ <-.
    + apply IH in H1 as ->.
      apply bind_inv in H as [(e' & H & ?)|(s0 & st2 & H & H2)]; [done|].
      apply lift_state in H as ->.
      destruct (decide _) as [Hd|Hd]; [|by injection H2 as <-].
      apply bind_inv in H2 as [(? & H & ?)|(? & ? & H & H2)]; [done|].
      apply attr_state in H as ->.
      apply bind_inv in H2 as [(? & H & ?)|(? & ? & H & H2)]; [done|].
      apply lift_state in H as ->.
      apply bind_inv in H2 as [(? & H & ?)|(? & ? & H & H2)]; [done|].
      apply attr_state in H as ->.
      apply bind_inv in H2 as [(? & H & ?)|(? & ? & H & H2)]; [done|].
      apply lift_state in H as ->. discriminate H2.
Qed.

Lemma forM_row cols (i : nat) st :
  Forall (λ s, (i < length s)%nat) cols →
  forM (λ s, lift (getitem_nat s i)) cols st = (inr (row cols i), st).
Proof.
  induction 1 as [|s cols Hs HF IH]; [done|].
  cbn [forM]. unfold bind at 1, lift at 1, getitem_nat at 1.
  destruct (lookup_lt_is_Some_2 s i Hs) as [x Hx]. rewrite Hx.
  rewrite (bind_ok _ _ _ _ _ IH). unfold row. cbn [fmap list_fmap].
  by rewrite Hx.
Qed.

Lemma forM_row_inv cols (i : nat) st r st' :
  forM (λ s, lift (getitem_nat s i)) cols st = (r, st') →
  st' = st ∧ ∀ e, r = inl e → e = IndexError.
Proof.
  revert r st'. induction cols as [|s cols IH]; intros r st' H.
  - injection H as <- <-. by split.
  - cbn [forM] in H.
    apply bind_inv in H as [(e & H & ->)|(x & st1 & H & H1)].
    + unfold lift in H. injection H as H <-. split; [reflexivity|].
      intros e' He'. simplify_eq.
      unfold getitem_nat in H. destruct (s !! i); by simplify_eq.
    + apply lift_state in H as ->.
      apply bind_inv in H1 as [(e & H & ->)|(ys & st1 & H & H1)].
      * apply IH in H as [-> He]. split; [done|]. intros e' He'. simplify_eq.
        by apply He.
      * apply IH in H as [-> _]. injection H1 as <- <-. by split.
Qed.

Lemma set_samples_put v st : set_samples v st = (inr tt, put_samples v st).
Proof. reflexivity. Qed.

Lemma append_row_ok cols (i : nat) acc st :
  samples (self st) = Some acc →
  Forall (λ s, (i < length s)%nat) cols →
  append_row cols i st = (inr tt, put_samples (acc ++ [row cols i]) st).
Proof.
  intros Ha HF. unfold append_row.
  rewrite (bind_ok _ _ _ _ _ (attr_ok _ _ _ _ Ha)).
  by rewrite (bind_ok _ _ _ _ _ (forM_row cols i st HF)).
Qed.

(** A step of the loop raises no [ValueError], and writes [self.samples]
    only. *)
Lemma append_row_inv cols (i : nat) st r st' :
  append_row cols i st = (r, st') →
  (st' = st ∨ ∃ v, st' = put_samples v st) ∧
  ∀ e, r = inl e → e = IndexError ∨ ∃ a, e = AttributeError a.
Proof.
  unfold append_row. intros H.
  apply bind_inv in H as [(e & H & ->)|(acc & st1 & H & H1)].
  { unfold attr in H. destruct (samples (self st)); [done|].
    injection H as <- <-. split; [by left|]. intros e' [= <-]. right. by eexists. }
  apply attr_state in H as ->.
  apply bind_inv in H1 as [(e & H & ->)|(x & st1 & H & H1)].
  { apply forM_row_inv in H as [-> He]. split; [by left|].
    intros e' [= <-]. left. by apply He. }
  apply forM_row_inv in H as [-> _]. rewrite set_samples_put in H1.
  injection H1 as <- <-. split; [right; by eexists|done].
Qed.

(** The loop of lines 105-106, from row [k] on. *)
Lemma pair_loop_ok cols (k n : nat) st acc :
  samples (self st) = Some acc →
  Forall (λ s, (k + n ≤ length s)%nat) cols →
  forM_ (append_row cols) (seq k n) st
  = (inr tt, put_samples (acc ++ (row cols <$> seq k n)) st).
Proof.
  revert k st acc. induction n as [|n IH]; intros k st acc Ha HF.
  - cbn [seq fmap list_fmap forM_ ret]. rewrite app_nil_r.
    destruct st as [[] ? ?]. simpl in Ha. by subst.
  - cbn [seq forM_].
    assert (Hone : append_row cols k st
                   = (inr tt, put_samples (acc ++ [row cols k]) st)).
    { apply append_row_ok; [done|].
      eapply Forall_impl; [exact HF|]. simpl. lia. }
    rewrite (bind_ok _ _ _ _ _ Hone).
    rewrite (IH (S k) (put_samples (acc ++ [row cols k]) st) (acc ++ [row cols k])).
    + cbn [fmap list_fmap]. by rewrite <- app_assoc.
    + done.
    + eapply Forall_impl; [exact HF|]. simpl. lia.
Qed.

Lemma pair_samples_ok s rest st acc :
  samples (self st) = Some acc →
  Forall (λ s', length s' = length s) rest →
  pair_samples (s :: rest) st
  = (inr tt, put_samples (acc ++ rows (s :: rest)) st).
Proof.
  intros Ha HF. unfold pair_samples.
  unfold bind at 1, lift at 1. rewrite getitem_0.
  apply pair_loop_ok; [done|].
  constructor; [simpl; lia|]. eapply Forall_impl; [exact HF|]. simpl. lia.
Qed.

(** The pairing loop raises no [ValueError]. *)
Lemma pair_samples_err cols st e st' :
  pair_samples cols st = (inl e, st') →
  e = IndexError ∨ ∃ a, e = AttributeError a.
Proof.
  unfold pair_samples. intros H.
  apply bind_inv in H as [(e' & H & [= <-])|(s & st1 & H & H1)].
  { injection H as H _. destruct cols; [|by rewrite getitem_0 in H].
    rewrite getitem_nil in H. left. congruence. }
  clear H. revert H1. generalize (seq 0 (length s)). clear s.
  intros l. revert st1. induction l as [|i l IH]; intros st1 H; [done|].
  cbn [forM_] in H.
  apply bind_inv in H as [(e' & H & [= <-])|([] & st2 & H & H1)];
    [|by eapply IH].
  apply append_row_inv in H as [_ He]. by apply He.
Qed.

End Pairing.

(** ** [init_samples] and the constructor *)

Section Construction.

Context {Image : Type}.
Variable cls : FolderByDirClass.
Variable set_order : gset string → list string.
Variable expanduser : string → string.
Variable download_and_extract_archive :
  string → string → string → FS → string + FS.
Implicit Types st : State Image.
Implicit Types (ts : list string) (ss : list Z).
Implicit Types (dl : string * list string) (dls : list (string * list string)).

Lemma column_length dl : length (column dl) = length dl.2.
Proof.
  unfold column, sorted. rewrite length_fmap.
  apply Permutation_length, merge_sort_Permutation.
Qed.

Lemma all_tracks_run st sp ts ss :
  tracks (self st) = Some ts →
  scales (self st) = Some ss →
  (if decide (is_Some (track_dirs cls !! ("hr"%string, sp, 1))) then
     tracks_ <- attr "tracks" tracks ;;
     scales_ <- attr "scales" scales ;;
     ret (zip ("hr"%string :: tracks_) (1 :: scales_))
   else
     tracks_ <- attr "tracks" tracks ;;
     scales_ <- attr "scales" scales ;;
     ret (zip tracks_ scales_)) st
  = (inr (all_tracks cls sp ts ss), st).
Proof.
  intros Ht Hs. unfold all_tracks. case_decide;
    rewrite (bind_ok _ _ _ _ _ (attr_ok _ _ _ _ Ht));
    by rewrite (bind_ok _ _ _ _ _ (attr_ok _ _ _ _ Hs)).
Qed.

Lemma all_tracks_length sp ts ss :
  (length (all_tracks cls sp ts ss) ≤ S (length ts))%nat ∧
  (length (all_tracks cls sp ts ss) ≤ S (length ss))%nat.
Proof.
  unfold all_tracks. case_decide; rewrite length_zip; cbn [length]; lia.
Qed.

(** From the listing loop on, [init_samples] is the three loops. *)
Lemma init_samples_run st sp ts ss :
  split (self st) = Some sp →
  tracks (self st) = Some ts →
  scales (self st) = Some ss →
  init_samples cls set_order st
  = (cols <- list_all cls set_order (all_tracks cls sp ts ss) ;;
     check_counts cols ;;;
     set_samples [] ;;;
     pair_samples cols) st.
Proof.
  intros Hsp Ht Hs. unfold init_samples.
  rewrite (bind_ok _ _ _ _ _ (attr_ok _ _ _ _ Hsp)).
  by rewrite (bind_ok _ _ _ _ _ (all_tracks_run st sp ts ss Ht Hs)).
Qed.

Lemma init_samples_ok st sp ts ss r dl dls :
  split (self st) = Some sp →
  tracks (self st) = Some ts →
  scales (self st) = Some ss →
  root (self st) = Some r →
  Forall2 (λ e dl', listing cls (fs st) r sp e = Some dl')
    (all_tracks cls sp ts ss) (dl :: dls) →
  Forall (λ dl', length dl'.2 = length dl.2) dls →
  init_samples cls set_order st
  = (inr tt, put_samples (rows (column <$> dl :: dls))
               (logs (EvListdir <$> (dl :: dls).*1) st)).
Proof.
  intros Hsp Ht Hs Hr HF Hlen.
  rewrite (init_samples_run st sp ts ss Hsp Ht Hs).
  rewrite (bind_ok _ _ _ _ _
             (list_all_ok cls set_order (fs st) st r sp _ _ eq_refl Hr Hsp HF)).
  cbn [fmap list_fmap].
  assert (Hcols : Forall (λ s, length s = length (column dl)) (column <$> dls)).
  { apply Forall_fmap. eapply Forall_impl; [exact Hlen|].
    intros dl' H. simpl. by rewrite !column_length. }
  rewrite (bind_ok _ _ _ _ _ (check_counts_ok _ _ _ Hcols)).
  rewrite (bind_ok _ _ _ _ _ (set_samples_put _ _)).
  by rewrite (pair_samples_ok _ _ (put_samples [] _) [] eq_refl Hcols).
Qed.

Lemma init_samples_mismatch st sp ts ss r dl dls :
  split (self st) = Some sp →
  tracks (self st) = Some ts →
  scales (self st) = Some ss →
  root (self st) = Some r →
  Forall2 (λ e dl', listing cls (fs st) r sp e = Some dl')
    (all_tracks cls sp ts ss) (dl :: dls) →
  Exists (λ dl', length dl'.2 ≠ length dl.2) dls →
  ∃ t sc,
    init_samples cls set_order st
    = (inl (ValueError (msg_count t sc)),
       logs (EvListdir <$> (dl :: dls).*1) st).
Proof.
  intros Hsp Ht Hs Hr HF Hex.
  rewrite (init_samples_run st sp ts ss Hsp Ht Hs).
  rewrite (bind_ok _ _ _ _ _
             (list_all_ok cls set_order (fs st) st r sp _ _ eq_refl Hr Hsp HF)).
  cbn [fmap list_fmap].
  assert (Hcols : Exists (λ s, length s ≠ length (column dl)) (column <$> dls)).
  { apply Exists_fmap. eapply Exists_impl; [exact Hex|].
    intros dl' H. simpl. by rewrite !column_length. }
  apply Forall2_length in HF. cbn [length] in HF.
  destruct (all_tracks_length sp ts ss) as [Hlt Hls].
  destruct (check_counts_fail
              (logs (EvListdir <$> (dl.1 :: dls.*1)) st)
              (column dl) (column <$> dls) ts ss Ht Hs) as (t & sc & Hc).
  { rewrite length_fmap. lia. }
  { rewrite length_fmap. lia. }
  { done. }
  exists t, sc. by rewrite (bind_err _ _ _ _ _ Hc).
Qed.

Lemma all_tracks_state st sp r st' :
  (if decide (is_Some (track_dirs cls !! ("hr"%string, sp, 1))) then
     tracks_ <- attr "tracks" tracks ;;
     scales_ <- attr "scales" scales ;;
     ret (zip ("hr"%string :: tracks_) (1 :: scales_))
   else
     tracks_ <- attr "tracks" tracks ;;
     scales_ <- attr "scales" scales ;;
     ret (zip tracks_ scales_)) st = (r, st') →
  st' = st.
Proof.
  destruct (decide _) as [Hd|Hd]; intros H;
    (apply bind_inv in H as [(? & H & _)|(? & ? & H & H1)];
       apply attr_state in H as ->; [done|]);
    (apply bind_inv in H1 as [(? & H & _)|(? & ? & H & H1)];
       apply attr_state in H as ->; [done|]);
    by injection H1 as _ <-.
Qed.

(** A [ValueError] of [init_samples] comes from the listing loop or from the
    count check, before [self.samples] is assigned. *)
Lemma init_samples_ValueError st msg st' :
  init_samples cls set_order st = (inl (ValueError msg), st') →
  ∃ ds, st' = logs (EvListdir <$> ds) st.
Proof.
  unfold init_samples. intros H.
  apply bind_inv in H as [(? & H & _)|(sp & ? & H & H1)];
    apply attr_state in H as ->.
  { exists []. by rewrite logs_nil. }
  apply bind_inv in H1 as [(? & H & _)|(entries & ? & H & H1)];
    apply all_tracks_state in H as ->.
  { exists []. by rewrite logs_nil. }
  fold (list_all (Image:=Image) cls set_order entries) in H1.
  apply bind_inv in H1 as [(? & H & _)|(cols & st1 & H & H1)];
    apply list_all_state in H as [ds ->]; [by exists ds|].
  apply bind_inv in H1 as [(? & H & _)|([] & ? & H & H1)];
    apply check_counts_state in H as ->; [by exists ds|].
  apply bind_inv in H1 as [(? & H & _)|([] & ? & H & H1)]; [done|].
  apply pair_samples_err in H1 as [?|[? ?]]; done.
Qed.

Lemma download_self st r st' :
  download cls download_and_extract_archive st = (r, st') →
  self st' = self st.
Proof.
  unfold download. generalize (urls cls). intros l. revert st.
  induction l as [|[url md5sum] l IH]; intros st H.
  - by injection H as _ <-.
  - cbn [forM_] in H.
    assert (Hone : ∀ r1 st1,
              (root_ <- attr "root" root ;;
               download_one download_and_extract_archive url root_ md5sum) st
              = (r1, st1) → self st1 = self st).
    { intros r1 st1 H1.
      apply bind_inv in H1 as [(? & H1 & _)|(? & ? & H1 & H2)];
        apply attr_state in H1 as ->; [done|].
      unfold download_one in H2.
      destruct (download_and_extract_archive _ _ _ _);
        by injection H2 as _ <-. }
    apply bind_inv in H as [(? & H & _)|([] & st1 & H & H1)].
    + by apply Hone in H.
    + apply Hone in H. apply IH in H1. congruence.
Qed.

Lemma maybe_download_self (download_ : bool) st r st' :
  (if download_ then download cls download_and_extract_archive else ret tt) st
  = (r, st') →
  self st' = self st.
Proof.
  destruct download_; [apply download_self|]. by intros [= _ <-].
Qed.

(** The constructor, once the lengths agree: the attributes are set, then
    the archives are fetched if asked for, then the samples are paired. *)
Lemma FolderByDir_init_run root_ scale track split_ transform_ loader_
    (download_ : bool) st :
  length (track_list track (scale_list scale)) = length (scale_list scale) →
  FolderByDir_init cls set_order expanduser download_and_extract_archive
    root_ scale track split_ transform_ loader_ download_ st
  = ((if download_ then download cls download_and_extract_archive else ret tt) ;;;
     init_samples cls set_order)
      (constructed (expanduser root_) (scale_list scale)
         (track_list track (scale_list scale)) split_ transform_ loader_ st).
Proof.
  intros Hlen. unfold FolderByDir_init. case_decide; [done|]. reflexivity.
Qed.

Lemma FolderByDir_init_lengths root_ scale track split_ transform_ loader_
    (download_ : bool) st :
  length (track_list track (scale_list scale)) ≠ length (scale_list scale) →
  FolderByDir_init cls set_order expanduser download_and_extract_archive
    root_ scale track split_ transform_ loader_ download_ st
  = (inl (ValueError msg_lengths), st).
Proof.
  intros Hlen. unfold FolderByDir_init. case_decide; [|done]. reflexivity.
Qed.

End Construction.

(** ** The sorted columns and the rows built from them *)

Section Samples.

Context {Image : Type}.
Implicit Types st : State Image.
Implicit Types (dl : string * list string) (dls : list (string * list string)).
Implicit Types (cols : list (list string)).

Lemma sorted_StronglySorted (l : list string) :
  StronglySorted String.le (sorted l).
Proof. apply StronglySorted_merge_sort; apply _. Qed.

Lemma sorted_Permutation (l : list string) : sorted l ≡ₚ l.
Proof. apply merge_sort_Permutation. Qed.

(** The order in which the operating system lists a directory does not
    show in the result. *)
Lemma sorted_order_independent (l l' : list string) :
  l ≡ₚ l' → sorted l = sorted l'.
Proof.
  intros Hp. apply (StronglySorted_unique String.le).
  - apply sorted_StronglySorted.
  - apply sorted_StronglySorted.
  - by rewrite !sorted_Permutation.
Qed.

Lemma sorted_head_least (l : list string) x :
  sorted l !! 0%nat = Some x → x ∈ l ∧ ∀ y, y ∈ l → String.le x y.
Proof.
  intros Hx. pose proof (sorted_StronglySorted l) as Hs.
  pose proof (sorted_Permutation l) as Hp.
  destruct (sorted l) as [|x' tl]; [done|]. injection Hx as ->.
  split.
  - rewrite <- Hp. by left.
  - intros y Hy. rewrite <- Hp in Hy.
    apply StronglySorted_inv in Hs as [_ Hall].
    apply elem_of_cons in Hy as [->|Hy]; [done|].
    by eapply Forall_forall in Hall.
Qed.

Lemma rows_length s cols : length (rows (s :: cols)) = length s.
Proof. unfold rows. by rewrite length_fmap, length_seq. Qed.

Lemma rows_lookup s cols (i : nat) r :
  rows (s :: cols) !! i = Some r → (i < length s)%nat ∧ r = row (s :: cols) i.
Proof.
  unfold rows. rewrite list_lookup_fmap. intros H.
  destruct (seq 0 (length s) !! i) as [j|] eqn:Hj; [|done].
  apply lookup_seq in Hj as [-> Hj]. injection H as <-. by split.
Qed.

(** Row [i] holds, for each listed directory in order, the path of its
    [i]-th name in sorted order. *)
Lemma row_columns dls (i : nat) :
  Forall (λ dl, (i < length dl.2)%nat) dls →
  Forall2 (λ dl path, ∃ name, sorted dl.2 !! i = Some name ∧
                              path = os_path_join dl.1 [name])
    dls (row (column <$> dls) i).
Proof.
  induction 1 as [|dl dls Hi HF IH]; [constructor|].
  cbn [fmap list_fmap row]. constructor; [|exact IH].
  destruct (lookup_lt_is_Some_2 (sorted dl.2) i) as [name Hn].
  { pose proof (Permutation_length (sorted_Permutation dl.2)). lia. }
  exists name. split; [done|].
  unfold column. by rewrite list_lookup_fmap, Hn.
Qed.

Lemma Folder_len_run st v :
  samples (self st) = Some v → Folder_len st = (inr (length v), st).
Proof.
  intros Hv. unfold Folder_len.
  by rewrite (bind_ok _ _ _ _ _ (attr_ok _ _ _ _ Hv)).
Qed.

Lemma forM_load st loader_ paths :
  loader (self st) = Some loader_ →
  forM (λ path, f <- attr "loader" loader ;; lift (f path)) paths st
  = (load_all loader_ paths, st).
Proof.
  intros Hl. induction paths as [|p paths IH]; [done|].
  cbn [forM load_all].
  unfold bind at 1. rewrite (bind_ok _ _ _ _ _ (attr_ok _ _ _ _ Hl)).
  unfold lift at 1. destruct (loader_ p) as [e|img]; [done|].
  unfold bind at 1. rewrite IH. by destruct (load_all loader_ paths).
Qed.

Lemma Folder_getitem_run st v loader_ transform_ index paths :
  samples (self st) = Some v →
  loader (self st) = Some loader_ →
  transform (self st) = Some transform_ →
  getitem v index = inr paths →
  Folder_getitem index st
  = (apply_transform transform_ (load_all loader_ paths), st).
Proof.
  intros Hv Hl Ht Hp. unfold Folder_getitem.
  rewrite (bind_ok _ _ _ _ _ (attr_ok _ _ _ _ Hv)).
  unfold bind at 1, lift at 1. rewrite Hp.
  unfold bind at 1. rewrite (forM_load st loader_ paths Hl).
  destruct (load_all loader_ paths) as [e|images]; [done|].
  rewrite (bind_ok _ _ _ _ _ (attr_ok _ _ _ _ Ht)).
  by destruct transform_.
Qed.

Lemma load_all_length loader_ paths (images : list Image) :
  load_all loader_ paths = inr images → length images = length paths.
Proof.
  revert images. induction paths as [|p paths IH]; intros images H.
  - by injection H as <-.
  - cbn [load_all] in H. destruct (loader_ p); [done|].
    destruct (load_all loader_ paths) as [|imgs]; [done|].
    injection H as <-. cbn [length]. f_equal. by apply IH.
Qed.

Lemma load_all_total loader_ paths :
  (∀ p, ∃ img : Image, loader_ p = inr img) →
  ∃ images, load_all loader_ paths = inr images.
Proof.
  intros Hl. induction paths as [|p paths [imgs IH]]; [by exists []|].
  destruct (Hl p) as [img Hp]. exists (img :: imgs).
  cbn [load_all]. by rewrite Hp, IH.
Qed.

Lemma getitem_valid {A} (l : list A) (i : Z) :
  - Z.of_nat (length l) ≤ i < Z.of_nat (length l) →
  ∃ x, getitem l i = inr x ∧ x ∈ l.
Proof.
  intros Hi. unfold getitem.
  destruct (decide (i < 0)); (destruct (decide _) as [Hj|Hj]; [|lia]).
  - destruct (lookup_lt_is_Some_2 l (Z.to_nat (i + Z.of_nat (length l))))
      as [x Hx]; [lia|].
    exists x. unfold getitem_nat. rewrite Hx. split; [done|].
    by eapply list_elem_of_lookup_2.
  - destruct (lookup_lt_is_Some_2 l (Z.to_nat i)) as [x Hx]; [lia|].
    exists x. unfold getitem_nat. rewrite Hx. split; [done|].
    by eapply list_elem_of_lookup_2.
Qed.

End Samples.

(** ** Substrings of the error messages *)

Section Messages.

Lemma append_cons a (s b : string) : String a s +:+ b = String a (s +:+ b).
Proof. reflexivity. Qed.

Lemma append_nil (b : string) : "" +:+ b = b.
Proof. reflexivity. Qed.

Lemma prefix_append (x a b : string) :
  String.prefix x a = true → String.prefix x (a +:+ b) = true.
Proof.
  revert a. induction x as [|c x IH]; intros a H.
  - by destruct (a +:+ b).
  - destruct a as [|c' a]; [done|]. rewrite append_cons. simpl in *.
    destruct (ascii_dec c c'); [by apply IH|done].
Qed.

Lemma prefix_refl (x : string) : String.prefix x x = true.
Proof.
  induction x as [|c x IH]; [done|]. simpl.
  by destruct (ascii_dec c c).
Qed.

Lemma contains_refl (x : string) : contains x x = true.
Proof. destruct x; simpl; [done|]. rewrite prefix_refl. by destruct (ascii_dec _ _). Qed.

Lemma contains_append_l (a b x : string) :
  contains a x = true → contains (a +:+ b) x = true.
Proof.
  induction a as [|c a IH]; intros H.
  - simpl in H. rewrite orb_false_r in H.
    apply (prefix_append x "" b) in H. rewrite append_nil in *.
    destruct b; cbn [contains]; by rewrite H.
  - rewrite append_cons. cbn [contains] in *.
    apply orb_true_iff in H as [H|H]; apply orb_true_iff.
    + left. apply (prefix_append x (String c a) b H).
    + right. by apply IH.
Qed.

Lemma contains_append_r (a b x : string) :
  contains b x = true → contains (a +:+ b) x = true.
Proof.
  intros H. induction a as [|c a IH]; [done|].
  rewrite append_cons. cbn [contains]. rewrite IH. apply orb_true_r.
Qed.

Lemma contains_concat (sep x : string) (l : list string) :
  x ∈ l → contains (String.concat sep l) x = true.
Proof.
  induction l as [|y l IH]; intros H; [by apply elem_of_nil in H|].
  apply elem_of_cons in H as [->|H].
  - destruct l as [|z l]; [apply contains_refl|].
    cbn [String.concat]. apply contains_append_l, contains_refl.
  - destruct l as [|z l]; [by apply elem_of_nil in H|].
    cbn [String.concat]. by apply contains_append_r, contains_append_r, IH.
Qed.

Lemma contains_repr_list (l : list string) (x : string) :
  x ∈ l → contains (repr_list l) (repr_str x) = true.
Proof.
  intros H. unfold repr_list.
  apply contains_append_r, contains_append_l, contains_concat.
  by apply list_elem_of_fmap_2.
Qed.

End Messages.

(** ** What the pairing loop may change *)

Section Frames.

Context {Image : Type}.
Variable cls : FolderByDirClass.
Variable set_order : gset string → list string.
Implicit Types st : State Image.

Lemma pair_loop_state (cols : list (list string)) (l : list nat) st st1 r st' :
  st1 = st ∨ (∃ v, st1 = put_samples v st) →
  forM_ (append_row cols) l st1 = (r, st') →
  st' = st ∨ ∃ v, st' = put_samples v st.
Proof.
  revert r st1. induction l as [|i l IH]; intros r st1 Hst H.
  - by injection H as _ <-.
  - cbn [forM_] in H.
    assert (Hone : ∀ r1 st2,
              append_row cols i st1 = (r1, st2) →
              st2 = st ∨ ∃ v, st2 = put_samples v st).
    { intros r1 st2 H1. apply append_row_inv in H1 as [[->|[v ->]] _]; [done|].
      right. destruct Hst as [->|[w ->]]; by eexists. }
    apply bind_inv in H as [(? & H & _)|([] & st2 & H & H1)].
    + by apply Hone in H.
    + apply Hone in H. by apply (IH r st2).
Qed.

Lemma pair_samples_state (cols : list (list string)) st r st' :
  pair_samples cols st = (r, st') →
  st' = st ∨ ∃ v, st' = put_samples v st.
Proof.
  unfold pair_samples. intros H.
  apply bind_inv in H as [(e' & H & _)|(s & st1 & H & H1)];
    apply lift_state in H as ->; [by left|].
  eapply pair_loop_state; [|exact H1]. by left.
Qed.

(** [init_samples] lists directories and assigns [self.samples]; every
    other attribute and the tree stay as they were. *)
Lemma init_samples_state st r st' :
  init_samples cls set_order st = (r, st') →
  ∃ ds, st' = logs (EvListdir <$> ds) st ∨
        ∃ v, st' = put_samples v (logs (EvListdir <$> ds) st).
Proof.
  unfold init_samples. intros H.
  apply bind_inv in H as [(? & H & _)|(sp & ? & H & H1)];
    apply attr_state in H as ->.
  { exists []. left. by rewrite logs_nil. }
  apply bind_inv in H1 as [(? & H & _)|(entries & ? & H & H1)];
    apply all_tracks_state in H as ->.
  { exists []. left. by rewrite logs_nil. }
  fold (list_all (Image:=Image) cls set_order entries) in H1.
  apply bind_inv in H1 as [(? & H & _)|(cols & st1 & H & H1)];
    apply list_all_state in H as [ds ->]; exists ds; [by left|].
  apply bind_inv in H1 as [(? & H & _)|([] & ? & H & H1)];
    apply check_counts_state in H as ->; [by left|].
  apply bind_inv in H1 as [(? & H & _)|([] & ? & H & H1)]; [done|].
  rewrite set_samples_put in H. injection H as <-.
  apply pair_samples_state in H1 as [->|[v ->]]; right; by eexists.
Qed.

End Frames.

(** ** The properties of the specification *)

Section Claims.

Context {Image : Type}.
Variable cls : FolderByDirClass.
Variable set_order : gset string → list string.
Variable expanduser : string → string.
Variable download_and_extract_archive :
  string → string → string → FS → string + FS.
Implicit Types st : State Image.
Implicit Types (dl : string * list string) (dls : list (string * list string)).

(** C7.  For a key of the [track_dirs] table, [get_dir] returns the root
    joined with the relative directory of the table; for a key that is not
    in the table it raises an error; and in neither case does it touch the
    directory tree: the state, with its trace of listings, is as before. *)
Theorem C7_get_dir_resolves_from_table st (r t sp : string) (sc : Z) :
  root (self st) = Some r →
  (∀ rel, track_dirs cls !! (t, sp, sc) = Some rel →
     get_dir cls set_order t sp sc st = (inr (os_path_join r [rel]), st)) ∧
  (track_dirs cls !! (t, sp, sc) = None →
     ∃ msg, get_dir cls set_order t sp sc st = (inl (ValueError msg), st)) ∧
  (∀ out st', get_dir cls set_order t sp sc st = (out, st') → st' = st).
Proof.
  intros Hr. split; [|split].
  - intros rel Hk. by apply get_dir_ok.
  - intros Hk. destruct (get_dir_err cls set_order st t sp sc Hk) as [msg H].
    by exists msg.
  - intros out st'. apply get_dir_state.
Qed.

(** C5, amended.  A key that is not in the table makes [get_dir] raise a
    [ValueError] at once, the state untouched.  For an unknown track the
    message names the track and lists every track of the table; for an
    unknown split it names the split; otherwise it names the track and the
    scale. *)
Theorem C5_lookup_errors st (t sp : string) (sc : Z) :
  (∀ X, set_order X ≡ₚ elements X) →
  track_dirs cls !! (t, sp, sc) = None →
  ∃ msg,
    get_dir cls set_order t sp sc st = (inl (ValueError msg), st) ∧
    (t ∉ get_tracks cls →
       msg = msg_track cls set_order t ∧
       ∀ t', t' ∈ get_tracks cls → contains msg (repr_str t') = true) ∧
    (t ∈ get_tracks cls → sp ∉ get_splits cls → msg = msg_split sp) ∧
    (t ∈ get_tracks cls → sp ∈ get_splits cls → msg = msg_scale t sc).
Proof.
  intros Hord Hk. unfold get_dir. rewrite Hk.
  destruct (decide (t ∉ get_tracks cls)) as [Ht|Ht].
  - exists (msg_track cls set_order t). split; [done|]. split; [|by split].
    intros _. split; [done|]. intros t' Ht'. unfold msg_track.
    do 3 apply contains_append_r. apply contains_repr_list.
    rewrite (Hord (get_tracks cls)). by apply elem_of_elements.
  - destruct (decide (sp ∉ get_splits cls)) as [Hs|Hs].
    + exists (msg_split sp). by repeat split.
    + exists (msg_scale t sc). by repeat split.
Qed.

(** C8.  A single scale becomes a one-element list; a single track is
    repeated once per scale, so that it is paired with every scale; when
    the two lists differ in length the constructor raises [ValueError] with
    the state untouched: nothing is downloaded, nothing is listed, no
    attribute is set.  An object that is constructed holds these lists. *)
Theorem C8_arguments_as_lists (n : Z) (t : string) (ss : list Z)
    root_ scale track split_ transform_ loader_ (download_ : bool) st :
  scale_list (inl n) = [n] ∧
  (track_list (inl t) ss = replicate (length ss) t ∧
   zip (track_list (inl t) ss) ss = (λ s, (t, s)) <$> ss) ∧
  (length (track_list track (scale_list scale)) ≠ length (scale_list scale) →
   FolderByDir_init cls set_order expanduser download_and_extract_archive
     root_ scale track split_ transform_ loader_ download_ st
   = (inl (ValueError msg_lengths), st)) ∧
  (∀ st',
     FolderByDir_init cls set_order expanduser download_and_extract_archive
       root_ scale track split_ transform_ loader_ download_ st
     = (inr tt, st') →
     tracks (self st') = Some (track_list track (scale_list scale)) ∧
     scales (self st') = Some (scale_list scale)).
Proof.
  split; [done|]. split; [|split].
  - split; [done|]. cbn [track_list].
    induction ss as [|s ss IH]; [done|]. cbn. by rewrite IH.
  - apply FolderByDir_init_lengths.
  - intros st' H.
    destruct (decide (length (track_list track (scale_list scale))
                      = length (scale_list scale))) as [Hlen|Hlen].
    2:{ by rewrite FolderByDir_init_lengths in H. }
    rewrite FolderByDir_init_run in H by done.
    apply bind_inv in H as [(? & _ & ?)|([] & st1 & H & H1)]; [done|].
    apply maybe_download_self in H.
    apply (init_samples_state cls set_order) in H1 as [ds [->|[v ->]]];
      cbn [self logs put_samples tracks scales]; by rewrite H.
Qed.

Lemma listing_inv (tree : FS) (r sp : string) (e : string * Z) dl :
  listing cls tree r sp e = Some dl →
  ∃ rel, track_dirs cls !! (e.1, sp, e.2) = Some rel ∧
         dl.1 = os_path_join r [rel] ∧ tree !! dl.1 = Some dl.2.
Proof.
  unfold listing. intros H.
  destruct (track_dirs cls !! _) as [rel|]; [|done].
  cbn [mbind option_bind] in H.
  destruct (tree !! os_path_join r [rel]) as [names|] eqn:Hn; [|done].
  cbn [mbind option_bind] in H. injection H as <-. by exists rel.
Qed.

Lemma all_tracks_count sp (ts : list string) (ss : list Z) :
  length ts = length ss →
  length (all_tracks cls sp ts ss)
  = Nat.add (length ss)
      (if decide (is_Some (track_dirs cls !! ("hr"%string, sp, 1)))
       then 1%nat else 0%nat).
Proof.
  intros Hlen. unfold all_tracks. case_decide; rewrite length_zip; cbn [length]; lia.
Qed.

(** Construction on a tree in which every requested directory is there and
    all of them hold equally many names. *)
Lemma construct_ok root_ scale track split_ transform_ loader_
    (download_ : bool) st st1 dl dls :
  length (track_list track (scale_list scale)) = length (scale_list scale) →
  (if download_ then download cls download_and_extract_archive else ret tt)
    (constructed (expanduser root_) (scale_list scale)
       (track_list track (scale_list scale)) split_ transform_ loader_ st)
  = (inr tt, st1) →
  mapM (listing cls (fs st1) (expanduser root_) split_)
    (all_tracks cls split_ (track_list track (scale_list scale)) (scale_list scale))
  = Some (dl :: dls) →
  Forall (λ dl', length dl'.2 = length dl.2) dls →
  FolderByDir_init cls set_order expanduser download_and_extract_archive
    root_ scale track split_ transform_ loader_ download_ st
  = (inr tt, put_samples (rows (column <$> dl :: dls))
               (logs (EvListdir <$> (dl :: dls).*1) st1)).
Proof.
  intros Hlen Hdl HF Hcnt. rewrite FolderByDir_init_run by done.
  rewrite (bind_ok _ _ _ _ _ Hdl). apply maybe_download_self in Hdl.
  apply mapM_Some in HF.
  eapply init_samples_ok; try exact HF; try exact Hcnt; by rewrite Hdl.
Qed.

(** C1.  On a tree in which every requested directory is there and all hold
    equally many names, construction succeeds and [__len__] is the number
    of names in the first directory listed: the high-resolution directory
    when [('hr', split, 1)] is in [track_dirs], the directory of the first
    requested pair otherwise. *)
Theorem C1_len_is_reference_count root_ scale track split_ transform_ loader_
    (download_ : bool) st st1 dl dls :
  length (track_list track (scale_list scale)) = length (scale_list scale) →
  (if download_ then download cls download_and_extract_archive else ret tt)
    (constructed (expanduser root_) (scale_list scale)
       (track_list track (scale_list scale)) split_ transform_ loader_ st)
  = (inr tt, st1) →
  mapM (listing cls (fs st1) (expanduser root_) split_)
    (all_tracks cls split_ (track_list track (scale_list scale)) (scale_list scale))
  = Some (dl :: dls) →
  Forall (λ dl', length dl'.2 = length dl.2) dls →
  ∃ st2,
    FolderByDir_init cls set_order expanduser download_and_extract_archive
      root_ scale track split_ transform_ loader_ download_ st
    = (inr tt, st2) ∧
    Folder_len st2 = (inr (length dl.2), st2) ∧
    fs st1 !! dl.1 = Some dl.2 ∧
    (∀ rel, track_dirs cls !! ("hr"%string, split_, 1) = Some rel →
       dl.1 = os_path_join (expanduser root_) [rel]) ∧
    (track_dirs cls !! ("hr"%string, split_, 1) = None →
       ∃ t sc rel,
         head (zip (track_list track (scale_list scale)) (scale_list scale))
         = Some (t, sc) ∧
         track_dirs cls !! (t, split_, sc) = Some rel ∧
         dl.1 = os_path_join (expanduser root_) [rel]).
Proof.
  intros Hlen Hdl HF Hcnt. eexists. split; [by apply construct_ok|].
  split.
  { erewrite Folder_len_run; [|reflexivity].
    cbn [fmap list_fmap]. by rewrite rows_length, column_length. }
  apply mapM_Some in HF. unfold all_tracks in HF.
  destruct (decide _) as [Hhr|Hhr].
  - cbn [zip zip_with] in HF. apply Forall2_cons in HF as [He _].
    apply listing_inv in He as (rel & Hk & Hd & Hn). cbn [fst snd] in Hk.
    split; [done|]. split; [|by rewrite Hk]. intros rel' Hk'. congruence.
  - destruct (zip _ _) as [|[t sc] tl] eqn:Hz; [by apply Forall2_nil_cons_inv in HF|].
    apply Forall2_cons in HF as [He _].
    apply listing_inv in He as (rel & Hk & Hd & Hn). cbn [fst snd] in Hk.
    split; [done|]. split.
    + intros rel' Hk'. destruct Hhr. by rewrite Hk'.
    + intros _. by exists t, sc, rel.
Qed.

(** C2, amended.  When every requested entry is in the table and every
    requested directory is in the tree, but one of the directories holds a
    number of names other than the first one listed (the high-resolution
    directory, or the first track when the split has none), construction
    raises the count-mismatch [ValueError].  The directories are all listed
    before the counts are compared, so an entry that is not in the table or
    a directory that is not in the tree raises its own error first. *)
Theorem C2_count_mismatch_raises root_ scale track split_ transform_ loader_
    (download_ : bool) st st1 dl dls :
  length (track_list track (scale_list scale)) = length (scale_list scale) →
  (if download_ then download cls download_and_extract_archive else ret tt)
    (constructed (expanduser root_) (scale_list scale)
       (track_list track (scale_list scale)) split_ transform_ loader_ st)
  = (inr tt, st1) →
  mapM (listing cls (fs st1) (expanduser root_) split_)
    (all_tracks cls split_ (track_list track (scale_list scale)) (scale_list scale))
  = Some (dl :: dls) →
  Exists (λ dl', length dl'.2 ≠ length dl.2) dls →
  ∃ e st2,
    FolderByDir_init cls set_order expanduser download_and_extract_archive
      root_ scale track split_ transform_ loader_ download_ st
    = (inl e, st2) ∧
    is_count_mismatch e.
Proof.
  intros Hlen Hdl HF Hex. rewrite FolderByDir_init_run by done.
  rewrite (bind_ok _ _ _ _ _ Hdl). apply maybe_download_self in Hdl.
  apply mapM_Some in HF.
  destruct (init_samples_mismatch cls set_order st1 split_
              (track_list track (scale_list scale)) (scale_list scale)
              (expanduser root_) dl dls) as (t & sc & H);
    try done; try by rewrite Hdl.
  rewrite H. eexists _, _. split; [done|]. by exists t, sc.
Qed.

(** C3, amended.  A request with a pair that is not in the table for the
    split makes construction raise.  By then the directories of the entries
    before the first such pair (the high-resolution directory when the
    split has one, then the earlier pairs) have been listed in order: all of
    them when they are all there, and then the error is the [ValueError] of
    [get_dir]; those up to the first missing one otherwise.  Nothing is
    listed for the unsupported pair or for a pair after it. *)
Theorem C3_unsupported_pair_stops_listing root_ scale track split_ transform_
    loader_ (download_ : bool) st st1 pre (t : string) (sc : Z) post ds :
  length (track_list track (scale_list scale)) = length (scale_list scale) →
  (if download_ then download cls download_and_extract_archive else ret tt)
    (constructed (expanduser root_) (scale_list scale)
       (track_list track (scale_list scale)) split_ transform_ loader_ st)
  = (inr tt, st1) →
  all_tracks cls split_ (track_list track (scale_list scale)) (scale_list scale)
  = pre ++ (t, sc) :: post →
  mapM (entry_dir cls (expanduser root_) split_) pre = Some ds →
  track_dirs cls !! (t, split_, sc) = None →
  ∃ e listed st2,
    FolderByDir_init cls set_order expanduser download_and_extract_archive
      root_ scale track split_ transform_ loader_ download_ st
    = (inl e, st2) ∧
    trace st2 = trace st1 ++ (EvListdir <$> listed) ∧
    listed `prefix_of` ds ∧
    (Forall (λ d, is_Some (fs st1 !! d)) ds →
     listed = ds ∧
     ∃ msg, e = ValueError msg ∧
       ∀ st0 : State Image,
         get_dir cls set_order t split_ sc st0 = (inl (ValueError msg), st0)).
Proof.
  intros Hlen Hdl Hall Hpre Hk. rewrite FolderByDir_init_run by done.
  rewrite (bind_ok _ _ _ _ _ Hdl). apply maybe_download_self in Hdl.
  apply mapM_Some in Hpre.
  destruct (list_all_unsupported cls set_order (fs st1) st1 (expanduser root_)
              split_ pre t sc post ds eq_refl) as (e & listed & Hrun & Hp & Hex);
    try done; try by rewrite Hdl.
  exists e, listed, (logs (EvListdir <$> listed) st1).
  split; [|split; [done|split; [done|exact Hex]]].
  rewrite (init_samples_run cls set_order st1 split_
             (track_list track (scale_list scale)) (scale_list scale))
    by by rewrite Hdl.
  rewrite Hall. by rewrite (bind_err _ _ _ _ _ Hrun).
Qed.

Lemma row_at_entry (tree : FS) (r sp : string) (entries : list (string * Z))
    dls (i k : nat) (row_ : list string) (t : string) (sc : Z) :
  Forall2 (λ e dl, listing cls tree r sp e = Some dl) entries dls →
  Forall2 (λ dl' path, ∃ name, sorted dl'.2 !! i = Some name ∧
                               path = os_path_join dl'.1 [name])
    dls row_ →
  entries !! k = Some (t, sc) →
  ∃ rel names name,
    track_dirs cls !! (t, sp, sc) = Some rel ∧
    tree !! os_path_join r [rel] = Some names ∧
    sorted names !! i = Some name ∧
    row_ !! k = Some (os_path_join (os_path_join r [rel]) [name]).
Proof.
  intros HF Hrow Hk.
  destruct (Forall2_lookup_l _ _ _ _ _ HF Hk) as (dl' & Hd & Hl).
  destruct (Forall2_lookup_l _ _ _ _ _ Hrow Hd) as (path & Hp & name & Hn & ->).
  apply listing_inv in Hl as (rel & Hrel & Hdir & Hnames).
  cbn [fst snd] in Hrel. exists rel, dl'.2, name.
  split; [done|]. split; [by rewrite <- Hdir|]. split; [done|].
  by rewrite <- Hdir.
Qed.

(** C4.  On a tree in which every requested directory is there and all hold
    equally many names, there is one sample for each name of the first
    directory, and sample [i] holds, for each listed directory in order,
    the path of the [i]-th of its names in lexicographic order: at position
    0 the high-resolution file when the split has a high-resolution entry,
    and then the file of each requested pair in the order of the request.
    The sorted names do not depend on the order in which the directory was
    read. *)
Theorem C4_sample_order root_ scale track split_ transform_ loader_
    (download_ : bool) st st1 dl dls :
  length (track_list track (scale_list scale)) = length (scale_list scale) →
  (if download_ then download cls download_and_extract_archive else ret tt)
    (constructed (expanduser root_) (scale_list scale)
       (track_list track (scale_list scale)) split_ transform_ loader_ st)
  = (inr tt, st1) →
  mapM (listing cls (fs st1) (expanduser root_) split_)
    (all_tracks cls split_ (track_list track (scale_list scale)) (scale_list scale))
  = Some (dl :: dls) →
  Forall (λ dl', length dl'.2 = length dl.2) dls →
  ∃ st2 rows_,
    FolderByDir_init cls set_order expanduser download_and_extract_archive
      root_ scale track split_ transform_ loader_ download_ st
    = (inr tt, st2) ∧
    samples (self st2) = Some rows_ ∧
    length rows_ = length dl.2 ∧
    (∀ i : nat, (i < length dl.2)%nat → is_Some (rows_ !! i)) ∧
    (∀ (i : nat) row_, rows_ !! i = Some row_ →
       Forall2 (λ dl' path, ∃ name, sorted dl'.2 !! i = Some name ∧
                                    path = os_path_join dl'.1 [name])
         (dl :: dls) row_) ∧
    (∀ (i : nat) row_, rows_ !! i = Some row_ →
       (∀ rel, track_dirs cls !! ("hr"%string, split_, 1) = Some rel →
          ∃ names name,
            fs st1 !! os_path_join (expanduser root_) [rel] = Some names ∧
            sorted names !! i = Some name ∧
            row_ !! 0%nat
            = Some (os_path_join (os_path_join (expanduser root_) [rel]) [name])) ∧
       (∀ (k : nat) t sc,
          track_list track (scale_list scale) !! k = Some t →
          scale_list scale !! k = Some sc →
          ∃ rel names name,
            track_dirs cls !! (t, split_, sc) = Some rel ∧
            fs st1 !! os_path_join (expanduser root_) [rel] = Some names ∧
            sorted names !! i = Some name ∧
            row_ !! Nat.add k
                      (if decide (is_Some (track_dirs cls
                                             !! ("hr"%string, split_, 1)))
                       then 1%nat else 0%nat)
            = Some (os_path_join (os_path_join (expanduser root_) [rel]) [name])) ∧
       length row_
       = Nat.add (length (scale_list scale))
           (if decide (is_Some (track_dirs cls !! ("hr"%string, split_, 1)))
            then 1%nat else 0%nat)) ∧
    (∀ dl', dl' ∈ dl :: dls →
       StronglySorted String.le (sorted dl'.2) ∧
       sorted dl'.2 ≡ₚ dl'.2 ∧
       ∀ names', names' ≡ₚ dl'.2 → sorted names' = sorted dl'.2) ∧
    all_tracks cls split_ (track_list track (scale_list scale)) (scale_list scale)
    = (if decide (is_Some (track_dirs cls !! ("hr"%string, split_, 1)))
       then [("hr"%string, 1)] else [])
      ++ zip (track_list track (scale_list scale)) (scale_list scale).
Proof.
  intros Hlen Hdl HF Hcnt. eexists _, _. split; [by apply construct_ok|].
  split; [reflexivity|].
  assert (Hn : length (rows (column <$> dl :: dls)) = length dl.2).
  { cbn [fmap list_fmap]. by rewrite rows_length, column_length. }
  assert (Hrow : ∀ (i : nat) row_,
            rows (column <$> dl :: dls) !! i = Some row_ →
            Forall2 (λ dl' path, ∃ name, sorted dl'.2 !! i = Some name ∧
                                         path = os_path_join dl'.1 [name])
              (dl :: dls) row_).
  { intros i row_ Hi. cbn [fmap list_fmap] in Hi.
    apply rows_lookup in Hi as [Hi ->]. rewrite column_length in Hi.
    apply (row_columns (dl :: dls) i). constructor; [done|].
    eapply Forall_impl; [exact Hcnt|]. simpl. intros dl' ->. done. }
  apply mapM_Some in HF.
  split; [exact Hn|]. split; [|split; [exact Hrow|split; [|split]]].
  - intros i Hi. apply lookup_lt_is_Some_2. by rewrite Hn.
  - intros i row_ Hi. specialize (Hrow i row_ Hi). split; [|split].
    + intros rel Hhr.
      destruct (row_at_entry (fs st1) (expanduser root_) split_ _ _ i 0
                  row_ "hr" 1 HF Hrow) as (rel' & names & name & Hk & Hf & Hs & Hr).
      { unfold all_tracks. rewrite decide_True by by rewrite Hhr. done. }
      exists names, name. by simplify_eq.
    + intros k t sc Ht Hs.
      apply (row_at_entry (fs st1) (expanduser root_) split_ _ _ i _
               row_ t sc HF Hrow).
      unfold all_tracks. destruct (decide _) as [Hhr|Hhr].
      * rewrite Nat.add_1_r. cbn [zip_with].
        by rewrite lookup_cons, lookup_zip_with, Ht, Hs.
      * rewrite Nat.add_0_r. by rewrite lookup_zip_with, Ht, Hs.
    + apply Forall2_length in Hrow. apply Forall2_length in HF.
      rewrite <- Hrow, <- HF. by apply all_tracks_count.
  - intros dl' _. split; [apply sorted_StronglySorted|].
    split; [apply sorted_Permutation|].
    intros names' Hp. by apply sorted_order_independent.
  - unfold all_tracks. by case_decide.
Qed.

(** C6.  With a high-resolution directory of three names and a directory
    for track [bicubic] at scale 2 of three names, construction for
    [bicubic] at scale 2 gives a dataset of length 3, and index 0 gives the
    images of the lexicographically least name of each directory, the
    high-resolution one first. *)
Theorem C6_three_files_each root_ split_ transform_ loader_ (download_ : bool)
    st st1 (hr_rel lr_rel : string) (hs ls : list string) :
  track_dirs cls !! ("hr"%string, split_, 1) = Some hr_rel →
  track_dirs cls !! ("bicubic"%string, split_, 2) = Some lr_rel →
  (if download_ then download cls download_and_extract_archive else ret tt)
    (constructed (expanduser root_) [2] ["bicubic"%string] split_
       transform_ loader_ st)
  = (inr tt, st1) →
  fs st1 !! os_path_join (expanduser root_) [hr_rel] = Some hs →
  fs st1 !! os_path_join (expanduser root_) [lr_rel] = Some ls →
  length hs = 3%nat →
  length ls = 3%nat →
  ∃ st2 h l,
    FolderByDir_init cls set_order expanduser download_and_extract_archive
      root_ (inl 2) (inl "bicubic"%string) split_ transform_ loader_
      download_ st
    = (inr tt, st2) ∧
    Folder_len st2 = (inr 3%nat, st2) ∧
    (h ∈ hs ∧ ∀ h', h' ∈ hs → String.le h h') ∧
    (l ∈ ls ∧ ∀ l', l' ∈ ls → String.le l l') ∧
    Folder_getitem 0 st2
    = (apply_transform transform_
         (load_all loader_
            [ os_path_join (os_path_join (expanduser root_) [hr_rel]) [h]
            ; os_path_join (os_path_join (expanduser root_) [lr_rel]) [l] ]),
       st2).
Proof.
  intros Hhr Hlr Hdl Hhs Hls Hnh Hnl.
  set (dh := (os_path_join (expanduser root_) [hr_rel], hs)).
  set (dl := (os_path_join (expanduser root_) [lr_rel], ls)).
  assert (HF : mapM (listing cls (fs st1) (expanduser root_) split_)
                 (all_tracks cls split_ (track_list (inl "bicubic"%string)
                                           (scale_list (inl 2)))
                    (scale_list (inl 2)))
               = Some [dh; dl]).
  { apply mapM_Some. unfold all_tracks. rewrite decide_True by by rewrite Hhr.
    cbn [scale_list track_list length replicate zip zip_with].
    repeat constructor; unfold listing; cbn [fst snd].
    - rewrite Hhr. cbn [mbind option_bind]. by rewrite Hhs.
    - rewrite Hlr. cbn [mbind option_bind]. by rewrite Hls. }
  assert (Hcnt : Forall (λ dl', length dl'.2 = length dh.2) [dl]).
  { repeat constructor. simpl. congruence. }
  destruct (lookup_lt_is_Some_2 (sorted hs) 0) as [h Hh].
  { pose proof (Permutation_length (sorted_Permutation hs)). lia. }
  destruct (lookup_lt_is_Some_2 (sorted ls) 0) as [l Hl].
  { pose proof (Permutation_length (sorted_Permutation ls)). lia. }
  pose proof (maybe_download_self cls download_and_extract_archive
                _ _ _ _ Hdl) as Hself.
  eexists _, h, l. split.
  { apply (construct_ok root_ (inl 2) (inl "bicubic"%string) split_ transform_
             loader_ download_ st st1 dh [dl] eq_refl Hdl HF Hcnt). }
  split.
  { erewrite Folder_len_run; [|reflexivity].
    cbn [fmap list_fmap]. rewrite rows_length, column_length.
    cbn [dh snd]. by rewrite Hnh. }
  split; [by apply sorted_head_least|]. split; [by apply sorted_head_least|].
  eapply Folder_getitem_run.
  - reflexivity.
  - cbn [self put_samples logs loader]. by rewrite Hself.
  - cbn [self put_samples logs transform]. by rewrite Hself.
  - cbn [fmap list_fmap]. unfold rows. rewrite column_length.
    cbn [snd dh]. rewrite Hnh. cbn [seq fmap list_fmap]. rewrite getitem_0.
    unfold row, column. cbn [fmap list_fmap fst snd dh dl].
    by rewrite !list_lookup_fmap, Hh, Hl.
Qed.

(** C9, amended.  After a successful construction every sample has as many
    paths as there are requested pairs, plus one when the split has a
    high-resolution entry.  For a valid index, when no transform was given
    and the loader succeeds, [__getitem__] returns that many images; with a
    transform it returns what the transform makes of them. *)
Theorem C9_samples_have_one_path_per_entry root_ scale track split_ transform_
    loader_ (download_ : bool) st st1 dl dls :
  length (track_list track (scale_list scale)) = length (scale_list scale) →
  (if download_ then download cls download_and_extract_archive else ret tt)
    (constructed (expanduser root_) (scale_list scale)
       (track_list track (scale_list scale)) split_ transform_ loader_ st)
  = (inr tt, st1) →
  mapM (listing cls (fs st1) (expanduser root_) split_)
    (all_tracks cls split_ (track_list track (scale_list scale)) (scale_list scale))
  = Some (dl :: dls) →
  Forall (λ dl', length dl'.2 = length dl.2) dls →
  ∃ st2 rows_,
    FolderByDir_init cls set_order expanduser download_and_extract_archive
      root_ scale track split_ transform_ loader_ download_ st
    = (inr tt, st2) ∧
    samples (self st2) = Some rows_ ∧
    let n := Nat.add (length (scale_list scale))
               (if decide (is_Some (track_dirs cls !! ("hr"%string, split_, 1)))
                then 1%nat else 0%nat) in
    Forall (λ row_, length row_ = n) rows_ ∧
    (∀ index paths, getitem rows_ index = inr paths →
       Folder_getitem index st2
       = (apply_transform transform_ (load_all loader_ paths), st2)) ∧
    (∀ index,
       - Z.of_nat (length rows_) ≤ index < Z.of_nat (length rows_) →
       transform_ = None →
       (∀ p, ∃ img, loader_ p = inr img) →
       ∃ images,
         Folder_getitem index st2 = (inr images, st2) ∧ length images = n).
Proof.
  intros Hlen Hdl HF Hcnt. eexists _, _. split; [by apply construct_ok|].
  split; [reflexivity|].
  pose proof (maybe_download_self cls download_and_extract_archive
                _ _ _ _ Hdl) as Hself.
  apply mapM_Some, Forall2_length in HF.
  rewrite (all_tracks_count split_ _ _ Hlen) in HF.
  assert (Hrows : Forall (λ row_, length row_
                            = Nat.add (length (scale_list scale))
                                (if decide (is_Some (track_dirs cls
                                                       !! ("hr"%string, split_, 1)))
                                 then 1%nat else 0%nat))
                    (rows (column <$> dl :: dls))).
  { cbn [fmap list_fmap]. unfold rows. apply Forall_fmap, Forall_forall.
    intros i _. unfold row. simpl. rewrite !length_fmap. simpl in HF. lia. }
  assert (Hget : ∀ index paths,
            getitem (rows (column <$> dl :: dls)) index = inr paths →
            Folder_getitem index
              (put_samples (rows (column <$> dl :: dls))
                 (logs (EvListdir <$> (dl :: dls).*1) st1))
            = (apply_transform transform_ (load_all loader_ paths),
               put_samples (rows (column <$> dl :: dls))
                 (logs (EvListdir <$> (dl :: dls).*1) st1))).
  { intros index paths Hp. eapply Folder_getitem_run; [reflexivity| | |exact Hp].
    - cbn [self put_samples logs loader]. by rewrite Hself.
    - cbn [self put_samples logs transform]. by rewrite Hself. }
  cbn zeta. split; [exact Hrows|]. split; [exact Hget|].
  intros index Hi -> Hl.
  destruct (getitem_valid _ _ Hi) as (paths & Hp & Hin).
  destruct (load_all_total loader_ paths Hl) as [images Him].
  exists images. rewrite (Hget index paths Hp), Him. split; [done|].
  rewrite (load_all_length _ _ _ Him).
  by eapply Forall_forall in Hrows.
Qed.

Lemma msg_count_not_msg_lengths (t : string) (sc : Z) :
  msg_count t sc ≠ msg_lengths.
Proof.
  unfold msg_count, msg_lengths. rewrite append_cons. discriminate.
Qed.

(** C10.  When [init_samples] raises the count-mismatch error,
    [self.samples] is what it was before the call; in a construction that
    is the empty list assigned by [Folder.__init__]. *)
Theorem C10_mismatch_leaves_samples_empty root_ scale track split_ transform_
    loader_ (download_ : bool) st e st' :
  is_count_mismatch e →
  (init_samples cls set_order st = (inl e, st') →
   samples (self st') = samples (self st)) ∧
  (FolderByDir_init cls set_order expanduser download_and_extract_archive
     root_ scale track split_ transform_ loader_ download_ st
   = (inl e, st') →
   samples (self st') = Some []).
Proof.
  intros (t & sc & ->). split.
  - intros H. by apply init_samples_ValueError in H as [ds ->].
  - intros H.
    destruct (decide (length (track_list track (scale_list scale))
                      = length (scale_list scale))) as [Hlen|Hlen].
    2:{ rewrite FolderByDir_init_lengths in H by done.
        destruct (msg_count_not_msg_lengths t sc). congruence. }
    rewrite FolderByDir_init_run in H by done.
    apply bind_inv in H as [(? & H & _)|([] & st1 & H & H1)];
      apply maybe_download_self in H; [by rewrite H|].
    apply init_samples_ValueError in H1 as [ds ->].
    cbn [self logs]. by rewrite H.
Qed.

End Claims.

(** ** Instances on concrete trees *)

(** C1 on [Set5] with three high-resolution files and three files at
    scale 2. *)
Lemma C1_witness :
  ∃ st2 : State string,
    Set5_init elements id no_download "/d" (inl 2) None inr false
      (initial demo_fs) = (inr tt, st2) ∧
    Folder_len st2 = (inr 3%nat, st2).
Proof.
  edestruct (C1_len_is_reference_count (Image:=string) Set5 elements id
               no_download "/d/SRBenchmarks" (inl 2) (inl "bicubic"%string)
               "val" None inr false (initial demo_fs))
    as (st2 & H1 & H2 & _).
  - reflexivity.
  - reflexivity.
  - vm_compute. reflexivity.
  - repeat constructor.
  - exists st2. split; [exact H1|exact H2].
Defined.

(** C2 on [Set5] with three high-resolution files and two files at
    scale 2. *)
Lemma C2_witness :
  ∃ e (st2 : State string),
    Set5_init elements id no_download "/d" (inl 2) None inr false
      (initial mismatch_fs) = (inl e, st2) ∧
    is_count_mismatch e.
Proof.
  eapply (C2_count_mismatch_raises (Image:=string) Set5 elements id
            no_download "/d/SRBenchmarks" (inl 2) (inl "bicubic"%string)
            "val" None inr false (initial mismatch_fs)).
  - reflexivity.
  - reflexivity.
  - vm_compute. reflexivity.
  - apply Exists_cons_hd. simpl. lia.
Defined.

(** C2 as stated fails: on [Set5] with three high-resolution files and two
    files at scale 2, a request for the scales 2 and 3 whose directory for
    scale 3 is not there raises [FileNotFoundError], and a request for the
    scales 2 and 5 raises the [ValueError] of [get_dir]; neither is the
    count-mismatch error. *)
Lemma C2_counterexample :
  (mismatch_fs !! "/d/SRBenchmarks/benchmark/Set5/HR"%string
   = Some ["b.png"; "c.png"; "a.png"]%string ∧
   mismatch_fs !! "/d/SRBenchmarks/benchmark/Set5/LR_bicubic/X2"%string
   = Some ["cx2.png"; "ax2.png"]%string) ∧
  (∃ st2 : State string,
     Set5_init elements id no_download "/d" (inr [2; 3]) None inr false
       (initial mismatch_fs)
     = (inl (FileNotFoundError "/d/SRBenchmarks/benchmark/Set5/LR_bicubic/X3"),
        st2) ∧
     ¬ is_count_mismatch
         (FileNotFoundError "/d/SRBenchmarks/benchmark/Set5/LR_bicubic/X3")) ∧
  (∃ st2 : State string,
     Set5_init elements id no_download "/d" (inr [2; 5]) None inr false
       (initial mismatch_fs)
     = (inl (ValueError "Div2K track bicubic does not include scale X5"), st2) ∧
     ¬ is_count_mismatch
         (ValueError "Div2K track bicubic does not include scale X5")).
Proof.
  split; [split; vm_compute; reflexivity|]. split.
  - eexists. split; [vm_compute; reflexivity|]. intros (t & sc & H). discriminate H.
  - eexists. split; [vm_compute; reflexivity|]. intros (t & sc & H).
    unfold msg_count in H. rewrite append_cons in H. discriminate H.
Defined.

(** C3 as stated fails: with scales 2 and 5 of track [bicubic] on the
    training split of [Div2K], scale 5 is not in the table, and yet the
    high-resolution directory and the directory of scale 2 are listed
    before the error is raised. *)
Lemma C3_counterexample :
  track_dirs Div2K !! ("bicubic"%string, "train"%string, 5) = None ∧
  ∃ st2 : State string,
    Div2K_init elements id no_download "/d" (inr [2; 5])
      (inl "bicubic"%string) "train" None inr false
      (initial div2k_partial_fs)
    = (inl (ValueError "Div2K track bicubic does not include scale X5"), st2) ∧
    trace st2 = [ EvListdir "/d/DIV2K/DIV2K_train_HR"
                ; EvListdir "/d/DIV2K/DIV2K_train_LR_bicubic/X2" ].
Proof.
  split; [by vm_compute|]. eexists. split; [vm_compute; reflexivity|].
  reflexivity.
Defined.

Lemma C3_witness :
  ∃ e listed (st2 : State string),
    Div2K_init elements id no_download "/d" (inr [2; 5])
      (inl "bicubic"%string) "train" None inr false
      (initial div2k_partial_fs) = (inl e, st2) ∧
    trace st2 = EvListdir <$> listed ∧
    listed `prefix_of` [ "/d/DIV2K/DIV2K_train_HR"
                       ; "/d/DIV2K/DIV2K_train_LR_bicubic/X2" ]%string.
Proof.
  edestruct (C3_unsupported_pair_stops_listing (Image:=string) Div2K elements
               id no_download "/d/DIV2K" (inr [2; 5]) (inl "bicubic"%string)
               "train" None inr false (initial div2k_partial_fs)
               (constructed "/d/DIV2K" [2; 5] ["bicubic"; "bicubic"]%string
                  "train" None inr (initial div2k_partial_fs))
               [("hr"%string, 1); ("bicubic"%string, 2)] "bicubic" 5 [])
    as (e & listed & st2 & H1 & H2 & H3 & _).
  - reflexivity.
  - reflexivity.
  - vm_compute. reflexivity.
  - vm_compute. reflexivity.
  - vm_compute. reflexivity.
  - exists e, listed, st2. split; [exact H1|]. split; [exact H2|exact H3].
Defined.

(** C4 on [Set5]: the three samples, as the statement determines them. *)
Lemma C4_witness :
  ∃ st2 : State string,
    Set5_init elements id no_download "/d" (inl 2) None inr false
      (initial demo_fs) = (inr tt, st2) ∧
    samples (self st2)
    = Some [ [ "/d/SRBenchmarks/benchmark/Set5/HR/a.png"
             ; "/d/SRBenchmarks/benchmark/Set5/LR_bicubic/X2/ax2.png" ]
           ; [ "/d/SRBenchmarks/benchmark/Set5/HR/b.png"
             ; "/d/SRBenchmarks/benchmark/Set5/LR_bicubic/X2/bx2.png" ]
           ; [ "/d/SRBenchmarks/benchmark/Set5/HR/c.png"
             ; "/d/SRBenchmarks/benchmark/Set5/LR_bicubic/X2/cx2.png" ] ]%string.
Proof.
  edestruct (C4_sample_order (Image:=string) Set5 elements id
               no_download "/d/SRBenchmarks" (inl 2) (inl "bicubic"%string)
               "val" None inr false (initial demo_fs))
    as (st2 & rows_ & H1 & H2 & H3 & _ & H4 & _).
  - reflexivity.
  - reflexivity.
  - vm_compute. reflexivity.
  - repeat constructor.
  - exists st2. split; [exact H1|]. rewrite H2. f_equal.
    destruct rows_ as [|r0 [|r1 [|r2 [|r3 rows_]]]]; try discriminate H3.
    pose proof (H4 0%nat r0 eq_refl) as F0.
    pose proof (H4 1%nat r1 eq_refl) as F1.
    pose proof (H4 2%nat r2 eq_refl) as F2.
    apply Forall2_cons_inv_l in F0 as (? & ? & (? & E0a & ->) & F0 & ->).
    apply Forall2_cons_inv_l in F0 as (? & ? & (? & E0b & ->) & F0 & ->).
    apply Forall2_nil_inv_l in F0 as ->.
    apply Forall2_cons_inv_l in F1 as (? & ? & (? & E1a & ->) & F1 & ->).
    apply Forall2_cons_inv_l in F1 as (? & ? & (? & E1b & ->) & F1 & ->).
    apply Forall2_nil_inv_l in F1 as ->.
    apply Forall2_cons_inv_l in F2 as (? & ? & (? & E2a & ->) & F2 & ->).
    apply Forall2_cons_inv_l in F2 as (? & ? & (? & E2b & ->) & F2 & ->).
    apply Forall2_nil_inv_l in F2 as ->.
    vm_compute in E0a, E0b, E1a, E1b, E2a, E2b.
    injection E0a as <-. injection E0b as <-. injection E1a as <-.
    injection E1b as <-. injection E2a as <-. injection E2b as <-.
    reflexivity.
Defined.

(** C5 as stated fails: the message for an unknown split names none of the
    splits [train] and [test] of the table, and the message for a scale
    that the track does not have names none of its scales 3, 4 and 8. *)
Lemma C5_counterexample :
  (get_dir (Image:=string) Div2K elements "bicubic" "dev" 2 (initial ∅)
   = (inl (ValueError "Split dev is not valid"), initial ∅) ∧
   "train"%string ∈ get_splits Div2K ∧
   "test"%string ∈ get_splits Div2K ∧
   contains "Split dev is not valid" "train" = false ∧
   contains "Split dev is not valid" "test" = false) ∧
  (get_dir (Image:=string) Div2K elements "bicubic" "train" 5 (initial ∅)
   = (inl (ValueError "Div2K track bicubic does not include scale X5"),
      initial ∅) ∧
   is_Some (track_dirs Div2K !! ("bicubic"%string, "train"%string, 3)) ∧
   is_Some (track_dirs Div2K !! ("bicubic"%string, "train"%string, 4)) ∧
   is_Some (track_dirs Div2K !! ("bicubic"%string, "train"%string, 8)) ∧
   contains "Div2K track bicubic does not include scale X5" (str_int 3) = false ∧
   contains "Div2K track bicubic does not include scale X5" (str_int 4) = false ∧
   contains "Div2K track bicubic does not include scale X5" (str_int 8) = false).
Proof.
  split.
  - split; [vm_compute; reflexivity|].
    split.
    { apply (bool_decide_eq_true_1 ("train"%string ∈ get_splits Div2K)).
      vm_compute. reflexivity. }
    split.
    { apply (bool_decide_eq_true_1 ("test"%string ∈ get_splits Div2K)).
      vm_compute. reflexivity. }
    split; vm_compute; reflexivity.
  - split; [vm_compute; reflexivity|].
    split; [eexists; vm_compute; reflexivity|].
    split; [eexists; vm_compute; reflexivity|].
    split; [eexists; vm_compute; reflexivity|].
    repeat split; vm_compute; reflexivity.
Defined.

Lemma C5_witness :
  ∃ msg,
    get_dir (Image:=string) Div2K elements "nearest" "train" 2 (initial ∅)
    = (inl (ValueError msg), initial ∅).
Proof.
  edestruct (C5_lookup_errors (Image:=string) Div2K elements (initial ∅)
               "nearest" "train" 2) as (msg & H & _).
  - intros X. reflexivity.
  - vm_compute. reflexivity.
  - exists msg. exact H.
Defined.

(** C6 on [Set5]. *)
Lemma C6_witness :
  ∃ (st2 : State string) h l,
    Set5_init elements id no_download "/d" (inl 2) None inr false
      (initial demo_fs) = (inr tt, st2) ∧
    Folder_len st2 = (inr 3%nat, st2) ∧
    Folder_getitem 0 st2
    = (inr [ os_path_join "/d/SRBenchmarks/benchmark/Set5/HR" [h]
           ; os_path_join "/d/SRBenchmarks/benchmark/Set5/LR_bicubic/X2" [l] ],
       st2).
Proof.
  edestruct (C6_three_files_each (Image:=string) Set5 elements id no_download
               "/d/SRBenchmarks" "val" None inr false (initial demo_fs)
               (constructed "/d/SRBenchmarks" [2] ["bicubic"%string] "val"
                  None inr (initial demo_fs))
               "benchmark/Set5/HR" "benchmark/Set5/LR_bicubic/X2"
               ["b.png"; "c.png"; "a.png"]%string
               ["cx2.png"; "ax2.png"; "bx2.png"]%string)
    as (st2 & h & l & H1 & H2 & _ & _ & H3).
  - vm_compute. reflexivity.
  - vm_compute. reflexivity.
  - reflexivity.
  - vm_compute. reflexivity.
  - vm_compute. reflexivity.
  - reflexivity.
  - reflexivity.
  - exists st2, h, l. split; [exact H1|]. split; [exact H2|exact H3].
Defined.

(** C7 on [Set5]. *)
Lemma C7_witness :
  get_dir Set5 elements "bicubic" "val" 3
    (constructed "/d/SRBenchmarks" [3] ["bicubic"%string] "val" None
       (inr : string → exn + string) (initial demo_fs))
  = (inr (os_path_join "/d/SRBenchmarks" ["benchmark/Set5/LR_bicubic/X3"%string]),
     constructed "/d/SRBenchmarks" [3] ["bicubic"%string] "val" None inr
       (initial demo_fs)).
Proof.
  apply (C7_get_dir_resolves_from_table (Image:=string) Set5 elements
           (constructed "/d/SRBenchmarks" [3] ["bicubic"%string] "val"
              None inr (initial demo_fs))
           "/d/SRBenchmarks" "bicubic" "val" 3).
  - reflexivity.
  - vm_compute. reflexivity.
Defined.

(** C8 on [Div2K], with two tracks for one scale. *)
Lemma C8_witness :
  Div2K_init elements id no_download "/d" (inl 2)
    (inr ["bicubic"; "unknown"]%string) "train" None
    (inr : string → exn + string) true (initial demo_fs)
  = (inl (ValueError msg_lengths), initial demo_fs).
Proof.
  apply (C8_arguments_as_lists (Image:=string) Div2K elements id no_download
           2 "bicubic" [2] "/d/DIV2K" (inl 2)
           (inr ["bicubic"; "unknown"]%string) "train" None inr true
           (initial demo_fs)).
  simpl. lia.
Defined.

(** C9 as stated fails: with a transform that keeps the first image, index
    0 of a [Set5] dataset for one scale gives one image, not two. *)
Lemma C9_counterexample :
  is_Some (track_dirs Set5 !! ("hr"%string, "val"%string, 1)) ∧
  ∃ (st2 : State string) images,
    (Set5_init elements id no_download "/d" (inl 2) (Some first_only) inr
       false ;;;
     Folder_getitem 0) (initial demo_fs) = (inr images, st2) ∧
    length images = 1%nat ∧
    length images ≠ S (length (scale_list (inl 2))).
Proof.
  split; [eexists; vm_compute; reflexivity|].
  eexists _, _. split; [vm_compute; reflexivity|]. split; [reflexivity|].
  simpl. lia.
Defined.

Lemma C9_witness :
  ∃ (st2 : State string) rows_,
    Set5_init elements id no_download "/d" (inl 2) None inr false
      (initial demo_fs) = (inr tt, st2) ∧
    samples (self st2) = Some rows_ ∧
    Forall (λ row_, length row_ = 2%nat) rows_.
Proof.
  edestruct (C9_samples_have_one_path_per_entry (Image:=string) Set5 elements
               id no_download "/d/SRBenchmarks" (inl 2) (inl "bicubic"%string)
               "val" None inr false (initial demo_fs))
    as (st2 & rows_ & H1 & H2 & H3 & _).
  - reflexivity.
  - reflexivity.
  - vm_compute. reflexivity.
  - repeat constructor.
  - exists st2, rows_. split; [exact H1|]. split; [exact H2|exact H3].
Defined.

(** C10 on [Set5] with three high-resolution files and two files at
    scale 2. *)
Lemma C10_witness :
  ∃ st2 : State string,
    Set5_init elements id no_download "/d" (inl 2) None inr false
      (initial mismatch_fs)
    = (inl (ValueError (msg_count "bicubic" 2)), st2) ∧
    samples (self st2) = Some [].
Proof.
  eexists. split; [vm_compute; reflexivity|].
  eapply (C10_mismatch_leaves_samples_empty (Image:=string) Set5 elements id
            no_download "/d/SRBenchmarks" (inl 2) (inl "bicubic"%string)
            "val" None inr false (initial mismatch_fs)
            (ValueError (msg_count "bicubic" 2))).
  - exists "bicubic"%string, 2. reflexivity.
  - vm_compute. reflexivity.
Defined.

(** ** The helpers on small inputs *)

Example os_path_join_relative :
  os_path_join "/d" ["DIV2K"; "DIV2K_train_HR"]%string = "/d/DIV2K/DIV2K_train_HR"%string.
Proof. reflexivity. Qed.

Example os_path_join_trailing_sep :
  os_path_join "/d/" ["DIV2K"]%string = "/d/DIV2K"%string.
Proof. reflexivity. Qed.

Example os_path_join_absolute :
  os_path_join "/d" ["/e"; "f"]%string = "/e/f"%string.
Proof. reflexivity. Qed.

Example sorted_names :
  sorted ["0010.png"; "0002.png"; "0001.png"]%string
  = ["0001.png"; "0002.png"; "0010.png"]%string.
Proof. vm_compute. reflexivity. Qed.

Example getitem_last : getitem [10; 20; 30] (-1) = inr 30.
Proof. reflexivity. Qed.

Example getitem_out_of_range : getitem [10; 20; 30] 3 = inl IndexError.
Proof. reflexivity. Qed.

Example msg_track_Set5 :
  msg_track Set5 (λ _, ["hr"; "bicubic"]%string) "nearest"
  = "Track nearest does not exist. Use one of ['hr', 'bicubic']"%string.
Proof. reflexivity. Qed.

(** On the test split of [Div2K] there is no high-resolution entry: the
    first requested pair is the reference. *)
Example all_tracks_test_split :
  all_tracks Div2K "test" ["bicubic"; "unknown"]%string [2; 3]
  = [("bicubic"%string, 2); ("unknown"%string, 3)].
Proof. vm_compute. reflexivity. Qed.

Example all_tracks_train_split :
  all_tracks Div2K "train" ["bicubic"; "unknown"]%string [2; 3]
  = [("hr"%string, 1); ("bicubic"%string, 2); ("unknown"%string, 3)].
Proof. vm_compute. reflexivity. Qed.

(** ** Further properties: the table *)

Section Tables.

Context {Image : Type}.
Variable cls : FolderByDirClass.
Variable set_order : gset string → list string.
Implicit Types st : State Image.

Lemma elem_of_get_tracks (t : string) :
  t ∈ get_tracks cls ↔ ∃ sp sc, is_Some (track_dirs cls !! (t, sp, sc)).
Proof.
  unfold get_tracks. rewrite elem_of_map. split.
  - intros ([[t' sp] sc] & -> & Hk). apply elem_of_dom in Hk. by exists sp, sc.
  - intros (sp & sc & Hk). exists (t, sp, sc). split; [done|].
    by apply elem_of_dom.
Qed.

Lemma elem_of_get_splits (sp : string) :
  sp ∈ get_splits cls ↔ ∃ t sc, is_Some (track_dirs cls !! (t, sp, sc)).
Proof.
  unfold get_splits. rewrite elem_of_map. split.
  - intros ([[t sp'] sc] & -> & Hk). apply elem_of_dom in Hk. by exists t, sc.
  - intros (t & sc & Hk). exists (t, sp, sc). split; [done|].
    by apply elem_of_dom.
Qed.

(** X1.  [has_split] answers whether some key of [track_dirs] has the
    split, whatever its track and scale; and every key of the table has its
    track among [get_tracks] and its split among [get_splits]. *)
Theorem X1_has_split_reads_the_keys (sp : string) :
  (has_split cls sp = true ↔
   ∃ t sc, is_Some (track_dirs cls !! (t, sp, sc))) ∧
  (∀ t sc, is_Some (track_dirs cls !! (t, sp, sc)) →
     t ∈ get_tracks cls ∧ sp ∈ get_splits cls ∧ has_split cls sp = true).
Proof.
  split.
  - unfold has_split. rewrite bool_decide_eq_true. apply elem_of_get_splits.
  - intros t sc Hk. split; [|split].
    + apply elem_of_get_tracks. by exists sp, sc.
    + apply elem_of_get_splits. by exists t, sc.
    + unfold has_split. rewrite bool_decide_eq_true.
      apply elem_of_get_splits. by exists t, sc.
Qed.

(** X2.  For a key that is not in the table, the message of [get_dir] is
    chosen by the keys that are: the unknown-track message when no key has
    the track; the invalid-split message when some key has the track and
    none has the split; the missing-scale message when some key has the
    track and some key has the split, even if no key has both. *)
Theorem X2_get_dir_message_by_keys st (t sp : string) (sc : Z) :
  track_dirs cls !! (t, sp, sc) = None →
  ((∀ sp' sc', track_dirs cls !! (t, sp', sc') = None) →
   get_dir cls set_order t sp sc st
   = (inl (ValueError (msg_track cls set_order t)), st)) ∧
  ((∃ sp' sc', is_Some (track_dirs cls !! (t, sp', sc'))) →
   (∀ t' sc', track_dirs cls !! (t', sp, sc') = None) →
   get_dir cls set_order t sp sc st = (inl (ValueError (msg_split sp)), st)) ∧
  ((∃ sp' sc', is_Some (track_dirs cls !! (t, sp', sc'))) →
   (∃ t' sc', is_Some (track_dirs cls !! (t', sp, sc'))) →
   get_dir cls set_order t sp sc st = (inl (ValueError (msg_scale t sc)), st)).
Proof.
  intros Hk. unfold get_dir. rewrite Hk. split; [|split].
  - intros Hno. rewrite decide_True; [done|].
    rewrite elem_of_get_tracks. intros (sp' & sc' & [x Hx]).
    by rewrite Hno in Hx.
  - intros Ht Hno. rewrite decide_False.
    2:{ intros Hn. by apply Hn, elem_of_get_tracks. }
    rewrite decide_True; [done|].
    rewrite elem_of_get_splits. intros (t' & sc' & [x Hx]).
    by rewrite Hno in Hx.
  - intros Ht Hs. rewrite decide_False.
    2:{ intros Hn. by apply Hn, elem_of_get_tracks. }
    rewrite decide_False; [done|].
    intros Hn. by apply Hn, elem_of_get_splits.
Qed.

End Tables.

Lemma X1_witness :
  has_split Div2K "test" = true ∧ has_split Div2K "dev" = false.
Proof.
  split.
  - apply (X1_has_split_reads_the_keys Div2K "test").
    exists "bicubic"%string, 2. eexists. vm_compute. reflexivity.
  - vm_compute. reflexivity.
Defined.

Lemma X2_witness :
  get_dir (Image:=string) Div2K elements "real_mild" "test" 4 (initial ∅)
  = (inl (ValueError "Div2K track real_mild does not include scale X4"),
     initial ∅).
Proof.
  apply (X2_get_dir_message_by_keys (Image:=string) Div2K elements (initial ∅)
           "real_mild" "test" 4).
  - vm_compute. reflexivity.
  - exists "train"%string, 4. eexists. vm_compute. reflexivity.
  - exists "bicubic"%string, 2. eexists. vm_compute. reflexivity.
Defined.

(** ** Further properties: what the outcome of the loops tells *)

Section Outcomes.

Context {Image : Type}.
Variable cls : FolderByDirClass.
Variable set_order : gset string → list string.
Implicit Types st : State Image.
Implicit Types (dl : string * list string) (dls : list (string * list string)).
Implicit Types (s : list string) (rest l cols : list (list string)).
Implicit Types (ts : list string) (ss : list Z).

Lemma list_samples_inv st r t sp sc col st' :
  root (self st) = Some r →
  list_samples cls set_order t sp sc st = (inr col, st') →
  ∃ dl, listing cls (fs st) r sp (t, sc) = Some dl ∧ col = column dl ∧
        st' = log (EvListdir dl.1) st.
Proof.
  intros Hr. unfold list_samples.
  destruct (track_dirs cls !! (t, sp, sc)) as [rel|] eqn:Hk.
  - rewrite (bind_ok _ _ _ _ _ (get_dir_ok cls set_order _ _ _ _ _ _ Hr Hk)).
    unfold bind at 1, os_listdir.
    destruct (fs st !! os_path_join r [rel]) as [names|] eqn:Hf; intros H; [|done].
    injection H as <- <-. exists (os_path_join r [rel], names).
    split; [|done]. unfold listing. cbn [fst snd]. rewrite Hk.
    cbn [mbind option_bind]. by rewrite Hf.
  - destruct (get_dir_err cls set_order st t sp sc Hk) as [msg Hm].
    by rewrite (bind_err _ _ _ _ _ (Hm st)).
Qed.

(** When the listing loop returns, every entry was in the table and every
    directory in the tree. *)
Lemma list_all_inv tree st r sp entries cols st' :
  fs st = tree →
  root (self st) = Some r →
  split (self st) = Some sp →
  list_all cls set_order entries st = (inr cols, st') →
  ∃ dls, Forall2 (λ e dl, listing cls tree r sp e = Some dl) entries dls ∧
         cols = column <$> dls.
Proof.
  intros Hf Hr Hs. revert st cols st' Hf Hr Hs.
  induction entries as [|[t sc] entries IH]; intros st cols st' Hf Hr Hs H.
  - injection H as <- _. by exists [].
  - cbn [list_all forM] in H.
    fold (list_all (Image:=Image) cls set_order entries) in H.
    apply bind_inv in H as [(? & _ & ?)|(col & st1 & H & H1)]; [done|].
    rewrite (bind_ok _ _ _ _ _ (attr_ok _ _ _ _ Hs)) in H.
    apply (list_samples_inv st r) in H as (dl & Hl & -> & ->); [|done].
    apply bind_inv in H1 as [(? & _ & ?)|(ys & st2 & H & H1)]; [done|].
    apply IH in H as (dls & HF & ->); [|done..].
    injection H1 as <- _. exists (dl :: dls). split; [|done].
    constructor; [by rewrite <- Hf|done].
Qed.

(** Whatever the outcome, the loop has listed the directories of a first
    part of the entries that are in the table, each once and in order. *)
Lemma list_all_listed st r sp entries res st' :
  root (self st) = Some r →
  split (self st) = Some sp →
  list_all cls set_order entries st = (res, st') →
  ∃ ds, st' = logs (EvListdir <$> ds) st ∧
        ds `prefix_of` omap (entry_dir cls r sp) entries.
Proof.
  intros Hr Hs. revert st res st' Hr Hs.
  induction entries as [|[t sc] entries IH]; intros st res st' Hr Hs H.
  - injection H as _ <-. exists []. by rewrite logs_nil.
  - cbn [list_all forM] in H.
    fold (list_all (Image:=Image) cls set_order entries) in H.
    cbn [omap list_omap]. unfold entry_dir at 1. cbn [fst snd].
    destruct (track_dirs cls !! (t, sp, sc)) as [rel|] eqn:Hk; cbn [fmap option_fmap option_map].
    + fold (omap (entry_dir cls r sp) entries).
      assert (Hget : (split_ <- attr "split" split ;;
                      list_samples cls set_order t split_ sc) st
                     = list_samples cls set_order t sp sc st).
      { by rewrite (bind_ok _ _ _ _ _ (attr_ok _ _ _ _ Hs)). }
      unfold bind at 1 in H. rewrite Hget in H. unfold list_samples in H.
      rewrite (bind_ok _ _ _ _ _ (get_dir_ok cls set_order _ _ _ _ _ _ Hr Hk)) in H.
      unfold bind at 1, os_listdir in H.
      destruct (fs st !! os_path_join r [rel]) as [names|].
      * cbn [ret] in H. unfold bind at 1 in H.
        destruct (list_all cls set_order entries (log (EvListdir (os_path_join r [rel])) st))
          as [res1 st1] eqn:E.
        apply IH in E as (ds & -> & Hp); [|done..].
        exists (os_path_join r [rel] :: ds). split; [|by apply prefix_cons].
        cbn [fmap list_fmap]. rewrite logs_cons.
        destruct res1; by injection H as _ <-.
      * injection H as _ <-. exists [os_path_join r [rel]].
        split; [done|]. apply prefix_cons, prefix_nil.
    + fold (omap (entry_dir cls r sp) entries).
      destruct (get_dir_err cls set_order st t sp sc Hk) as [msg Hm].
      assert (Hget : (split_ <- attr "split" split ;;
                      list_samples cls set_order t split_ sc) st
                     = (inl (ValueError msg), st)).
      { rewrite (bind_ok _ _ _ _ _ (attr_ok _ _ _ _ Hs)).
        unfold list_samples. by rewrite (bind_err _ _ _ _ _ (Hm st)). }
      rewrite (bind_err _ _ _ _ _ Hget) in H. injection H as _ <-.
      exists []. split; [by rewrite logs_nil|apply prefix_nil].
Qed.

(** The check raises at the first list that differs in length from the
    first one, with the track and scale found at its position. *)
Lemma check_loop_first st s0 rest pre s post (k : nat) ts ss t sc :
  tracks (self st) = Some ts →
  scales (self st) = Some ss →
  Forall (λ s', length s' = length s0) pre →
  length s ≠ length s0 →
  ts !! (k + length pre)%nat = Some t →
  ss !! (k + length pre)%nat = Some sc →
  forM_ (λ '(i, s'),
           s0' <- lift (getitem (s0 :: rest) 0) ;;
           if decide (length s' ≠ length s0') then
             tracks_ <- attr "tracks" tracks ;;
             t <- lift (getitem_nat tracks_ i) ;;
             scales_ <- attr "scales" scales ;;
             sc <- lift (getitem_nat scales_ i) ;;
             raise (ValueError (msg_count t sc))
           else ret tt)
        (zip (seq k (length (pre ++ s :: post))) (pre ++ s :: post)) st
  = (inl (ValueError (msg_count t sc)), st).
Proof.
  intros Ht Hs Hpre Hne. revert k.
  induction Hpre as [|s' pre Hs' Hpre IH]; intros k Hlt Hls.
  - cbn [app length seq zip zip_with forM_] in *.
    rewrite Nat.add_0_r in Hlt, Hls.
    unfold bind at 1 2, lift at 1. rewrite getitem_0.
    rewrite decide_True by done.
    rewrite (bind_ok _ _ _ _ _ (attr_ok _ _ _ _ Ht)).
    unfold bind at 1, lift at 1, getitem_nat at 1. rewrite Hlt.
    rewrite (bind_ok _ _ _ _ _ (attr_ok _ _ _ _ Hs)).
    unfold bind at 1, lift at 1, getitem_nat at 1. by rewrite Hls.
  - cbn [app length seq zip zip_with forM_] in *.
    unfold bind at 1 2, lift at 1. rewrite getitem_0.
    rewrite decide_False by (intros ?; done). cbn [ret].
    apply IH; [by rewrite <- Hlt; f_equal; lia|by rewrite <- Hls; f_equal; lia].
Qed.

(** The check returns only when all the lists are equally long: a list of
    another length makes it raise, whatever the attributes. *)
Lemma check_loop_inv st s0 rest l (k : nat) st' :
  forM_ (λ '(i, s'),
           s0' <- lift (getitem (s0 :: rest) 0) ;;
           if decide (length s' ≠ length s0') then
             tracks_ <- attr "tracks" tracks ;;
             t <- lift (getitem_nat tracks_ i) ;;
             scales_ <- attr "scales" scales ;;
             sc <- lift (getitem_nat scales_ i) ;;
             raise (ValueError (msg_count t sc))
           else ret tt)
        (zip (seq k (length l)) l) st
  = (inr tt, st') →
  Forall (λ s', length s' = length s0) l.
Proof.
  revert k. induction l as [|s l IH]; intros k H; [constructor|].
  cbn [length seq zip zip_with forM_] in H.
  unfold bind at 1 2, lift at 1 in H. rewrite getitem_0 in H.
  destruct (decide (length s ≠ length s0)) as [Hne|Heq].
  - exfalso. unfold bind, attr, lift, raise, getitem_nat in H.
    destruct (tracks (self st)) as [ts|]; [|done].
    destruct (ts !! k); [|done].
    destruct (scales (self st)) as [ss|]; [|done].
    by destruct (ss !! k).
  - cbn [ret] in H. constructor; [|by eapply IH].
    by destruct (decide (length s = length s0)).
Qed.

Lemma pair_samples_nil st :
  pair_samples [] st = (inl IndexError, st).
Proof. unfold pair_samples, bind, lift. by rewrite getitem_nil. Qed.

End Outcomes.

(** ** Further properties: outcomes of the constructor *)

Section ConstructionOutcomes.

Context {Image : Type}.
Variable cls : FolderByDirClass.
Variable set_order : gset string → list string.
Variable expanduser : string → string.
Variable download_and_extract_archive :
  string → string → string → FS → string + FS.
Implicit Types st : State Image.
Implicit Types (dl : string * list string) (dls : list (string * list string)).

Lemma init_samples_inv st sp ts ss r st' :
  split (self st) = Some sp →
  tracks (self st) = Some ts →
  scales (self st) = Some ss →
  root (self st) = Some r →
  init_samples cls set_order st = (inr tt, st') →
  ∃ dl dls,
    Forall2 (λ e dl', listing cls (fs st) r sp e = Some dl')
      (all_tracks cls sp ts ss) (dl :: dls) ∧
    Forall (λ dl', length dl'.2 = length dl.2) dls.
Proof.
  intros Hsp Ht Hs Hr H.
  rewrite (init_samples_run cls set_order st sp ts ss Hsp Ht Hs) in H.
  apply bind_inv in H as [(? & _ & ?)|(cols & st1 & H & H1)]; [done|].
  apply (list_all_inv cls set_order (fs st) st r sp) in H as (dls0 & HF & ->);
    [|done..].
  apply bind_inv in H1 as [(? & _ & ?)|([] & st2 & H & H1)]; [done|].
  apply bind_inv in H1 as [(? & _ & ?)|([] & st3 & _ & H1)]; [done|].
  destruct dls0 as [|dl dls]; [by rewrite pair_samples_nil in H1|].
  exists dl, dls. split; [done|].
  unfold check_counts, enumerate in H. cbn [fmap list_fmap drop] in H.
  apply check_loop_inv in H. apply Forall_fmap in H.
  eapply Forall_impl; [exact H|]. intros dl'. simpl. by rewrite !column_length.
Qed.

(** X3.  A construction that returns was given as many tracks as scales,
    found every entry in the table and every directory in the tree (as it
    is after the downloads), and found equally many names in all of them;
    the samples are then the rows over the sorted listings. *)
Theorem X3_success_means_well_formed root_ scale track split_ transform_
    loader_ (download_ : bool) st st2 :
  FolderByDir_init cls set_order expanduser download_and_extract_archive
    root_ scale track split_ transform_ loader_ download_ st
  = (inr tt, st2) →
  length (track_list track (scale_list scale)) = length (scale_list scale) ∧
  ∃ st1 dl dls,
    (if download_ then download cls download_and_extract_archive else ret tt)
      (constructed (expanduser root_) (scale_list scale)
         (track_list track (scale_list scale)) split_ transform_ loader_ st)
    = (inr tt, st1) ∧
    mapM (listing cls (fs st1) (expanduser root_) split_)
      (all_tracks cls split_ (track_list track (scale_list scale))
         (scale_list scale))
    = Some (dl :: dls) ∧
    Forall (λ dl', length dl'.2 = length dl.2) dls ∧
    st2 = put_samples (rows (column <$> dl :: dls))
            (logs (EvListdir <$> (dl :: dls).*1) st1).
Proof.
  intros H.
  destruct (decide (length (track_list track (scale_list scale))
                    = length (scale_list scale))) as [Hlen|Hlen].
  2:{ by rewrite FolderByDir_init_lengths in H. }
  split; [done|]. rewrite FolderByDir_init_run in H by done.
  apply bind_inv in H as [(? & _ & ?)|([] & st1 & Hdl & H)]; [done|].
  pose proof (maybe_download_self cls download_and_extract_archive
                _ _ _ _ Hdl) as Hself.
  destruct (init_samples_inv st1 split_ (track_list track (scale_list scale))
              (scale_list scale) (expanduser root_) st2)
    as (dl & dls & HF & Hcnt); try done; try by rewrite Hself.
  exists st1, dl, dls. split; [done|]. split; [by apply mapM_Some|].
  split; [done|].
  rewrite (init_samples_ok cls set_order st1 split_
             (track_list track (scale_list scale)) (scale_list scale)
             (expanduser root_) dl dls) in H; try done; try by rewrite Hself.
  by injection H as <-.
Qed.

Lemma list_all_missing tree st r sp pre e post dls d :
  fs st = tree →
  root (self st) = Some r →
  split (self st) = Some sp →
  Forall2 (λ e' dl', listing cls tree r sp e' = Some dl') pre dls →
  entry_dir cls r sp e = Some d →
  tree !! d = None →
  list_all cls set_order (pre ++ e :: post) st
  = (inl (FileNotFoundError d), logs (EvListdir <$> (dls.*1 ++ [d])) st).
Proof.
  intros Hf Hr Hs HF He Hd. revert st Hf Hr Hs.
  induction HF as [|e' dl' pre dls He' HF IH]; intros st Hf Hr Hs.
  - destruct e as [t sc]. unfold entry_dir in He. cbn [fst snd] in He.
    destruct (track_dirs cls !! (t, sp, sc)) as [rel|] eqn:Hk; [|done].
    injection He as <-. cbn [app list_all forM].
    assert (Hone : (split_ <- attr "split" split ;;
                    list_samples cls set_order t split_ sc) st
                   = (inl (FileNotFoundError (os_path_join r [rel])),
                      log (EvListdir (os_path_join r [rel])) st)).
    { rewrite (bind_ok _ _ _ _ _ (attr_ok _ _ _ _ Hs)). unfold list_samples.
      rewrite (bind_ok _ _ _ _ _ (get_dir_ok cls set_order _ _ _ _ _ _ Hr Hk)).
      unfold bind, os_listdir. by rewrite Hf, Hd. }
    by rewrite (bind_err _ _ _ _ _ Hone).
  - destruct e' as [t sc]. subst tree. cbn [app list_all forM].
    assert (Hone : (split_ <- attr "split" split ;;
                    list_samples cls set_order t split_ sc) st
                   = (inr (column dl'), log (EvListdir dl'.1) st)).
    { rewrite (bind_ok _ _ _ _ _ (attr_ok _ _ _ _ Hs)).
      apply (list_samples_ok cls set_order st r sp (t, sc) dl' Hr He'). }
    rewrite (bind_ok _ _ _ _ _ Hone).
    fold (list_all (Image:=Image) cls set_order (pre ++ e :: post)).
    rewrite (bind_err _ _ _ _ _ (IH (log _ st) eq_refl Hr Hs)).
    cbn [fmap list_fmap app]. by rewrite logs_cons.
Qed.

(** X4.  When the directory of a requested entry is not in the tree while
    the entries before it are all listed, construction raises
    [FileNotFoundError] for that directory: the earlier directories and the
    missing one have been asked for, in order, the later ones have not,
    and [self.samples] is still empty. *)
Theorem X4_missing_directory root_ scale track split_ transform_ loader_
    (download_ : bool) st st1 pre e post dls (d : string) :
  length (track_list track (scale_list scale)) = length (scale_list scale) →
  (if download_ then download cls download_and_extract_archive else ret tt)
    (constructed (expanduser root_) (scale_list scale)
       (track_list track (scale_list scale)) split_ transform_ loader_ st)
  = (inr tt, st1) →
  all_tracks cls split_ (track_list track (scale_list scale)) (scale_list scale)
  = pre ++ e :: post →
  mapM (listing cls (fs st1) (expanduser root_) split_) pre = Some dls →
  entry_dir cls (expanduser root_) split_ e = Some d →
  fs st1 !! d = None →
  ∃ st2,
    FolderByDir_init cls set_order expanduser download_and_extract_archive
      root_ scale track split_ transform_ loader_ download_ st
    = (inl (FileNotFoundError d), st2) ∧
    trace st2 = trace st1 ++ (EvListdir <$> dls.*1 ++ [d]) ∧
    samples (self st2) = Some [].
Proof.
  intros Hlen Hdl Hall Hpre He Hd. rewrite FolderByDir_init_run by done.
  rewrite (bind_ok _ _ _ _ _ Hdl). apply maybe_download_self in Hdl.
  apply mapM_Some in Hpre.
  rewrite (init_samples_run cls set_order st1 split_
             (track_list track (scale_list scale)) (scale_list scale))
    by by rewrite Hdl.
  rewrite Hall.
  rewrite (bind_err _ _ _ _ _
             (list_all_missing (fs st1) st1 (expanduser root_) split_ pre e
                post dls d eq_refl ltac:(by rewrite Hdl) ltac:(by rewrite Hdl)
                Hpre He Hd)).
  eexists. split; [done|]. split; [done|]. cbn [self logs]. by rewrite Hdl.
Qed.

(** X5.  A request with no scale at all, on a split that has no
    high-resolution entry, has nothing to list: construction raises
    [IndexError] at [samples[0]], having listed no directory. *)
Theorem X5_nothing_requested_without_hr root_ scale track split_ transform_
    loader_ (download_ : bool) st st1 :
  track_dirs cls !! ("hr"%string, split_, 1) = None →
  scale_list scale = [] →
  track_list track [] = [] →
  (if download_ then download cls download_and_extract_archive else ret tt)
    (constructed (expanduser root_) [] [] split_ transform_ loader_ st)
  = (inr tt, st1) →
  ∃ st2,
    FolderByDir_init cls set_order expanduser download_and_extract_archive
      root_ scale track split_ transform_ loader_ download_ st
    = (inl IndexError, st2) ∧
    trace st2 = trace st1 ∧
    samples (self st2) = Some [].
Proof.
  intros Hhr Hsc Htr Hdl. rewrite FolderByDir_init_run by by rewrite Hsc, Htr.
  rewrite Hsc, Htr. rewrite (bind_ok _ _ _ _ _ Hdl).
  apply maybe_download_self in Hdl.
  rewrite (init_samples_run cls set_order st1 split_ [] [])
    by by rewrite Hdl.
  unfold all_tracks. rewrite decide_False by (rewrite Hhr; by intros [? ?]).
  eexists. split; [reflexivity|]. split; reflexivity.
Qed.

End ConstructionOutcomes.

(** ** Further properties: rows and columns *)

Section RowsAndColumns.

Implicit Types (s c : list string) (cols : list (list string)).

Lemma fmap_lookup_seq c (tl : list string) :
  (λ i, default ""%string ((tl ++ c) !! i)) <$> seq (length tl) (length c) = c.
Proof.
  revert tl. induction c as [|x c IH]; intros tl; [done|].
  cbn [length seq fmap list_fmap]. f_equal.
  - by rewrite list_lookup_middle.
  - specialize (IH (tl ++ [x])). rewrite <- app_assoc in IH. cbn [app] in IH.
    rewrite length_app in IH. cbn [length] in IH.
    by rewrite Nat.add_1_r in IH.
Qed.

(** Reading the [j]-th path of every row gives the [j]-th column back. *)
Lemma component_rows s cols (j : nat) c :
  Forall (λ s', length s' = length s) cols →
  (s :: cols) !! j = Some c →
  component j (rows (s :: cols)) = c.
Proof.
  intros Hlen Hj. unfold component, rows. rewrite <- list_fmap_compose.
  assert (Hc : length c = length s).
  { destruct j; [by injection Hj as <-|].
    cbn [lookup list_lookup] in Hj. by eapply Forall_lookup_1 in Hlen. }
  rewrite <- Hc.
  transitivity ((λ i, default ""%string (([] ++ c) !! i)) <$> seq (length (@nil string)) (length c));
    [|by apply (fmap_lookup_seq c [])].
  apply list_fmap_ext. intros _ i _. cbn [compose app]. unfold row.
  by rewrite list_lookup_fmap, Hj.
Qed.

Lemma rows_single c : rows [c] = (λ p, [p]) <$> c.
Proof.
  transitivity ((λ p, [p]) <$>
                  ((λ i, default ""%string (([] ++ c) !! i))
                     <$> seq (length (@nil string)) (length c))).
  - by rewrite <- list_fmap_compose.
  - by rewrite (fmap_lookup_seq c []).
Qed.

End RowsAndColumns.

(** ** Further properties: the samples of a well-formed tree *)

Section SamplesFurther.

Context {Image : Type}.
Variable cls : FolderByDirClass.
Variable set_order : gset string → list string.
Variable expanduser : string → string.
Variable download_and_extract_archive :
  string → string → string → FS → string + FS.
Implicit Types st : State Image.
Implicit Types (dl : string * list string) (dls : list (string * list string)).

(** X6.  A request with no scale at all, on a split that has a
    high-resolution entry, gives the high-resolution images alone: one
    sample per name of that directory, in sorted order, each holding the
    one path. *)
Theorem X6_nothing_requested_with_hr root_ scale track split_ transform_
    loader_ (download_ : bool) st st1 (rel : string) (names : list string) :
  track_dirs cls !! ("hr"%string, split_, 1) = Some rel →
  scale_list scale = [] →
  track_list track [] = [] →
  (if download_ then download cls download_and_extract_archive else ret tt)
    (constructed (expanduser root_) [] [] split_ transform_ loader_ st)
  = (inr tt, st1) →
  fs st1 !! os_path_join (expanduser root_) [rel] = Some names →
  ∃ st2,
    FolderByDir_init cls set_order expanduser download_and_extract_archive
      root_ scale track split_ transform_ loader_ download_ st
    = (inr tt, st2) ∧
    samples (self st2)
    = Some ((λ name, [os_path_join (os_path_join (expanduser root_) [rel]) [name]])
              <$> sorted names) ∧
    Folder_len st2 = (inr (length names), st2).
Proof.
  intros Hhr Hsc Htr Hdl Hn. rewrite FolderByDir_init_run by by rewrite Hsc, Htr.
  rewrite Hsc, Htr. rewrite (bind_ok _ _ _ _ _ Hdl).
  apply maybe_download_self in Hdl.
  rewrite (init_samples_ok cls set_order st1 split_ [] [] (expanduser root_)
             (os_path_join (expanduser root_) [rel], names) []);
    try done; try by rewrite Hdl.
  2:{ unfold all_tracks. rewrite decide_True by by rewrite Hhr.
      repeat constructor. unfold listing. cbn [fst snd]. rewrite Hhr.
      cbn [mbind option_bind]. by rewrite Hn. }
  eexists. split; [done|]. cbn [fmap list_fmap]. rewrite rows_single.
  split.
  - cbn [self put_samples samples]. unfold column. cbn [fst snd].
    by rewrite <- list_fmap_compose.
  - erewrite Folder_len_run; [|reflexivity].
    rewrite length_fmap, column_length. done.
Qed.

(** X7.  The count-mismatch message is built from the tracks and scales at
    the position that the first differing listing has among the listings
    after the first.  On a split with a high-resolution entry that is the
    pair of the differing directory; on a split without one it is the pair
    listed just before it. *)
Theorem X7_mismatch_names_position root_ scale track split_ transform_
    loader_ (download_ : bool) st st1 dl pre dl' post :
  length (track_list track (scale_list scale)) = length (scale_list scale) →
  (if download_ then download cls download_and_extract_archive else ret tt)
    (constructed (expanduser root_) (scale_list scale)
       (track_list track (scale_list scale)) split_ transform_ loader_ st)
  = (inr tt, st1) →
  mapM (listing cls (fs st1) (expanduser root_) split_)
    (all_tracks cls split_ (track_list track (scale_list scale)) (scale_list scale))
  = Some (dl :: pre ++ dl' :: post) →
  Forall (λ d, length d.2 = length dl.2) pre →
  length dl'.2 ≠ length dl.2 →
  ∃ t sc st2,
    track_list track (scale_list scale) !! length pre = Some t ∧
    scale_list scale !! length pre = Some sc ∧
    FolderByDir_init cls set_order expanduser download_and_extract_archive
      root_ scale track split_ transform_ loader_ download_ st
    = (inl (ValueError (msg_count t sc)), st2) ∧
    samples (self st2) = Some [] ∧
    (is_Some (track_dirs cls !! ("hr"%string, split_, 1)) →
     all_tracks cls split_ (track_list track (scale_list scale))
       (scale_list scale) !! S (length pre) = Some (t, sc)) ∧
    (track_dirs cls !! ("hr"%string, split_, 1) = None →
     all_tracks cls split_ (track_list track (scale_list scale))
       (scale_list scale) !! length pre = Some (t, sc)).
Proof.
  intros Hlen Hdl HF Hpre Hne. rewrite FolderByDir_init_run by done.
  rewrite (bind_ok _ _ _ _ _ Hdl). apply maybe_download_self in Hdl.
  apply mapM_Some in HF.
  pose proof (Forall2_length _ _ _ HF) as Hl.
  destruct (all_tracks_length cls split_ (track_list track (scale_list scale))
              (scale_list scale)) as [Hlt Hls].
  cbn [length] in Hl. rewrite length_app in Hl. cbn [length] in Hl.
  destruct (lookup_lt_is_Some_2 (track_list track (scale_list scale))
              (length pre)) as [t Ht]; [lia|].
  destruct (lookup_lt_is_Some_2 (scale_list scale) (length pre))
    as [sc Hs]; [lia|].
  exists t, sc. eexists. split; [done|]. split; [done|].
  rewrite (init_samples_run cls set_order st1 split_
             (track_list track (scale_list scale)) (scale_list scale))
    by by rewrite Hdl.
  rewrite (bind_ok _ _ _ _ _
             (list_all_ok cls set_order (fs st1) st1 (expanduser root_) split_
                _ _ eq_refl ltac:(by rewrite Hdl) ltac:(by rewrite Hdl) HF)).
  split; [|split].
  - unfold check_counts, enumerate.
    cbn [fmap list_fmap drop]. rewrite fmap_app. cbn [fmap list_fmap].
    erewrite (bind_err _ _ _ _ _).
    + reflexivity.
    + apply (check_loop_first _ (column dl) _ (column <$> pre) (column dl')
               (column <$> post) 0
               (track_list track (scale_list scale)) (scale_list scale) t sc).
      * cbn [self logs]. by rewrite Hdl.
      * cbn [self logs]. by rewrite Hdl.
      * apply Forall_fmap. eapply Forall_impl; [exact Hpre|].
        intros d. simpl. by rewrite !column_length.
      * by rewrite !column_length.
      * by rewrite length_fmap.
      * by rewrite length_fmap.
  - cbn [self logs]. by rewrite Hdl.
  - split.
    + intros Hhr. unfold all_tracks. rewrite decide_True by done.
      cbn [zip_with]. rewrite lookup_cons, lookup_zip_with, Ht, Hs. done.
    + intros Hhr. unfold all_tracks.
      rewrite decide_False by (rewrite Hhr; by intros [? ?]).
      rewrite lookup_zip_with, Ht, Hs. done.
Qed.

Lemma join_step_inj (d a b : string) :
  startswith_sep a = false →
  startswith_sep b = false →
  os_path_join d [a] = os_path_join d [b] →
  a = b.
Proof.
  unfold os_path_join. cbn [foldl]. unfold join_step. intros -> ->.
  destruct (_ || _); intros H.
  - by apply (inj (String.app d)) in H.
  - apply (inj (String.app d)) in H. by apply (inj (String.app "/")) in H.
Qed.

(** X8.  On a well-formed tree no file is lost or repeated: the [j]-th
    paths of the samples, read in order, are the sorted paths of the
    [j]-th listed directory, one for each of its names; and when the names
    of that directory are distinct and none starts with a separator, so
    are these paths. *)
Theorem X8_each_file_once root_ scale track split_ transform_ loader_
    (download_ : bool) st st1 dl dls :
  length (track_list track (scale_list scale)) = length (scale_list scale) →
  (if download_ then download cls download_and_extract_archive else ret tt)
    (constructed (expanduser root_) (scale_list scale)
       (track_list track (scale_list scale)) split_ transform_ loader_ st)
  = (inr tt, st1) →
  mapM (listing cls (fs st1) (expanduser root_) split_)
    (all_tracks cls split_ (track_list track (scale_list scale)) (scale_list scale))
  = Some (dl :: dls) →
  Forall (λ dl', length dl'.2 = length dl.2) dls →
  ∃ st2 rows_,
    FolderByDir_init cls set_order expanduser download_and_extract_archive
      root_ scale track split_ transform_ loader_ download_ st
    = (inr tt, st2) ∧
    samples (self st2) = Some rows_ ∧
    ∀ (j : nat) dl', (dl :: dls) !! j = Some dl' →
      component j rows_ = (λ name, os_path_join dl'.1 [name]) <$> sorted dl'.2 ∧
      component j rows_ ≡ₚ (λ name, os_path_join dl'.1 [name]) <$> dl'.2 ∧
      (NoDup dl'.2 →
       Forall (λ name, startswith_sep name = false) dl'.2 →
       NoDup (component j rows_)).
Proof.
  intros Hlen Hdl HF Hcnt. eexists _, _.
  split; [by apply (construct_ok cls set_order expanduser
                      download_and_extract_archive)|].
  split; [reflexivity|]. intros j dl' Hj.
  assert (Hc : component j (rows (column <$> dl :: dls)) = column dl').
  { cbn [fmap list_fmap]. apply component_rows.
    - apply Forall_fmap. eapply Forall_impl; [exact Hcnt|].
      intros d. simpl. by rewrite !column_length.
    - change (column dl :: (column <$> dls)) with (column <$> dl :: dls).
      by rewrite list_lookup_fmap, Hj. }
  rewrite Hc. unfold column. split; [done|]. split.
  - by rewrite sorted_Permutation.
  - intros Hnd Hsep. apply NoDup_fmap_2_strong.
    + intros a b Ha Hb. rewrite sorted_Permutation in Ha, Hb.
      apply join_step_inj; by eapply Forall_forall in Hsep.
    + by rewrite sorted_Permutation.
Qed.

Lemma StronglySorted_fmap_mono (f : string → string) (l : list string) :
  StronglySorted String.le l →
  (∀ a b, a ∈ l → b ∈ l → String.le a b → String.le (f a) (f b)) →
  StronglySorted String.le (f <$> l).
Proof.
  induction 1 as [|x l Hl IH Hx]; intros Hm; [constructor|].
  cbn [fmap list_fmap]. constructor.
  - apply IH. intros a b Ha Hb. apply Hm; by right.
  - apply Forall_fmap, Forall_forall. intros y Hy. simpl.
    apply Hm; [by left|by right|]. by eapply Forall_forall in Hx.
Qed.

(** A renaming that keeps the order of the names commutes with sorting. *)
Lemma sorted_fmap_mono (f : string → string) (l : list string) :
  (∀ a b, a ∈ l → b ∈ l → String.le a b → String.le (f a) (f b)) →
  sorted (f <$> l) = f <$> sorted l.
Proof.
  intros Hm. apply (StronglySorted_unique String.le).
  - apply sorted_StronglySorted.
  - apply StronglySorted_fmap_mono; [apply sorted_StronglySorted|].
    intros a b Ha Hb. rewrite sorted_Permutation in Ha, Hb. by apply Hm.
  - by rewrite !sorted_Permutation.
Qed.

(** X9.  When the names of a listed directory are those of the first one
    under a renaming that keeps their order, every sample pairs a file of
    the first directory with its own renamed file: pairing by sorted
    position is then pairing by name. *)
Theorem X9_order_preserving_names_pair_up root_ scale track split_ transform_
    loader_ (download_ : bool) st st1 dl dls (j : nat) dl'
    (f : string → string) :
  length (track_list track (scale_list scale)) = length (scale_list scale) →
  (if download_ then download cls download_and_extract_archive else ret tt)
    (constructed (expanduser root_) (scale_list scale)
       (track_list track (scale_list scale)) split_ transform_ loader_ st)
  = (inr tt, st1) →
  mapM (listing cls (fs st1) (expanduser root_) split_)
    (all_tracks cls split_ (track_list track (scale_list scale)) (scale_list scale))
  = Some (dl :: dls) →
  dls !! j = Some dl' →
  dl'.2 ≡ₚ f <$> dl.2 →
  (∀ a b, a ∈ dl.2 → b ∈ dl.2 → String.le a b → String.le (f a) (f b)) →
  Forall (λ d, length d.2 = length dl.2) dls →
  ∃ st2 rows_,
    FolderByDir_init cls set_order expanduser download_and_extract_archive
      root_ scale track split_ transform_ loader_ download_ st
    = (inr tt, st2) ∧
    samples (self st2) = Some rows_ ∧
    length rows_ = length dl.2 ∧
    ∀ (i : nat) row_, rows_ !! i = Some row_ →
      ∃ name, sorted dl.2 !! i = Some name ∧
              row_ !! 0%nat = Some (os_path_join dl.1 [name]) ∧
              row_ !! S j = Some (os_path_join dl'.1 [f name]).
Proof.
  intros Hlen Hdl HF Hj Hperm Hmono Hcnt. eexists _, _.
  split; [by apply (construct_ok cls set_order expanduser
                      download_and_extract_archive)|].
  split; [reflexivity|]. cbn [fmap list_fmap].
  split; [by rewrite rows_length, column_length|].
  intros i row_ Hi. apply rows_lookup in Hi as [Hi ->].
  rewrite column_length in Hi.
  destruct (lookup_lt_is_Some_2 (sorted dl.2) i) as [name Hn].
  { pose proof (Permutation_length (sorted_Permutation dl.2)). lia. }
  exists name. split; [done|]. unfold row. split.
  - cbn [fmap list_fmap lookup list_lookup]. unfold column.
    by rewrite list_lookup_fmap, Hn.
  - rewrite list_lookup_fmap, lookup_cons, list_lookup_fmap, Hj.
    cbn [fmap option_fmap option_map].
    unfold column. rewrite list_lookup_fmap.
    rewrite (sorted_order_independent _ _ Hperm), (sorted_fmap_mono f _ Hmono).
    by rewrite list_lookup_fmap, Hn.
Qed.

End SamplesFurther.

(** ** Further properties: downloads and the order of the external calls *)

Section Downloads.

Context {Image : Type}.
Variable cls : FolderByDirClass.
Variable set_order : gset string → list string.
Variable expanduser : string → string.
Variable download_and_extract_archive :
  string → string → string → FS → string + FS.
Implicit Types st : State Image.
Implicit Types (dl : string * list string) (dls : list (string * list string)).

Lemma download_loop_trace (us : list (string * string)) st (r : string) res st' :
  root (self st) = Some r →
  forM_ (λ '(url, md5sum),
           root_ <- attr "root" root ;;
           download_one download_and_extract_archive url root_ md5sum)
        us st = (res, st') →
  self st' = self st ∧
  match res with
  | inr _ => trace st' = trace st ++ (download_event r <$> us)
  | inl e =>
      ∃ pre u post msg,
        us = pre ++ u :: post ∧ e = ExternalError msg ∧
        download_and_extract_archive u.1 r u.2 (fs st') = inl msg ∧
        trace st' = trace st ++ (download_event r <$> pre ++ [u])
  end.
Proof.
  intros Hr. revert st Hr.
  induction us as [|[url md5sum] us IH]; intros st Hr H.
  - injection H as <- <-. split; [done|]. by rewrite app_nil_r.
  - cbn [forM_] in H. unfold bind at 1 in H.
    rewrite (bind_ok _ _ _ _ _ (attr_ok _ _ _ _ Hr)) in H.
    unfold download_one in H.
    destruct (download_and_extract_archive url r md5sum (fs st))
      as [msg|tree'] eqn:Hd.
    + injection H as <- <-. split; [done|].
      exists [], (url, md5sum), us, msg. by repeat split.
    + apply IH in H as [Hself H]; [|done]. split; [done|].
      cbn [trace log] in H. destruct res as [e|[]].
      * destruct H as (pre & u & post & msg & -> & -> & Hf & Ht).
        exists ((url, md5sum) :: pre), u, post, msg.
        repeat split; [done|]. rewrite Ht.
        by rewrite <- app_assoc.
      * rewrite H. by rewrite <- app_assoc.
Qed.

(** X10.  When every extraction succeeds, [download] asks for every archive
    of [urls], once and in the order of the table, each with the root of
    the object and the checksum of the table, and changes no attribute. *)
Theorem X10_download_requests_every_archive st (r : string) :
  root (self st) = Some r →
  (∀ u tree, u ∈ urls cls →
     ∃ tree', download_and_extract_archive u.1 r u.2 tree = inr tree') →
  ∃ st',
    download cls download_and_extract_archive st = (inr tt, st') ∧
    self st' = self st ∧
    trace st' = trace st ++ (download_event r <$> urls cls).
Proof.
  intros Hr Hok.
  destruct (download cls download_and_extract_archive st) as [res st'] eqn:H.
  unfold download in H. pose proof H as H'.
  apply (download_loop_trace _ st r) in H' as [Hself Hres]; [|done].
  destruct res as [e|[]]; [|by exists st'].
  destruct Hres as (pre & u & post & msg & Hus & -> & Hf & _).
  destruct (Hok u (fs st')) as [tree' Ht].
  { rewrite Hus. apply elem_of_app. right. by left. }
  congruence.
Qed.

Lemma download_loop_fail (pre : list (string * string)) (u : string * string)
    (post : list (string * string)) st (r : string) (tree1 : FS) (msg : string) :
  root (self st) = Some r →
  extract_all download_and_extract_archive r pre (fs st) = inr tree1 →
  download_and_extract_archive u.1 r u.2 tree1 = inl msg →
  forM_ (λ '(url, md5sum),
           root_ <- attr "root" root ;;
           download_one download_and_extract_archive url root_ md5sum)
        (pre ++ u :: post) st
  = (inl (ExternalError msg),
     {| self := self st; fs := tree1;
        trace := trace st ++ (download_event r <$> pre ++ [u]) |}).
Proof.
  revert st. induction pre as [|[url md5sum] pre IH]; intros st Hr Hpre Hu.
  - cbn [extract_all] in Hpre. injection Hpre as <-.
    destruct u as [url md5sum]. cbn [app forM_ fst snd] in *.
    unfold bind at 1. rewrite (bind_ok _ _ _ _ _ (attr_ok _ _ _ _ Hr)).
    unfold download_one. by rewrite Hu.
  - cbn [extract_all fst snd] in Hpre. cbn [app forM_].
    destruct (download_and_extract_archive url r md5sum (fs st))
      as [m|tree'] eqn:Hd; [done|].
    unfold bind at 1. rewrite (bind_ok _ _ _ _ _ (attr_ok _ _ _ _ Hr)).
    unfold download_one at 1. rewrite Hd. cbv zeta. cbn [log self fs trace].
    rewrite (IH {| self := self st; fs := tree';
                   trace := trace st ++ [EvDownload url r md5sum] |}
               Hr Hpre Hu).
    cbn [self fs trace fmap list_fmap app]. by rewrite <- app_assoc.
Qed.

(** X11.  When the extraction of an archive fails after those of the
    archives before it in [urls] have succeeded, [download] raises that
    failure at once: the earlier archives and the failing one have been
    asked for, in order, the later ones have not; the tree is as the
    earlier extractions left it, and no attribute has changed. *)
Theorem X11_download_stops_at_failure st (r : string)
    (pre : list (string * string)) (u : string * string)
    (post : list (string * string)) (tree1 : FS) (msg : string) :
  root (self st) = Some r →
  urls cls = pre ++ u :: post →
  extract_all download_and_extract_archive r pre (fs st) = inr tree1 →
  download_and_extract_archive u.1 r u.2 tree1 = inl msg →
  ∃ st',
    download cls download_and_extract_archive st
    = (inl (ExternalError msg), st') ∧
    self st' = self st ∧
    fs st' = tree1 ∧
    trace st' = trace st ++ (download_event r <$> pre ++ [u]).
Proof.
  intros Hr Hus Hpre Hu. unfold download. rewrite Hus.
  rewrite (download_loop_fail pre u post st r tree1 msg Hr Hpre Hu).
  by eexists.
Qed.

Lemma maybe_download_trace (download_ : bool) st (r : string) res st1 :
  root (self st) = Some r →
  (if download_ then download cls download_and_extract_archive else ret tt) st
  = (res, st1) →
  ∃ us,
    us `prefix_of` (if download_ then urls cls else []) ∧
    trace st1 = trace st ++ (download_event r <$> us) ∧
    (res = inr tt → us = if download_ then urls cls else []) ∧
    (download_ = false → fs st1 = fs st).
Proof.
  intros Hr H. destruct download_.
  - unfold download in H. apply (download_loop_trace _ st r) in H as [_ H]; [|done].
    destruct res as [e|[]].
    + destruct H as (pre & u & post & msg & Hus & _ & _ & Ht).
      exists (pre ++ [u]). split; [|by repeat split].
      rewrite Hus. exists post. by rewrite <- app_assoc.
    + by exists (urls cls).
  - injection H as <- <-. exists []. split; [done|].
    split; [by rewrite app_nil_r|done].
Qed.

Lemma listing_dirs (tree : FS) (r sp : string) entries dls :
  Forall2 (λ e dl, listing cls tree r sp e = Some dl) entries dls →
  omap (entry_dir cls r sp) entries = dls.*1.
Proof.
  induction 1 as [|e dl entries dls He HF IH]; [done|].
  cbn [omap list_omap fmap list_fmap]. fold (omap (entry_dir cls r sp) entries).
  unfold entry_dir at 1. unfold listing in He.
  destruct (track_dirs cls !! (e.1, sp, e.2)) as [rel|]; [|done].
  cbn [mbind option_bind] in He.
  destruct (tree !! os_path_join r [rel]); [|done].
  cbn [mbind option_bind] in He. injection He as <-.
  cbn [fmap option_fmap option_map fst]. by rewrite IH.
Qed.

Lemma init_samples_listed st sp ts ss r res st' :
  split (self st) = Some sp →
  tracks (self st) = Some ts →
  scales (self st) = Some ss →
  root (self st) = Some r →
  init_samples cls set_order st = (res, st') →
  ∃ ds,
    trace st' = trace st ++ (EvListdir <$> ds) ∧
    fs st' = fs st ∧
    ds `prefix_of` omap (entry_dir cls r sp) (all_tracks cls sp ts ss) ∧
    (res = inr tt →
     ds = omap (entry_dir cls r sp) (all_tracks cls sp ts ss) ∧
     length ds = length (all_tracks cls sp ts ss)).
Proof.
  intros Hsp Ht Hs Hr H.
  rewrite (init_samples_run cls set_order st sp ts ss Hsp Ht Hs) in H.
  apply bind_inv in H as [(e & H & ->)|(cols & st1 & H & H1)].
  { apply (list_all_listed cls set_order st r sp) in H as (ds & -> & Hp);
      [|done..].
    exists ds. by repeat split. }
  pose proof H as Hinv.
  apply (list_all_inv cls set_order (fs st) st r sp) in Hinv
    as (dls & HF & ->); [|done..].
  rewrite (list_all_ok cls set_order (fs st) st r sp _ _ eq_refl Hr Hsp HF) in H.
  injection H as <-.
  exists dls.*1. rewrite (listing_dirs _ _ _ _ _ HF).
  assert (Hst : trace st' = trace (logs (EvListdir <$> dls.*1) st) ∧
                fs st' = fs st).
  { apply bind_inv in H1 as [(? & H & _)|([] & ? & H & H1)];
      apply check_counts_state in H as ->; [done|].
    apply bind_inv in H1 as [(? & H & _)|([] & ? & H & H1)]; [done|].
    rewrite set_samples_put in H. injection H as <-.
    by apply pair_samples_state in H1 as [->|[v ->]]. }
  destruct Hst as [-> ->]. split; [done|]. split; [done|]. split; [done|].
  intros _. split; [done|].
  apply Forall2_length in HF. by rewrite length_fmap.
Qed.

(** X12.  When a download fails, construction raises that error: no
    directory has been listed and [self.samples] is the empty list. *)
Theorem X12_failed_download_aborts root_ scale track split_ transform_
    loader_ st e st1 :
  length (track_list track (scale_list scale)) = length (scale_list scale) →
  download cls download_and_extract_archive
    (constructed (expanduser root_) (scale_list scale)
       (track_list track (scale_list scale)) split_ transform_ loader_ st)
  = (inl e, st1) →
  FolderByDir_init cls set_order expanduser download_and_extract_archive
    root_ scale track split_ transform_ loader_ true st
  = (inl e, st1) ∧
  samples (self st1) = Some [] ∧
  ∃ pre u post msg,
    urls cls = pre ++ u :: post ∧
    e = ExternalError msg ∧
    trace st1 = trace st ++ (download_event (expanduser root_) <$> pre ++ [u]).
Proof.
  intros Hlen H. rewrite FolderByDir_init_run by done.
  rewrite (bind_err _ _ _ _ _ H). split; [done|].
  unfold download in H.
  apply (download_loop_trace _ _ (expanduser root_)) in H as [Hself H]; [|done].
  split; [by rewrite Hself|].
  destruct H as (pre & u & post & msg & ? & ? & _ & ?).
  by exists pre, u, post, msg.
Qed.

(** X13.  The external calls of a construction are the downloads first, then
    the listings: a first part of [urls] (none without the download flag),
    then the directories of a first part of the requested entries, each
    once and in order, and nothing else.  Without the download flag the
    tree is left as it was.  When construction returns, every archive (with
    the flag) and every requested directory has been asked for. *)
Theorem X13_downloads_then_listings root_ scale track split_ transform_
    loader_ (download_ : bool) st res st' :
  length (track_list track (scale_list scale)) = length (scale_list scale) →
  FolderByDir_init cls set_order expanduser download_and_extract_archive
    root_ scale track split_ transform_ loader_ download_ st
  = (res, st') →
  ∃ us ds,
    trace st'
    = trace st ++ (download_event (expanduser root_) <$> us)
        ++ (EvListdir <$> ds) ∧
    us `prefix_of` (if download_ then urls cls else []) ∧
    ds `prefix_of`
      omap (entry_dir cls (expanduser root_) split_)
        (all_tracks cls split_ (track_list track (scale_list scale))
           (scale_list scale)) ∧
    (download_ = false → fs st' = fs st) ∧
    (res = inr tt →
     us = (if download_ then urls cls else []) ∧
     ds = omap (entry_dir cls (expanduser root_) split_)
            (all_tracks cls split_ (track_list track (scale_list scale))
               (scale_list scale)) ∧
     length ds = length (all_tracks cls split_
                           (track_list track (scale_list scale))
                           (scale_list scale))).
Proof.
  intros Hlen H. rewrite FolderByDir_init_run in H by done.
  apply bind_inv in H as [(e & H & ->)|([] & st1 & H & H1)].
  - apply (maybe_download_trace _ _ (expanduser root_)) in H
      as (us & Hp & Ht & _ & Hfs); [|done].
    exists us, []. split; [by rewrite Ht, app_nil_r|]. split; [done|].
    split; [apply prefix_nil|]. split; [done|done].
  - pose proof (maybe_download_self cls download_and_extract_archive
                  _ _ _ _ H) as Hself.
    apply (maybe_download_trace _ _ (expanduser root_)) in H
      as (us & Hp & Ht & Hus & Hfs); [|done].
    apply (init_samples_listed st1 split_
             (track_list track (scale_list scale)) (scale_list scale)
             (expanduser root_)) in H1
      as (ds & Htr & Hf & Hds & Hall); try by rewrite Hself.
    exists us, ds. split; [by rewrite Htr, Ht, <- app_assoc|].
    split; [done|]. split; [done|].
    split; [intros Hd; by rewrite Hf, (Hfs Hd)|].
    intros Hres. split; [by apply Hus|]. by apply Hall.
Qed.

End Downloads.

(** ** Further properties: indexed access *)

Section Access.

Context {Image : Type}.
Variable expanduser : string → string.
Implicit Types st : State Image.

Lemma Folder_getitem_IndexError st (v : list (list string)) (index : Z) :
  samples (self st) = Some v →
  getitem v index = inl IndexError →
  Folder_getitem index st = (inl IndexError, st).
Proof.
  intros Hv Hg. unfold Folder_getitem.
  rewrite (bind_ok _ _ _ _ _ (attr_ok _ _ _ _ Hv)).
  unfold bind at 1, lift at 1. by rewrite Hg.
Qed.

(** X14.  An index outside [-len, len) makes [__getitem__] raise
    [IndexError] before the loader is looked up; a negative index in range
    counts from the end. *)
Theorem X14_index_handling st (v : list (list string)) (index : Z) :
  samples (self st) = Some v →
  (¬ (- Z.of_nat (length v) ≤ index < Z.of_nat (length v)) →
   Folder_getitem index st = (inl IndexError, st)) ∧
  (- Z.of_nat (length v) ≤ index < 0 →
   Folder_getitem index st
   = Folder_getitem (index + Z.of_nat (length v)) st).
Proof.
  intros Hv. unfold Folder_getitem.
  rewrite !(bind_ok _ _ _ _ _ (attr_ok _ _ _ _ Hv)). split.
  - intros Hi. unfold bind at 1, lift at 1.
    assert (Hg : getitem v index = inl IndexError); [|by rewrite Hg].
    unfold getitem. cbv zeta.
    destruct (decide (index < 0)) as [Hneg|Hneg].
    + rewrite decide_False by lia. done.
    + rewrite decide_False by lia. done.
  - intros Hi.
    assert (Hg : getitem v index = getitem v (index + Z.of_nat (length v)));
      [|by rewrite Hg].
    unfold getitem. cbv zeta. rewrite (decide_True (P := index < 0)) by lia.
    rewrite (decide_False (P := index + Z.of_nat (length v) < 0)) by lia.
    done.
Qed.

Lemma load_all_first_failure (loader_ : string → exn + Image)
    (pre : list string) (p : string) (post : list string) (e : exn) :
  Forall (λ q, ∃ img, loader_ q = inr img) pre →
  loader_ p = inl e →
  load_all loader_ (pre ++ p :: post) = inl e.
Proof.
  intros Hpre Hp. induction Hpre as [|q pre [img Hq] Hpre IH].
  - cbn [app load_all]. by rewrite Hp.
  - cbn [app load_all]. by rewrite Hq, IH.
Qed.

(** X15.  When the loader fails on a path of the sample, [__getitem__]
    raises the error of the first such path, and the transform is not
    applied. *)
Theorem X15_loader_failure_propagates st (v : list (list string))
    (loader_ : string → exn + Image)
    (transform_ : option (list Image → exn + list Image)) (index : Z)
    (pre : list string) (p : string) (post : list string) (e : exn) :
  samples (self st) = Some v →
  loader (self st) = Some loader_ →
  transform (self st) = Some transform_ →
  getitem v index = inr (pre ++ p :: post) →
  Forall (λ q, ∃ img, loader_ q = inr img) pre →
  loader_ p = inl e →
  Folder_getitem index st = (inl e, st).
Proof.
  intros Hv Hl Ht Hg Hpre Hp.
  rewrite (Folder_getitem_run st v loader_ transform_ index _ Hv Hl Ht Hg).
  by rewrite (load_all_first_failure loader_ pre p post e Hpre Hp).
Qed.

(** X16.  A [Folder] that was only initialised is empty: its root is the
    expanded root, its length is 0 and every index raises [IndexError]. *)
Theorem X16_fresh_Folder_is_empty (root_ : string) (scales_ : list Z)
    (transform_ : option (list Image → exn + list Image))
    (loader_ : string → exn + Image) st (index : Z) :
  ∃ st1,
    Folder_init expanduser root_ scales_ transform_ loader_ st = (inr tt, st1) ∧
    root (self st1) = Some (expanduser root_) ∧
    Folder_len st1 = (inr 0%nat, st1) ∧
    Folder_getitem index st1 = (inl IndexError, st1).
Proof.
  eexists. split; [reflexivity|]. split; [reflexivity|].
  split; [reflexivity|].
  eapply Folder_getitem_IndexError; [reflexivity|apply getitem_nil].
Qed.

End Access.

(** ** Further properties: the tables of the datasets *)

Section DatasetTables.

Context {Image : Type}.
Variable set_order : gset string → list string.
Variable expanduser : string → string.
Variable download_and_extract_archive :
  string → string → string → FS → string + FS.
Implicit Types st : State Image.

Lemma get_dir_msg_scale (cls : FolderByDirClass) st (t sp : string) (sc : Z) :
  track_dirs cls !! (t, sp, sc) = None →
  (∃ sp' sc', is_Some (track_dirs cls !! (t, sp', sc'))) →
  (∃ t' sc', is_Some (track_dirs cls !! (t', sp, sc'))) →
  get_dir cls set_order t sp sc st = (inl (ValueError (msg_scale t sc)), st).
Proof.
  intros Hk Ht Hs. unfold get_dir. rewrite Hk.
  rewrite decide_False by (intros Hn; by apply Hn, elem_of_get_tracks).
  by rewrite decide_False by (intros Hn; by apply Hn, elem_of_get_splits).
Qed.

Lemma benchmark_dirs_hr (name : string) :
  benchmark_dirs name !! ("hr"%string, "val"%string, 1)
  = Some (os_path_join "benchmark" [name; "HR"%string]).
Proof. unfold benchmark_dirs. cbn [list_to_map foldr]. by rewrite lookup_insert_eq. Qed.

Lemma benchmark_dirs_bicubic_2 (name : string) :
  is_Some (benchmark_dirs name !! ("bicubic"%string, "val"%string, 2)).
Proof.
  unfold benchmark_dirs. cbn [list_to_map foldr].
  rewrite lookup_insert_ne by done. rewrite lookup_insert_eq. by eexists.
Qed.

Lemma benchmark_dirs_other_scale (name : string) (n : Z) :
  n ≠ 2 → n ≠ 3 → n ≠ 4 →
  benchmark_dirs name !! ("bicubic"%string, "val"%string, n) = None.
Proof.
  intros H2 H3 H4. unfold benchmark_dirs. apply not_elem_of_list_to_map_1.
  cbn [fmap list_fmap fst]. rewrite !not_elem_of_cons.
  repeat split; try (intros [= ?]; done). apply not_elem_of_nil.
Qed.

(** X17.  The benchmark sets ([Set5], [Set14], [B100], [Urban100]) have
    the scales 2, 3 and 4 only.  For any other scale construction lists the
    high-resolution directory and then raises the [ValueError] of
    [get_dir], whose message names the track [bicubic] and the scale;
    [self.samples] stays empty. *)
Theorem X17_benchmark_scale_not_in_table (name root_ : string) (n : Z)
    transform_ loader_ (download_ : bool) st st1 (names : list string) :
  n ≠ 2 → n ≠ 3 → n ≠ 4 →
  (if download_ then download (benchmark_class name) download_and_extract_archive
   else ret tt)
    (constructed (expanduser (os_path_join root_ ["SRBenchmarks"%string]))
       [n] ["bicubic"%string] "val" transform_ loader_ st)
  = (inr tt, st1) →
  fs st1 !! os_path_join (expanduser (os_path_join root_ ["SRBenchmarks"%string]))
              [os_path_join "benchmark" [name; "HR"%string]]
  = Some names →
  ∃ st2,
    benchmark_init set_order expanduser download_and_extract_archive
      (benchmark_class name) root_ (inl n) transform_ loader_ download_ st
    = (inl (ValueError (msg_scale "bicubic" n)), st2) ∧
    trace st2
    = trace st1 ++
      [EvListdir
         (os_path_join (expanduser (os_path_join root_ ["SRBenchmarks"%string]))
            [os_path_join "benchmark" [name; "HR"%string]])] ∧
    samples (self st2) = Some [].
Proof.
  intros H2 H3 H4 Hdl Hhr. unfold benchmark_init.
  rewrite FolderByDir_init_run by reflexivity.
  cbn [scale_list track_list length replicate].
  rewrite (bind_ok _ _ _ _ _ Hdl). apply maybe_download_self in Hdl.
  rewrite (init_samples_run _ set_order st1 "val" ["bicubic"%string] [n])
    by by rewrite Hdl.
  unfold all_tracks. cbn [track_dirs benchmark_class].
  rewrite decide_True by (rewrite benchmark_dirs_hr; by eexists).
  cbn [zip_with].
  destruct (list_all_unsupported (benchmark_class name) set_order (fs st1) st1
              (expanduser (os_path_join root_ ["SRBenchmarks"%string])) "val"
              [("hr"%string, 1)] "bicubic" n []
              [os_path_join (expanduser (os_path_join root_ ["SRBenchmarks"%string]))
                 [os_path_join "benchmark" [name; "HR"%string]]] eq_refl)
    as (e & listed & Hrun & _ & Hall); try by rewrite Hdl.
  { constructor; [|constructor]. unfold entry_dir.
    cbn [fst snd track_dirs benchmark_class]. by rewrite benchmark_dirs_hr. }
  { by apply benchmark_dirs_other_scale. }
  destruct Hall as (-> & msg & -> & Hmsg).
  { constructor; [by rewrite Hhr|constructor]. }
  specialize (Hmsg st1).
  rewrite (get_dir_msg_scale (benchmark_class name) st1) in Hmsg.
  - injection Hmsg as <-. cbn [app] in Hrun.
    rewrite (bind_err _ _ _ _ _ Hrun). eexists. split; [done|].
    split; [done|]. cbn [self logs]. by rewrite Hdl.
  - by apply benchmark_dirs_other_scale.
  - exists "val"%string, 2. apply benchmark_dirs_bicubic_2.
  - exists "bicubic"%string, 2. apply benchmark_dirs_bicubic_2.
Qed.

End DatasetTables.

(** X18.  In the table of [Div2K] the training and validation splits have
    the same tracks and scales; the test split has no high-resolution entry
    and only pairs that the training split has too; and the track
    [real_wild] that the class documents is in no key. *)
Theorem X18_Div2K_table_shape (t : string) (sc : Z) :
  (is_Some (track_dirs Div2K !! (t, "train"%string, sc)) ↔
   is_Some (track_dirs Div2K !! (t, "val"%string, sc))) ∧
  (is_Some (track_dirs Div2K !! (t, "test"%string, sc)) →
   t ≠ "hr"%string ∧ is_Some (track_dirs Div2K !! (t, "train"%string, sc))) ∧
  (∀ sp, track_dirs Div2K !! ("real_wild"%string, sp, sc) = None).
Proof.
  assert (Hall : map_Forall (λ (k : key) (_ : string),
            (k.1.2 = "train"%string →
             is_Some (track_dirs Div2K !! (k.1.1, "val"%string, k.2))) ∧
            (k.1.2 = "val"%string →
             is_Some (track_dirs Div2K !! (k.1.1, "train"%string, k.2))) ∧
            (k.1.2 = "test"%string →
             k.1.1 ≠ "hr"%string ∧
             is_Some (track_dirs Div2K !! (k.1.1, "train"%string, k.2))) ∧
            k.1.1 ≠ "real_wild"%string)
          (track_dirs Div2K)).
  { apply (bool_decide_unpack _). vm_compute. exact I. }
  split; [split|split].
  - intros [x Hx]. destruct (Hall _ _ Hx) as (H & _). by apply H.
  - intros [x Hx]. destruct (Hall _ _ Hx) as (_ & H & _). by apply H.
  - intros [x Hx]. destruct (Hall _ _ Hx) as (_ & _ & H & _). by apply H.
  - intros sp. destruct (track_dirs Div2K !! _) as [x|] eqn:Hx; [|done].
    by destruct (Hall _ _ Hx) as (_ & _ & _ & Hn).
Qed.

(** ** Instances of the further properties *)

(** X3 on [Set5]: the construction returns, so the tree is well formed. *)
Lemma X3_witness :
  ∃ dl dls,
    mapM (listing Set5 demo_fs "/d/SRBenchmarks" "val")
      (all_tracks Set5 "val" ["bicubic"%string] [2])
    = Some (dl :: dls) ∧
    Forall (λ dl', length dl'.2 = length dl.2) dls.
Proof.
  edestruct (X3_success_means_well_formed (Image:=string) Set5 elements id
               no_download "/d/SRBenchmarks" (inl 2) (inl "bicubic"%string)
               "val" None inr false (initial demo_fs))
    as (_ & st1 & dl & dls & Hdl & HF & Hcnt & _).
  - vm_compute. reflexivity.
  - injection Hdl as <-. exists dl, dls. split; [exact HF|exact Hcnt].
Defined.

(** X4 on [Set5] without the directory of scale 2. *)
Lemma X4_witness :
  ∃ st2 : State string,
    Set5_init elements id no_download "/d" (inl 2) None inr false
      (initial hr_only_fs)
    = (inl (FileNotFoundError "/d/SRBenchmarks/benchmark/Set5/LR_bicubic/X2"),
       st2) ∧
    trace st2 = [ EvListdir "/d/SRBenchmarks/benchmark/Set5/HR"
                ; EvListdir "/d/SRBenchmarks/benchmark/Set5/LR_bicubic/X2" ] ∧
    samples (self st2) = Some [].
Proof.
  apply (X4_missing_directory (Image:=string) Set5 elements id no_download
           "/d/SRBenchmarks" (inl 2) (inl "bicubic"%string) "val" None inr
           false (initial hr_only_fs)
           (constructed "/d/SRBenchmarks" [2] ["bicubic"%string] "val" None inr
              (initial hr_only_fs))
           [("hr"%string, 1)] ("bicubic"%string, 2) []
           [("/d/SRBenchmarks/benchmark/Set5/HR"%string,
             ["b.png"; "c.png"; "a.png"]%string)]
           "/d/SRBenchmarks/benchmark/Set5/LR_bicubic/X2").
  - reflexivity.
  - reflexivity.
  - vm_compute. reflexivity.
  - vm_compute. reflexivity.
  - vm_compute. reflexivity.
  - vm_compute. reflexivity.
Defined.

(** X5 on the test split of [Div2K] with no scale. *)
Lemma X5_witness :
  ∃ st2 : State string,
    Div2K_init elements id no_download "/d" (inr []) (inr []) "test" None inr
      false (initial div2k_test_fs) = (inl IndexError, st2) ∧
    trace st2 = [] ∧
    samples (self st2) = Some [].
Proof.
  apply (X5_nothing_requested_without_hr (Image:=string) Div2K elements id
           no_download "/d/DIV2K" (inr []) (inr []) "test" None inr false
           (initial div2k_test_fs)
           (constructed "/d/DIV2K" [] [] "test" None inr (initial div2k_test_fs))).
  - vm_compute. reflexivity.
  - reflexivity.
  - reflexivity.
  - reflexivity.
Defined.

(** X6 on [Set5] with no scale. *)
Lemma X6_witness :
  ∃ st2 : State string,
    Set5_init elements id no_download "/d" (inr []) None inr false
      (initial hr_only_fs) = (inr tt, st2) ∧
    samples (self st2)
    = Some [ ["/d/SRBenchmarks/benchmark/Set5/HR/a.png"]
           ; ["/d/SRBenchmarks/benchmark/Set5/HR/b.png"]
           ; ["/d/SRBenchmarks/benchmark/Set5/HR/c.png"] ]%string ∧
    Folder_len st2 = (inr 3%nat, st2).
Proof.
  edestruct (X6_nothing_requested_with_hr (Image:=string) Set5 elements id
               no_download "/d/SRBenchmarks" (inr []) (inl "bicubic"%string)
               "val" None inr false (initial hr_only_fs)
               (constructed "/d/SRBenchmarks" [] [] "val" None inr
                  (initial hr_only_fs))
               "benchmark/Set5/HR" ["b.png"; "c.png"; "a.png"]%string)
    as (st2 & H1 & H2 & H3).
  - vm_compute. reflexivity.
  - reflexivity.
  - reflexivity.
  - reflexivity.
  - vm_compute. reflexivity.
  - exists st2. split; [exact H1|]. split; [|exact H3].
    rewrite H2. vm_compute. reflexivity.
Defined.

(** X7 on the test split of [Div2K], where scale 4 has a file less: the
    message names scale 3. *)
Lemma X7_witness :
  ∃ st2 : State string,
    Div2K_init elements id no_download "/d" (inr [2; 3; 4])
      (inl "bicubic"%string) "test" None inr false (initial div2k_test_fs)
    = (inl (ValueError "Number of files for bicubicX3 does not match HR"), st2).
Proof.
  edestruct (X7_mismatch_names_position (Image:=string) Div2K elements id
               no_download "/d/DIV2K" (inr [2; 3; 4]) (inl "bicubic"%string)
               "test" None inr false (initial div2k_test_fs)
               (constructed "/d/DIV2K" [2; 3; 4]
                  ["bicubic"; "bicubic"; "bicubic"]%string "test" None inr
                  (initial div2k_test_fs))
               ("/d/DIV2K/DIV2K_test_LR_bicubic/X2"%string,
                ["0901x2.png"; "0902x2.png"]%string)
               [("/d/DIV2K/DIV2K_test_LR_bicubic/X3"%string,
                 ["0901x3.png"; "0902x3.png"]%string)]
               ("/d/DIV2K/DIV2K_test_LR_bicubic/X4"%string, ["0901x4.png"]%string)
               [])
    as (t & sc & st2 & Ht & Hs & H & _).
  - reflexivity.
  - reflexivity.
  - vm_compute. reflexivity.
  - repeat constructor.
  - simpl. lia.
  - injection Ht as <-. injection Hs as <-. exists st2. exact H.
Defined.

(** X8 on [Set5]. *)
Lemma X8_witness :
  ∃ (st2 : State string) rows_,
    Set5_init elements id no_download "/d" (inl 2) None inr false
      (initial demo_fs) = (inr tt, st2) ∧
    samples (self st2) = Some rows_ ∧
    component 1 rows_
    ≡ₚ [ "/d/SRBenchmarks/benchmark/Set5/LR_bicubic/X2/cx2.png"
       ; "/d/SRBenchmarks/benchmark/Set5/LR_bicubic/X2/ax2.png"
       ; "/d/SRBenchmarks/benchmark/Set5/LR_bicubic/X2/bx2.png" ]%string.
Proof.
  edestruct (X8_each_file_once (Image:=string) Set5 elements id
               no_download "/d/SRBenchmarks" (inl 2) (inl "bicubic"%string)
               "val" None inr false (initial demo_fs))
    as (st2 & rows_ & H1 & H2 & H3).
  - reflexivity.
  - reflexivity.
  - vm_compute. reflexivity.
  - repeat constructor.
  - exists st2, rows_. split; [exact H1|]. split; [exact H2|].
    apply (H3 1%nat ("/d/SRBenchmarks/benchmark/Set5/LR_bicubic/X2"%string,
                     ["cx2.png"; "ax2.png"; "bx2.png"]%string) eq_refl).
Defined.

(** X9 on the training split of [Div2K], whose downscaled files are named
    after the originals. *)
Lemma X9_witness :
  ∃ (st2 : State string) rows_,
    Div2K_init elements id no_download "/d" (inl 2) (inl "bicubic"%string)
      "train" None inr false (initial div2k_numbered_fs) = (inr tt, st2) ∧
    samples (self st2) = Some rows_ ∧
    ∀ (i : nat) row_, rows_ !! i = Some row_ →
      ∃ name,
        row_ !! 0%nat = Some (os_path_join "/d/DIV2K/DIV2K_train_HR" [name]) ∧
        row_ !! 1%nat
        = Some (os_path_join "/d/DIV2K/DIV2K_train_LR_bicubic/X2" [x2_name name]).
Proof.
  edestruct (X9_order_preserving_names_pair_up (Image:=string) Div2K elements
               id no_download "/d/DIV2K" (inl 2) (inl "bicubic"%string)
               "train" None inr false (initial div2k_numbered_fs)
               (constructed "/d/DIV2K" [2] ["bicubic"%string] "train" None inr
                  (initial div2k_numbered_fs))
               ("/d/DIV2K/DIV2K_train_HR"%string,
                ["0002.png"; "0001.png"; "0003.png"]%string)
               [("/d/DIV2K/DIV2K_train_LR_bicubic/X2"%string,
                 ["0003x2.png"; "0001x2.png"; "0002x2.png"]%string)]
               0%nat
               ("/d/DIV2K/DIV2K_train_LR_bicubic/X2"%string,
                ["0003x2.png"; "0001x2.png"; "0002x2.png"]%string)
               x2_name)
    as (st2 & rows_ & H1 & H2 & _ & H3).
  - reflexivity.
  - reflexivity.
  - vm_compute. reflexivity.
  - reflexivity.
  - vm_compute. apply perm_trans with
      ["0003x2.png"; "0002x2.png"; "0001x2.png"]%string.
    + apply perm_skip, perm_swap.
    + apply perm_trans with ["0002x2.png"; "0003x2.png"; "0001x2.png"]%string.
      * apply perm_swap.
      * apply perm_skip, perm_swap.
  - intros a b Ha Hb. cbn [snd] in Ha, Hb.
    apply elem_of_cons in Ha as [->|Ha];
      [|apply elem_of_cons in Ha as [->|Ha];
        [|apply elem_of_cons in Ha as [->|Ha];
          [|by apply elem_of_nil in Ha]]];
    (apply elem_of_cons in Hb as [->|Hb];
      [|apply elem_of_cons in Hb as [->|Hb];
        [|apply elem_of_cons in Hb as [->|Hb];
          [|by apply elem_of_nil in Hb]]]);
    vm_compute; intros H; exact H.
  - repeat constructor.
  - exists st2, rows_. split; [exact H1|]. split; [exact H2|].
    intros i row_ Hi. destruct (H3 i row_ Hi) as (name & _ & Ha & Hb).
    exists name. split; [exact Ha|exact Hb].
Defined.

(** X10 on [Set5], whose table has one archive. *)
Lemma X10_witness :
  ∃ st' : State string,
    download Set5 no_download
      (constructed "/d/SRBenchmarks" [2] ["bicubic"%string] "val" None inr
         (initial demo_fs))
    = (inr tt, st') ∧
    trace st'
    = [ EvDownload "https://cv.snu.ac.kr/research/EDSR/benchmark.tar"
          "/d/SRBenchmarks" "4ace41d33c2384b97e6b320cd0afd6ba" ].
Proof.
  edestruct (X10_download_requests_every_archive (Image:=string) Set5
               no_download
               (constructed "/d/SRBenchmarks" [2] ["bicubic"%string] "val"
                  None inr (initial demo_fs))
               "/d/SRBenchmarks")
    as (st' & H1 & _ & H2).
  - reflexivity.
  - intros u tree _. exists tree. reflexivity.
  - exists st'. split; [exact H1|exact H2].
Defined.

(** X11 on [Div2K] when the second archive has a wrong checksum: two
    archives are asked for, the other twenty-six are not. *)
Lemma X11_witness :
  ∃ st' : State string,
    download Div2K flaky_download
      (constructed "/d/DIV2K" [2] ["bicubic"%string] "train" None inr
         (initial demo_fs))
    = (inl (ExternalError "checksum mismatch"), st') ∧
    trace st'
    = [ EvDownload "http://data.vision.ee.ethz.ch/cvl/DIV2K/DIV2K_train_HR.zip"
          "/d/DIV2K" "bdc2d9338d4e574fe81bf7d158758658"
      ; EvDownload
          "http://data.vision.ee.ethz.ch/cvl/DIV2K/DIV2K_train_LR_bicubic_X2.zip"
          "/d/DIV2K" "9a637d2ef4db0d0a81182be37fb00692" ].
Proof.
  edestruct (X11_download_stops_at_failure (Image:=string) Div2K
               flaky_download
               (constructed "/d/DIV2K" [2] ["bicubic"%string] "train" None inr
                  (initial demo_fs))
               "/d/DIV2K" (take 1 (urls Div2K))
               ("http://data.vision.ee.ethz.ch/cvl/DIV2K/DIV2K_train_LR_bicubic_X2.zip"%string,
                "9a637d2ef4db0d0a81182be37fb00692"%string)
               (drop 2 (urls Div2K)) demo_fs "checksum mismatch")
    as (st' & H1 & _ & _ & H2).
  - reflexivity.
  - reflexivity.
  - vm_compute. reflexivity.
  - vm_compute. reflexivity.
  - exists st'. split; [exact H1|exact H2].
Defined.

(** X12 on [Set5] with a server that cannot be reached. *)
Lemma X12_witness :
  ∃ e (st1 : State string),
    Set5_init elements id failing_download "/d" (inl 2) None inr true
      (initial demo_fs) = (inl e, st1) ∧
    samples (self st1) = Some [].
Proof.
  edestruct (X12_failed_download_aborts (Image:=string) Set5 elements id
               failing_download "/d/SRBenchmarks" (inl 2)
               (inl "bicubic"%string) "val" None inr (initial demo_fs))
    as (H1 & H2 & _).
  - reflexivity.
  - vm_compute. reflexivity.
  - eexists _, _. split; [exact H1|exact H2].
Defined.

(** X13 on [Set5]. *)
Lemma X13_witness :
  ∃ res (st' : State string) ds,
    Set5_init elements id no_download "/d" (inl 2) None inr false
      (initial demo_fs) = (res, st') ∧
    trace st' = EvListdir <$> ds ∧
    fs st' = demo_fs.
Proof.
  edestruct (X13_downloads_then_listings (Image:=string) Set5 elements id
               no_download "/d/SRBenchmarks" (inl 2) (inl "bicubic"%string)
               "val" None inr false (initial demo_fs))
    as (us & ds & H1 & H2 & _ & H3 & _).
  - reflexivity.
  - vm_compute. reflexivity.
  - apply prefix_nil_inv in H2. subst us. eexists _, _, ds.
    split; [vm_compute; reflexivity|]. split; [exact H1|exact (H3 eq_refl)].
Defined.

(** X14 on a dataset of one sample. *)
Lemma X14_witness :
  Folder_getitem 1 (put_samples [["/a.png"%string]] (initial (Image:=string) ∅))
  = (inl IndexError, put_samples [["/a.png"%string]] (initial ∅)).
Proof.
  apply (proj1 (X14_index_handling (Image:=string)
                  (put_samples [["/a.png"%string]] (initial ∅))
                  [["/a.png"%string]] 1 eq_refl)).
  cbn [length]. lia.
Defined.

(** X15 with a loader that finds no file. *)
Lemma X15_witness :
  Folder_getitem 0
    (put_samples [["/a.png"; "/b.png"]%string]
       (constructed "/" [2] ["bicubic"%string] "val" None
          (λ path, inl (FileNotFoundError path) : exn + string) (initial ∅)))
  = (inl (FileNotFoundError "/a.png"),
     put_samples [["/a.png"; "/b.png"]%string]
       (constructed "/" [2] ["bicubic"%string] "val" None
          (λ path, inl (FileNotFoundError path)) (initial ∅))).
Proof.
  apply (X15_loader_failure_propagates (Image:=string) _
           [["/a.png"; "/b.png"]%string]
           (λ path, inl (FileNotFoundError path)) None 0
           [] "/a.png" ["/b.png"%string]).
  - reflexivity.
  - reflexivity.
  - reflexivity.
  - reflexivity.
  - constructor.
  - reflexivity.
Defined.

(** X17 on [Set5] at scale 8. *)
Lemma X17_witness :
  ∃ st2 : State string,
    Set5_init elements id no_download "/d" (inl 8) None inr false
      (initial hr_only_fs)
    = (inl (ValueError "Div2K track bicubic does not include scale X8"), st2) ∧
    samples (self st2) = Some [].
Proof.
  edestruct (X17_benchmark_scale_not_in_table (Image:=string) elements id
               no_download "Set5" "/d" 8 None inr false (initial hr_only_fs)
               (constructed "/d/SRBenchmarks" [8] ["bicubic"%string] "val"
                  None inr (initial hr_only_fs))
               ["b.png"; "c.png"; "a.png"]%string)
    as (st2 & H1 & _ & H2).
  - lia.
  - lia.
  - lia.
  - reflexivity.
  - vm_compute. reflexivity.
  - exists st2. split; [exact H1|exact H2].
Defined.
